(** * verus-gateway: retrieval pipeline and caching core

    A shallow embedding of the Go packages [domain], [verusrpc], [crypto],
    [storage], [cache] and [service] of the gateway, and the properties the
    specification states about them.

    Conventions.
    - A Go [string] is a [string] (a sequence of bytes, [len] is
      [String.length]); a [[]byte] is a [list byte].
    - Go [int], [int64] and [time.Duration] are [Z]; wrap-around and
      saturation are written out where the code can reach them.
    - A Go [error] is a value of [goerror]; a [(T, error)] result is a sum.
    - Functions of the Go standard library that the code calls (SHA-256,
      JSON, gzip, the HTTP content sniffer) are fields of type classes: the
      theorems hold for every implementation of them.
    - Goroutines are not run: the store that [GetFile] spawns is part of
      its outcome. *)

From Stdlib Require Import ZArith Lia Bool List Ascii String.
From Stdlib.Strings Require Import Byte.
From stdpp Require Import base option list gmap strings pretty sorting.

Open Scope string_scope.
Open Scope Z_scope.

Abbreviation bytes := (list byte).

#[global] Instance byte_eq_dec : EqDecision byte := Byte.byte_eq_dec.

(** ** Strings as byte sequences *)

Module GoString.

Definition chars (s : string) : list ascii := list_ascii_of_string s.

Definition len (s : string) : Z := Z.of_nat (String.length s).

Definition to_bytes (s : string) : bytes := list_byte_of_string s.

Definition is_digit (c : ascii) : bool :=
  let n := nat_of_ascii c in (48 <=? n)%nat && (n <=? 57)%nat.

Definition is_lower (c : ascii) : bool :=
  let n := nat_of_ascii c in (97 <=? n)%nat && (n <=? 122)%nat.

Definition is_upper (c : ascii) : bool :=
  let n := nat_of_ascii c in (65 <=? n)%nat && (n <=? 90)%nat.

Definition is_alnum (c : ascii) : bool := is_lower c || is_upper c || is_digit c.

(** [a-fA-F0-9] *)
Definition is_hex (c : ascii) : bool :=
  let n := nat_of_ascii c in
  ((97 <=? n)%nat && (n <=? 102)%nat) || ((65 <=? n)%nat && (n <=? 70)%nat) || is_digit c.

Definition one_of (cs : string) (c : ascii) : bool :=
  existsb (Ascii.eqb c) (chars cs).

(** [strings.Contains] *)
Fixpoint Contains (s sub : string) : bool :=
  String.prefix sub s ||
  match s with
  | EmptyString => false
  | String _ s' => Contains s' sub
  end.

(** [strings.HasPrefix] *)
Definition HasPrefix (s p : string) : bool := String.prefix p s.

(** [s] occurs somewhere inside [t]. *)
Definition occurs_in (s t : string) : Prop :=
  ∃ pre post : string, t = pre ++ s ++ post.

End GoString.

(** ** Go errors

    One type for every [error] value the modelled packages build:
    sentinels ([errors.New]), [fmt.Errorf] with and without [%w], the RPC
    client's [*RPCError], the context errors, and the domain's [*Error]. *)

Record Error_ (E : Type) : Type := mkError {
  Code : string;
  Message : string;
  Err : option E;
  HTTPStatus : Z;
  Details : gmap string string
}.
Arguments mkError {E} _ _ _ _ _.
Arguments Code {E} _.
Arguments Message {E} _.
Arguments Err {E} _.
Arguments HTTPStatus {E} _.
Arguments Details {E} _.

#[warnings="-register-all"]
Inductive goerror : Type :=
  | ErrorsNew (msg : string)
  | ErrorfW (msg : string) (inner : goerror)
  | RPCError (code : Z) (msg : string)
  | ContextCanceled
  | ContextDeadlineExceeded
  | DomainError (e : Error_ goerror).

Abbreviation Error := (Error_ goerror).

(** The [Error()] method, used wherever the code formats an error with
    [%v] or calls [err.Error()]. *)
Fixpoint error_string (e : goerror) : string :=
  match e with
  | ErrorsNew msg => msg
  | ErrorfW msg inner => msg ++ ": " ++ error_string inner
  | RPCError code msg => "rpc error " ++ pretty code ++ ": " ++ msg
  | ContextCanceled => "context canceled"
  | ContextDeadlineExceeded => "context deadline exceeded"
  | DomainError (mkError _ m (Some inner) _ _) => m ++ ": " ++ error_string inner
  | DomainError (mkError _ m None _ _) => m
  end.

(** A Go [(T, error)] pair: exactly one side is meaningful. *)
Inductive result (T : Type) : Type :=
  | Ok (v : T)
  | Fail (e : goerror).
Arguments Ok {T} _.
Arguments Fail {T} _.

(** ** Package domain *)

Module Domain.

(** *** errors.go *)

Definition ErrNotFound := ErrorsNew "not found".
Definition ErrInvalidInput := ErrorsNew "invalid input".
Definition ErrCacheMiss := ErrorsNew "cache miss".
Definition ErrChainNotFound := ErrorsNew "chain not found".
Definition ErrRPCError := ErrorsNew "rpc error".
Definition ErrDecryptionFailed := ErrorsNew "decryption failed".
Definition ErrDecompressionFailed := ErrorsNew "decompression failed".
Definition ErrInvalidTXID := ErrorsNew "invalid txid".
Definition ErrInvalidEVK := ErrorsNew "invalid evk".

Definition NewError (code message : string) (httpStatus : Z) (err : option goerror) : Error :=
  mkError code message err httpStatus ∅.

Definition WithDetail (e : Error) (key value : string) : Error :=
  mkError (Code e) (Message e) (Err e) (HTTPStatus e) (<[key := value]> (Details e)).

Definition NewNotFoundError (resource id : string) : Error :=
  WithDetail (WithDetail
    (NewError "NOT_FOUND" (resource ++ " not found") 404 (Some ErrNotFound))
    "resource" resource) "id" id.

Definition NewInvalidInputError (field reason : string) : Error :=
  WithDetail (WithDetail
    (NewError "INVALID_INPUT" ("invalid input: " ++ reason) 400 (Some ErrInvalidInput))
    "field" field) "reason" reason.

Definition NewRPCError (method : string) (err : option goerror) : Error :=
  WithDetail
    (NewError "RPC_ERROR" ("rpc call failed: " ++ method) 502 err)
    "method" method.

Definition NewDecryptionError (txid : string) (err : option goerror) : Error :=
  WithDetail
    (NewError "DECRYPTION_FAILED" "failed to decrypt data" 500 err)
    "txid" txid.

Definition NewChainError (chainID reason : string) : Error :=
  WithDetail (WithDetail
    (NewError "CHAIN_ERROR" ("chain error: " ++ reason) 400 None)
    "chain_id" chainID) "reason" reason.

Definition NewDecompressionError (reason : string) : Error :=
  WithDetail
    (NewError "DECOMPRESSION_FAILED" ("decompression failed: " ++ reason) 500
              (Some ErrDecompressionFailed))
    "reason" reason.

(** *** file.go *)

Record FileMetadata : Type := mkFileMetadata {
  Filename : string;
  Size : Z;
  ContentType : string;
  Extension : string;
  Hash : string;
  Compressed : bool;
  Encrypted : bool;
  CreatedAt : option Z
}.

(** The zero value of the struct ([var metadata domain.FileMetadata]). *)
Definition zeroFileMetadata : FileMetadata :=
  mkFileMetadata "" 0 "" "" "" false false None.

Record File : Type := mkFile {
  TXID : string;
  ChainID : string;
  Content : bytes;
  Metadata : option FileMetadata;
  RetrievedAt : Z
}.

Record FileRequest : Type := mkFileRequest {
  rTXID : string;
  rEVK : string;
  rChainID : string;
  rFilename : string;
  rUseCache : bool
}.

(** [^[a-fA-F0-9]{64}$] *)
Definition txidPattern (s : string) : bool :=
  (String.length s =? 64)%nat && forallb GoString.is_hex (GoString.chars s).

(** [^zxviews[a-zA-Z0-9]{90,}$] *)
Definition evkPattern (s : string) : bool :=
  String.prefix "zxviews" s &&
  let rest := GoString.chars (String.substring 7 (String.length s - 7) s) in
  (90 <=? length rest)%nat && forallb GoString.is_alnum rest.

(** [^[a-zA-Z0-9._\-() \[\]]+$] *)
Definition filenamePattern (s : string) : bool :=
  negb (String.eqb s "") &&
  forallb (λ c, GoString.is_alnum c || GoString.one_of "._-() []" c) (GoString.chars s).

(** [^[a-zA-Z0-9_\-]+$] *)
Definition chainIDPattern (s : string) : bool :=
  negb (String.eqb s "") &&
  forallb (λ c, GoString.is_alnum c || GoString.one_of "_-" c) (GoString.chars s).

Definition invalid (field reason : string) : option goerror :=
  Some (DomainError (NewInvalidInputError field reason)).

Definition Validate (r : FileRequest) : option goerror :=
  if String.eqb (rTXID r) "" then invalid "txid" "txid is required"
  else if negb (GoString.len (rTXID r) =? 64) then
    invalid "txid" "txid must be exactly 64 characters"
  else if negb (txidPattern (rTXID r)) then
    invalid "txid" "txid must be valid hex (0-9, a-f)"
  else if String.eqb (rChainID r) "" then invalid "chain_id" "chain_id is required"
  else if GoString.len (rChainID r) >? 32 then
    invalid "chain_id" "chain_id too long (max 32 characters)"
  else if negb (chainIDPattern (rChainID r)) then
    invalid "chain_id" "chain_id contains invalid characters"
  else if negb (String.eqb (rFilename r) "") &&
          (GoString.len (rFilename r) >? 255) then
    invalid "filename" "filename too long (max 255 characters)"
  else if negb (String.eqb (rFilename r) "") &&
          (GoString.Contains (rFilename r) ".." || GoString.Contains (rFilename r) "/"
           || GoString.Contains (rFilename r) "\") then
    invalid "filename" "filename contains invalid path characters"
  else if negb (String.eqb (rFilename r) "") && negb (filenamePattern (rFilename r)) then
    invalid "filename" "filename contains invalid characters"
  else if negb (String.eqb (rEVK r) "") &&
          ((GoString.len (rEVK r) <? 95) || (GoString.len (rEVK r) >? 500)) then
    invalid "evk" "viewing key has invalid length (must be 95-500 characters)"
  else if negb (String.eqb (rEVK r) "") && negb (evkPattern (rEVK r)) then
    invalid "evk" "viewing key has invalid format (must start with 'zxviews')"
  else None.

Definition colon : ascii := ":"%char.

Definition suffix_of (r : FileRequest) : string :=
  if negb (String.eqb (rEVK r) "") then ":encrypted" else "".


Definition CacheKey (r : FileRequest) : string :=
  if negb (String.eqb (rEVK r) "") then
    rChainID r ++ ":" ++ rTXID r ++ ":encrypted"
  else
    rChainID r ++ ":" ++ rTXID r.

End Domain.

(** ** Package verusrpc (pkg/verusrpc/client.go) *)

Module Verusrpc.

Definition maxInt64 : Z := 2 ^ 63 - 1.
Definition minInt64 : Z := - 2 ^ 63.

(** Two's-complement wrap-around of [int64] arithmetic. *)
Definition wrap64 (z : Z) : Z := (z + 2 ^ 63) mod 2 ^ 64 - 2 ^ 63.

Record Client : Type := mkClient {
  url : string;
  user : string;
  password : string;
  timeout : Z;
  maxRetries : Z;
  retryDelay : Z
}.

(** The three atomic counters of the client. *)
Record Metrics : Type := mkMetrics {
  requestCount : Z;
  errorCount : Z;
  totalDuration : Z
}.

Record Config : Type := mkConfig {
  cfgURL : string;
  cfgUser : string;
  cfgPassword : string;
  cfgTimeout : Z;
  cfgMaxRetries : Z;
  cfgRetryDelay : Z
}.

Definition second : Z := 1000000000.
Definition millisecond : Z := 1000000.

Definition NewClient (cfg : Config) : Client :=
  let t := if cfgTimeout cfg =? 0 then 30 * second else cfgTimeout cfg in
  let r := if cfgMaxRetries cfg =? 0 then 3 else cfgMaxRetries cfg in
  let d := if cfgRetryDelay cfg =? 0 then 500 * millisecond else cfgRetryDelay cfg in
  mkClient (cfgURL cfg) (cfgUser cfg) (cfgPassword cfg) t r d.

(** [Response]: the [result] member is kept raw, the [error] member is
    present or absent. *)
Record Response : Type := mkResponse {
  respResult : bytes;
  respError : option (Z * string)
}.

(** [encoding/json] on the response envelope. *)
Class ResponseCodec : Type := {
  json_Unmarshal_Response : bytes → result Response
}.

(** What one HTTP exchange of [call] runs into: the first step that
    fails, or the status and body that came back. *)
Inductive httpOutcome : Type :=
  | MarshalFailed (e : goerror)
  | NewRequestFailed (e : goerror)
  | DoFailed (e : goerror)
  | ReadFailed (e : goerror)
  | Responded (status : Z) (body : bytes).

(** The world around one [Call]: per attempt index, the HTTP exchange and
    its duration in microseconds; whether the context is done before the
    back-off timer of that attempt fires; and [ctx.Err()] right after the
    attempt. *)
Record Env : Type := mkEnv {
  roundTrip : Z → httpOutcome;
  elapsedMicros : Z → Z;
  doneWhileWaiting : Z → option goerror;
  errAfter : Z → option goerror
}.

Inductive event : Type :=
  | Waited (d : Z)
  | Attempted (attempt : Z).

Definition bump_errors (m : Metrics) : Metrics :=
  mkMetrics (requestCount m) (errorCount m + 1) (totalDuration m).

Definition recordMetrics (m : Metrics) (micros : Z) (err : option goerror) : Metrics :=
  let m' := mkMetrics (requestCount m) (errorCount m) (totalDuration m + micros) in
  match err with Some _ => bump_errors m' | None => m' end.

Section WithCodec.
Context `{ResponseCodec}.

(** [Client.call]: a single JSON-RPC exchange. *)
Definition call (m : Metrics) (o : httpOutcome) (micros : Z) : result bytes * Metrics :=
  let m1 := mkMetrics (requestCount m + 1) (errorCount m) (totalDuration m) in
  let '(r, m2) :=
    match o with
    | MarshalFailed e => (Fail (ErrorfW "failed to marshal request" e), bump_errors m1)
    | NewRequestFailed e => (Fail (ErrorfW "failed to create request" e), bump_errors m1)
    | DoFailed e => (Fail (ErrorfW "http request failed" e), bump_errors m1)
    | ReadFailed e => (Fail (ErrorfW "failed to read response" e), bump_errors m1)
    | Responded status body =>
        if negb (status =? 200) then
          (Fail (ErrorsNew ("http error " ++ pretty status ++ ": "
                              ++ string_of_list_byte body)), bump_errors m1)
        else
          match json_Unmarshal_Response body with
          | Fail e => (Fail (ErrorfW "failed to unmarshal response" e), bump_errors m1)
          | Ok resp =>
              match respError resp with
              | Some (code, msg) => (Fail (RPCError code msg), bump_errors m1)
              | None => (Ok (respResult resp), m1)
              end
          end
    end in
  (r, recordMetrics m2 micros None).

(** The JSON-RPC codes that [Call] does not retry. *)
Definition reserved_code (code : Z) : bool := (-32099 <=? code) && (code <=? -32000).

Definition no_retry (err : goerror) : bool :=
  match err with
  | RPCError code _ => reserved_code code
  | _ => false
  end.

Definition exhausted (c : Client) (lastErr : option goerror) : goerror :=
  let msg := "rpc call failed after " ++ pretty (wrap64 (maxRetries c + 1)) ++ " attempts" in
  match lastErr with
  | Some e => ErrorfW msg e
  | None => ErrorsNew (msg ++ ": %!w(<nil>)")
  end.

(** The loop of [Client.Call], [n] iterations left, about to run
    iteration [attempt]. The trace is in execution order. *)
Fixpoint Call_loop (c : Client) (env : Env) (n : nat) (attempt : Z)
    (lastErr : option goerror) (m : Metrics) : result bytes * list event * Metrics :=
  match n with
  | O => (Fail (exhausted c lastErr), [], m)
  | S n' =>
      let waited :=
        if attempt >? 0 then
          match doneWhileWaiting env attempt with
          | Some e => inl e
          | None => inr [Waited (wrap64 (retryDelay c * attempt))]
          end
        else inr [] in
      match waited with
      | inl e => (Fail e, [], m)
      | inr w =>
          let '(r, m') := call m (roundTrip env attempt) (elapsedMicros env attempt) in
          let tr := (w ++ [Attempted attempt])%list in
          match r with
          | Ok v => (Ok v, tr, m')
          | Fail err =>
              match errAfter env attempt with
              | Some e => (Fail e, tr, m')
              | None =>
                  if no_retry err then (Fail err, tr, m')
                  else
                    let '(r', tr', m'') :=
                      Call_loop c env n' (attempt + 1) (Some err) m' in
                    (r', (tr ++ tr')%list, m'')
              end
          end
      end
  end.

(** [Client.Call]: the loop runs for [attempt = 0 .. maxRetries]
    ([maxRetries] below the largest [int], so that [attempt++] does not
    wrap; the configuration keeps it within 0..10). *)
Definition Call (c : Client) (env : Env) (m : Metrics)
    : result bytes * list event * Metrics :=
  Call_loop c env (Z.to_nat (maxRetries c + 1)) 0 None m.

(** How many HTTP exchanges a trace holds. *)
Definition is_attempt (ev : event) : bool :=
  match ev with Attempted _ => true | Waited _ => false end.

Definition attempts (tr : list event) : Z :=
  Z.of_nat (length (List.filter is_attempt tr)).

Definition waits (tr : list event) : list Z :=
  omap (λ ev, match ev with Waited d => Some d | _ => None end) tr.

(** The error [call] returns for an outcome, if it returns one. *)
Definition call_error (o : httpOutcome) : option goerror :=
  match fst (call (mkMetrics 0 0 0) o 0) with
  | Fail e => Some e
  | Ok _ => None
  end.

(** A transport error or a non-200 HTTP status. *)
Definition transport_or_status (o : httpOutcome) : Prop :=
  match o with
  | DoFailed _ | ReadFailed _ => True
  | Responded status _ => status ≠ 200
  | _ => False
  end.

(** One iteration of the loop: the back-off wait (none before the
    first attempt), then the exchange. *)
Definition iteration (c : Client) (attempt : Z) : list event :=
  ((if attempt >? 0 then [Waited (wrap64 (retryDelay c * attempt))] else [])
     ++ [Attempted attempt])%list.

Definition last_cause (env : Env) (n : nat) (a : Z) (lastErr : option goerror)
    : option goerror :=
  match n with
  | O => lastErr
  | S _ => call_error (roundTrip env (a + Z.of_nat n - 1))
  end.

(** A decoded JSON value, as far as [DecryptData] looks at it. *)
Inductive jvalue : Type :=
  | JString (s : string)
  | JOther.

(** [encoding/json] on the result of [decryptdata]: an array of objects. *)
Class ResultCodec : Type := {
  json_Unmarshal_ObjectArray : bytes → result (list (gmap string jvalue))
}.

Context `{ResultCodec}.

(** [Client.DecryptData]. The descriptor envelope sent with the call is
    a constant apart from [txid] and [evk]; the node's answers are in
    [env]. *)
Definition DecryptData (c : Client) (env : Env) (m : Metrics) (txid evk : string)
    : result string * list event * Metrics :=
  let '(r, tr, m') := Call c env m in
  match r with
  | Fail err => (Fail (ErrorfW "decryptdata failed" err), tr, m')
  | Ok raw =>
      match json_Unmarshal_ObjectArray raw with
      | Fail err => (Fail (ErrorfW "failed to parse decryptdata result array" err), tr, m')
      | Ok [] => (Fail (ErrorsNew "decryptdata returned empty result"), tr, m')
      | Ok (first :: _) =>
          match first !! "objectdata" with
          | Some (JString objectData) => (Ok objectData, tr, m')
          | _ => (Fail (ErrorsNew "objectdata field not found or not a string"), tr, m')
          end
      end
  end.

End WithCodec.

End Verusrpc.

(** ** Package crypto (internal/crypto/decrypt.go) *)

Module Crypto.

(** [^[0-9a-fA-F]{64}$] *)
Definition reTXID (s : string) : bool :=
  (String.length s =? 64)%nat && forallb GoString.is_hex (GoString.chars s).

(** [^zxviews[0-9a-z]+$] *)
Definition reEVK (s : string) : bool :=
  String.prefix "zxviews" s &&
  let rest := GoString.chars (String.substring 7 (String.length s - 7) s) in
  (1 <=? length rest)%nat &&
  forallb (λ c, GoString.is_digit c || GoString.is_lower c) rest.

Definition ValidateTXID (txid : string) : option goerror :=
  if negb (reTXID txid) then Some Domain.ErrInvalidTXID else None.

Definition ValidateEVK (evk : string) : option goerror :=
  if negb (reEVK evk) then Some Domain.ErrInvalidEVK else None.

(** The interface [RPCClient]: one [decryptdata] exchange with the node,
    context included. *)
Class RPCClient (C : Type) : Type := {
  client_DecryptData : C → string → string → result string
}.

(** [encoding/hex]: the value of one hex digit. *)
Definition fromHexChar (c : ascii) : option N :=
  let n := N_of_ascii c in
  if ((48 <=? n) && (n <=? 57))%N then Some (n - 48)%N
  else if ((97 <=? n) && (n <=? 102))%N then Some (n - 97 + 10)%N
  else if ((65 <=? n) && (n <=? 70))%N then Some (n - 65 + 10)%N
  else None.

Definition errLength : goerror := ErrorsNew "encoding/hex: odd length hex string".
Definition errInvalidByte : goerror := ErrorsNew "encoding/hex: invalid byte".

Definition byte_of_nibbles (a b : N) : byte :=
  match Byte.of_N (16 * a + b) with Some x => x | None => x00 end.

(** [hex.DecodeString], reporting the first offending digit before an
    odd length, as the library does. *)
Fixpoint hex_decode (cs : list ascii) : result bytes :=
  match cs with
  | [] => Ok []
  | [p] => match fromHexChar p with Some _ => Fail errLength | None => Fail errInvalidByte end
  | p :: q :: rest =>
      match fromHexChar p, fromHexChar q with
      | Some a, Some b =>
          match hex_decode rest with
          | Ok out => Ok (byte_of_nibbles a b :: out)
          | Fail e => Fail e
          end
      | _, _ => Fail errInvalidByte
      end
  end.

Definition hex_DecodeString (s : string) : result bytes := hex_decode (GoString.chars s).

Section WithClient.
Context {C : Type} `{RPCClient C}.

(** [Decryptor.DecryptData]. Beside the result, the calls issued to
    the client are returned as (txid, evk) pairs. *)
Definition DecryptData (client : C) (txid evk : string)
    : result bytes * list (string * string) :=
  match ValidateTXID txid with
  | Some err => (Fail (DomainError (Domain.NewInvalidInputError "txid" (error_string err))), [])
  | None =>
      match ValidateEVK evk with
      | Some err =>
          (Fail (DomainError (Domain.NewInvalidInputError "evk" (error_string err))), [])
      | None =>
          match client_DecryptData client txid evk with
          | Fail err =>
              (Fail (DomainError (Domain.NewDecryptionError txid (Some err))), [(txid, evk)])
          | Ok hexData =>
              match hex_DecodeString hexData with
              | Fail err =>
                  (Fail (DomainError (Domain.NewDecryptionError txid
                           (Some (ErrorfW "failed to decode hex data" err)))),
                   [(txid, evk)])
              | Ok data => (Ok data, [(txid, evk)])
              end
          end
      end
  end.

End WithClient.

End Crypto.

(** ** Package storage: decompressor *)

Module Storage.

Definition blen (b : bytes) : Z := Z.of_nat (length b).

(** [bytes.HasPrefix] *)
Fixpoint HasPrefix (content magic : bytes) : bool :=
  match magic, content with
  | [], _ => true
  | m :: magic', c :: content' => Byte.eqb c m && HasPrefix content' magic'
  | _ :: _, [] => false
  end.

(** [bytes.Contains] *)
Fixpoint Contains (content sub : bytes) : bool :=
  HasPrefix content sub ||
  match content with
  | [] => false
  | _ :: content' => Contains content' sub
  end.

(** [content[lo:hi]] for [0 <= lo <= hi <= len(content)]. *)
Definition slice (content : bytes) (lo hi : nat) : bytes :=
  take (hi - lo) (drop lo content).

(** [compress/gzip]. [gzip_NewReader content] fails on a bad header;
    otherwise it yields the chunks that the successive [Read] calls of
    [io.Copy] deliver, and the error that ends the stream ([None] for
    [io.EOF]). *)
Class GzipLib : Type := {
  gzip_NewReader : bytes → result (list bytes * option goerror)
}.

Record Decompressor : Type := mkDecompressor { maxSize : Z }.

Record DecompressorConfig : Type := mkDecompressorConfig { cfgMaxSize : Z }.

Definition NewDecompressor (cfg : DecompressorConfig) : Decompressor :=
  mkDecompressor (if cfgMaxSize cfg =? 0 then 100 * 1024 * 1024 else cfgMaxSize cfg).

Definition isGzipped (content : bytes) : bool :=
  match content with
  | b0 :: b1 :: _ => Byte.eqb b0 x1f && Byte.eqb b1 x8b
  | _ => false
  end.

(** [limitedWriter]: the buffer written so far and the bytes still allowed. *)
Record limitedWriter : Type := mkLimitedWriter { W : bytes; N : Z }.

(** The errors that can stop [io.Copy] here; the sentinel
    [errSizeLimitExceeded] is compared by identity in the code. *)
Inductive copyError : Type :=
  | errSizeLimitExceeded
  | ErrShortWrite
  | ReadError (e : goerror).

(** [limitedWriter.Write]; the underlying [bytes.Buffer] takes every byte. *)
Definition Write (l : limitedWriter) (p : bytes) : limitedWriter * Z * option copyError :=
  if N l <=? 0 then (l, 0, Some errSizeLimitExceeded)
  else
    let p' := if blen p >? N l then take (Z.to_nat (N l)) p else p in
    let n := blen p' in
    let l' := mkLimitedWriter (W l ++ p') (N l - n) in
    if N l' <=? 0 then (l', n, Some errSizeLimitExceeded)
    else (l', n, None).

(** [io.Copy(lim, gr)] over the chunks the reader delivers. *)
Fixpoint io_Copy (l : limitedWriter) (chunks : list bytes) (final : option goerror)
    : limitedWriter * option copyError :=
  match chunks with
  | [] => (l, option_map ReadError final)
  | p :: rest =>
      if blen p >? 0 then
        let '(l', nw, ew) := Write l p in
        match ew with
        | Some e => (l', Some e)
        | None => if negb (blen p =? nw) then (l', Some ErrShortWrite)
                  else io_Copy l' rest final
        end
      else io_Copy l rest final
  end.

Definition copyError_error (e : copyError) : goerror :=
  match e with
  | errSizeLimitExceeded => ErrorsNew "size limit exceeded"
  | ErrShortWrite => ErrorsNew "short write"
  | ReadError e => e
  end.

Section WithGzip.
Context `{GzipLib}.

Definition decompressGzip (d : Decompressor) (content : bytes) : result bytes :=
  match gzip_NewReader content with
  | Fail err => Fail err
  | Ok (chunks, final) =>
      let '(lim, err) := io_Copy (mkLimitedWriter [] (maxSize d)) chunks final in
      match err with
      | Some errSizeLimitExceeded =>
          Fail (DomainError (Domain.NewDecompressionError
            ("decompressed size exceeds limit of " ++ pretty (maxSize d) ++ " bytes")))
      | Some e => Fail (copyError_error e)
      | None => Ok (W lim)
      end
  end.

Definition Decompress (d : Decompressor) (content : bytes) : result bytes :=
  if negb (isGzipped content) then Ok content
  else
    match decompressGzip d content with
    | Fail err =>
        Fail (DomainError (Domain.NewDecompressionError
          ("gzip decompression failed: " ++ error_string err)))
    | Ok decompressed => Ok decompressed
    end.


End WithGzip.

(** *** Detector (internal/storage/detector.go) *)

(** [http.DetectContentType] *)
Class Sniffer : Type := {
  http_DetectContentType : bytes → string
}.

Definition B (s : string) : bytes := list_byte_of_string s.

Definition signatures : list (bytes * string) :=
  [ ([xff; xd8; xff], "image/jpeg");
    ([x89; x50; x4e; x47], "image/png");
    (B "GIF87a", "image/gif");
    (B "GIF89a", "image/gif");
    (B "RIFF", "image/webp");
    ([x42; x4d], "image/bmp");
    ([x00; x00; x00; x18; x66; x74; x79; x70], "video/mp4");
    ([x1a; x45; xdf; xa3], "video/webm");
    (B "ID3", "audio/mpeg");
    ([xff; xfb], "audio/mpeg");
    (B "OggS", "audio/ogg");
    (B "RIFF", "audio/wav");
    (B "%PDF", "application/pdf");
    ([x50; x4b; x03; x04], "application/zip");
    ([x1f; x8b], "application/x-gzip");
    (B "Rar!", "application/x-rar-compressed");
    ([x37; x7a; xbc; xaf; x27; x1c], "application/x-7z-compressed") ].

(** The body of the loop over the signature table. *)
Fixpoint scan_signatures (content : bytes) (sigs : list (bytes * string)) : string :=
  match sigs with
  | [] => ""
  | (magic, mime) :: rest =>
      if HasPrefix content magic then
        if HasPrefix content (B "RIFF") && (blen content >? 12) then
          if Contains (slice content 8 12) (B "WAVE") then "audio/wav"
          else if Contains (slice content 8 12) (B "WEBP") then "image/webp"
          else if Contains (slice content 8 12) (B "AVI ") then "video/x-msvideo"
          else mime
        else mime
      else scan_signatures content rest
  end.

Definition detectBySignature (content : bytes) : string :=
  if blen content <? 16 then "" else scan_signatures content signatures.

(** The MIME types the signature path can return. *)
Definition signature_types : list string :=
  "video/x-msvideo" :: map snd signatures.

Definition isGzipCompressed (content : bytes) : bool :=
  match content with
  | b0 :: b1 :: _ => Byte.eqb b0 x1f && Byte.eqb b1 x8b
  | _ => false
  end.

Definition extMap : list (string * string) :=
  [ ("image/jpeg", "jpg"); ("image/png", "png"); ("image/gif", "gif");
    ("image/webp", "webp"); ("image/svg+xml", "svg"); ("image/bmp", "bmp");
    ("video/mp4", "mp4"); ("video/webm", "webm"); ("video/mpeg", "mpeg");
    ("audio/mpeg", "mp3"); ("audio/ogg", "ogg"); ("audio/wav", "wav");
    ("application/pdf", "pdf"); ("application/zip", "zip");
    ("application/x-gzip", "gz"); ("application/json", "json");
    ("application/xml", "xml"); ("text/html", "html"); ("text/css", "css");
    ("text/javascript", "js"); ("text/plain", "txt");
    ("application/octet-stream", "bin") ].

Fixpoint assoc (k : string) (l : list (string * string)) : option string :=
  match l with
  | [] => None
  | (k', v) :: rest => if String.eqb k k' then Some v else assoc k rest
  end.

(** [filepath.Ext]: the suffix from the last dot of the last path
    element; scanning left to right, a separator forgets the candidate
    and a dot starts a new one. *)
Fixpoint ext_scan (s : string) (candidate : string) : string :=
  match s with
  | EmptyString => candidate
  | String c s' =>
      if Ascii.eqb c "/" then ext_scan s' ""
      else if Ascii.eqb c "." then ext_scan s' s
      else ext_scan s' candidate
  end.

Definition filepath_Ext (path : string) : string := ext_scan path "".

(** [strings.TrimPrefix(ext, ".")] *)
Definition trim_dot (ext : string) : string :=
  match ext with
  | String c rest => if Ascii.eqb c "." then rest else ext
  | EmptyString => ext
  end.

Section WithSniffer.
Context `{Sniffer}.

Definition DetectMIME (content : bytes) : string :=
  if blen content =? 0 then "application/octet-stream"
  else
    let mimeType := http_DetectContentType content in
    if String.eqb mimeType "application/octet-stream"
       || String.eqb mimeType "text/plain; charset=utf-8" then
      let detected := detectBySignature content in
      if negb (String.eqb detected "") then detected else mimeType
    else mimeType.

Definition DetectExtension (content : bytes) : string :=
  match assoc (DetectMIME content) extMap with
  | Some ext => ext
  | None => "bin"
  end.

(** [DetectType] never returns an error. *)
Definition DetectType (content : bytes) (filename : string) : result Domain.FileMetadata :=
  let ext1 :=
    if negb (String.eqb filename "") then
      let ext := filepath_Ext filename in
      if negb (String.eqb ext "") then trim_dot ext else ""
    else "" in
  let ext2 := if String.eqb ext1 "" then DetectExtension content else ext1 in
  Ok (Domain.mkFileMetadata filename (blen content) (DetectMIME content) ext2 ""
        (isGzipCompressed content) false None).

End WithSniffer.

End Storage.

(** ** Package cache: the filesystem cache

    The cache directory holds, per key, [<h[0:2]>/<h>.bin] and
    [<h[0:2]>/<h>.meta] with [h] the hex SHA-256 of the key. It is modelled
    as two finite maps from [h] to the [.bin] file (bytes and modification
    time) and to the [.meta] file. File-system calls are taken to succeed,
    except that a file may be absent; the clock reading of an operation is
    an argument, and a written file gets it as modification time. Sizes
    stay far below 2^63, so the counters are plain integers. *)

Module Cache.
Import Domain.

(** [crypto/sha256] followed by [hex.EncodeToString]: 64 hex digits. *)
Class Hasher : Type := {
  sha256_hex : string → string
}.

(** [encoding/json] on [FileMetadata]. [json_Unmarshal_FileMetadata b] is
    the struct left behind by unmarshalling [b] into a zero value,
    whether or not an error is reported (the code ignores it). *)
Class MetaCodec : Type := {
  json_Marshal_FileMetadata : FileMetadata → result bytes;
  json_Unmarshal_FileMetadata : bytes → FileMetadata
}.

Record binFile : Type := mkBinFile { data : bytes; modTime : Z }.

Record FilesystemCache : Type := mkFilesystemCache {
  baseDir : string;
  maxSize : Z;
  ttl : Z;
  cleanupInterval : Z
}.

(** The directory and the four atomic counters. *)
Record State : Type := mkState {
  bins : gmap string binFile;
  metas : gmap string bytes;
  hits : Z;
  misses : Z;
  size : Z;
  items : Z
}.

Record FilesystemCacheConfig : Type := mkFilesystemCacheConfig {
  cfgBaseDir : string;
  cfgMaxSize : Z;
  cfgTTL : Z;
  cfgCleanupInterval : Z
}.

Definition hour : Z := 3600 * 1000000000.

Definition fsize (f : binFile) : Z := Z.of_nat (length (data f)).

(** Total size of a listing of [.bin] files, and of the stored ones. *)
Definition total (l : list (string * binFile)) : Z :=
  foldr (λ kv acc, fsize kv.2 + acc) 0 l.

Definition stored (m : gmap string binFile) : Z := total (map_to_list m).


(** [time.Time.Sub], which saturates at the ends of [time.Duration]. *)
Definition time_Sub (t u : Z) : Z :=
  Z.max Verusrpc.minInt64 (Z.min Verusrpc.maxInt64 (t - u)).

Definition name_le (a b : string * binFile) : Prop := String.le a.1 b.1.

#[export] Instance name_le_dec : RelDecision name_le.
Proof. intros a b. unfold name_le. apply _. Defined.

(** [filepath.Walk] restricted to the [.bin] files: lexical order. *)
Definition walk (m : gmap string binFile) : list (string * binFile) :=
  merge_sort name_le (map_to_list m).

(** [calculateSize] *)
Definition calculateSize (st : State) : State :=
  let files := walk (bins st) in
  mkState (bins st) (metas st) (hits st) (misses st)
          (foldl (λ acc kv, acc + fsize kv.2) 0 files)
          (Z.of_nat (length files)).

(** [NewFilesystemCache] on a directory with the given content. *)
Definition NewFilesystemCache (cfg : FilesystemCacheConfig)
    (dirBins : gmap string binFile) (dirMetas : gmap string bytes)
    : FilesystemCache * State :=
  let c := mkFilesystemCache (cfgBaseDir cfg)
             (if cfgMaxSize cfg =? 0 then 1024 * 1024 * 1024 else cfgMaxSize cfg)
             (if cfgTTL cfg =? 0 then 24 * hour else cfgTTL cfg)
             (if cfgCleanupInterval cfg =? 0 then 1 * hour else cfgCleanupInterval cfg) in
  (c, calculateSize (mkState dirBins dirMetas 0 0 0 0)).

Definition add_miss (st : State) : State :=
  mkState (bins st) (metas st) (hits st) (misses st + 1) (size st) (items st).

Definition add_hit (st : State) : State :=
  mkState (bins st) (metas st) (hits st + 1) (misses st) (size st) (items st).

(** [os.Remove] of the [.bin] and the [.meta] of one entry; counters untouched. *)
Definition remove_files (name : string) (st : State) : State :=
  mkState (delete name (bins st)) (delete name (metas st))
          (hits st) (misses st) (size st) (items st).

Definition add_size (ds di : Z) (st : State) : State :=
  mkState (bins st) (metas st) (hits st) (misses st) (size st + ds) (items st + di).

(** One inner pass of the bubble sort: [k] comparisons from the front,
    swapping when the left file is strictly newer. *)
Fixpoint bubble_pass (k : nat) (files : list (string * binFile)) : list (string * binFile) :=
  match k, files with
  | S k', a :: b :: rest =>
      if modTime a.2 >? modTime b.2 then b :: bubble_pass k' (a :: rest)
      else a :: bubble_pass k' (b :: rest)
  | _, _ => files
  end.

(** The outer loop: passes of [p], [p-1], ..., [1] comparisons. *)
Fixpoint bubble_passes (p : nat) (files : list (string * binFile)) : list (string * binFile) :=
  match p with
  | O => files
  | S p' => bubble_passes p' (bubble_pass p files)
  end.

Definition bubble_sort (files : list (string * binFile)) : list (string * binFile) :=
  bubble_passes (length files - 1) files.

(** The eviction loop of [evictOldest]. *)
Fixpoint evict_loop (neededSize : Z) (files : list (string * binFile)) (freedSize : Z)
    (st : State) : State :=
  match files with
  | [] => st
  | f :: rest =>
      if freedSize >=? neededSize then st
      else evict_loop neededSize rest (freedSize + fsize f.2)
             (add_size (- fsize f.2) (-1) (remove_files f.1 st))
  end.

Definition evictOldest (neededSize : Z) (st : State) : State :=
  evict_loop neededSize (bubble_sort (walk (bins st))) 0 st.

(** [cleanup]: the sweep over the [.bin] files. *)
Definition cleanup (c : FilesystemCache) (now : Z) (st : State) : State :=
  foldl (λ acc kv,
           if time_Sub now (modTime kv.2) >? ttl c then
             add_size (- fsize kv.2) (-1) (remove_files kv.1 acc)
           else acc)
        st (walk (bins st)).

Section WithLibs.
Context `{Hasher} `{MetaCodec}.

(** The metadata part of [Get]: the [.meta] file decoded into a zero
    value, if the file is there. *)
Definition read_meta (name : string) (st : State) : FileMetadata :=
  match metas st !! name with
  | Some metaBytes => json_Unmarshal_FileMetadata metaBytes
  | None => zeroFileMetadata
  end.

(** [Get]. [ctx] is [ctx.Err()] on entry. *)
Definition Get (c : FilesystemCache) (ctx : option goerror) (now : Z) (key : string)
    (st : State) : result File * State :=
  match ctx with
  | Some err => (Fail err, st)
  | None =>
      let name := sha256_hex key in
      match bins st !! name with
      | None => (Fail ErrCacheMiss, add_miss st)
      | Some info =>
          if time_Sub now (modTime info) >? ttl c then
            (Fail ErrCacheMiss, remove_files name (add_miss st))
          else
            let metadata := read_meta name st in
            (Ok (mkFile "" "" (data info) (Some metadata) now), add_hit st)
      end
  end.

(** [Set]. The [ttl] argument is not used by the code. *)
Definition Set_ (c : FilesystemCache) (ctx : option goerror) (now : Z) (key : string)
    (file : File) (ttl_ : Z) (st : State) : option goerror * State :=
  match ctx with
  | Some err => (Some err, st)
  | None =>
      let fileSize := Z.of_nat (length (Content file)) in
      let st1 := if size st + fileSize >? maxSize c then evictOldest fileSize st else st in
      let name := sha256_hex key in
      let bins' := <[name := mkBinFile (Content file) now]> (bins st1) in
      let metas' :=
        match Metadata file with
        | Some md =>
            match json_Marshal_FileMetadata md with
            | Ok metaBytes => <[name := metaBytes]> (metas st1)
            | Fail _ => metas st1
            end
        | None => metas st1
        end in
      (None, mkState bins' metas' (hits st1) (misses st1) (size st1 + fileSize) (items st1 + 1))
  end.

(** [Delete] *)
Definition Delete (ctx : option goerror) (key : string) (st : State)
    : option goerror * State :=
  match ctx with
  | Some err => (Some err, st)
  | None =>
      let name := sha256_hex key in
      let st1 := match bins st !! name with
                 | Some info => add_size (- fsize info) (-1) st
                 | None => st
                 end in
      (None, remove_files name st1)
  end.

(** One [Set] call of a sequence. *)
Record setCall : Type := mkSetCall {
  scCtx : option goerror;
  scNow : Z;
  scKey : string;
  scFile : File;
  scTTL : Z
}.

Definition run_Set (c : FilesystemCache) (st : State) (op : setCall) : State :=
  snd (Set_ c (scCtx op) (scNow op) (scKey op) (scFile op) (scTTL op) st).

Definition run_Sets (c : FilesystemCache) (st : State) (ops : list setCall) : State :=
  foldl (run_Set c) st ops.

End WithLibs.

End Cache.

(** ** Package service (internal/service/file_service.go) and the error
    translation of the HTTP surface *)

Module Service.
Import Domain.

(** The interface [domain.Cache], as far as [GetFile] calls it. [Get]
    takes [ctx.Err()] on entry, the clock, the key and the cache state. *)
Class CacheImpl (K : Type) : Type := {
  cache_Get : K → option goerror → Z → string → result File * K
}.

(** The [cache.Set] that [GetFile] hands to a goroutine with a fresh
    five-second context. *)
Record asyncSet : Type := mkAsyncSet {
  asKey : string;
  asFile : File;
  asTTL : Z
}.

Section WithDeps.
Context {C : Type} `{Crypto.RPCClient C}.
Context {K : Type} `{CacheImpl K}.
Context `{Storage.GzipLib} `{Storage.Sniffer}.

(** [chain.Manager] with the clients it owns, and the service. *)
Record FileService : Type := mkFileService {
  chains : gmap string C;
  defaultChain : string;
  cache : option K;
  decompressor : Storage.Decompressor
}.

Definition NewFileService (chains : gmap string C) (defaultChain : string)
    (cache : option K) : FileService :=
  mkFileService chains defaultChain cache
    (Storage.NewDecompressor (Storage.mkDecompressorConfig (100 * 1024 * 1024))).

(** [Manager.GetChain] *)
Definition GetChain (s : FileService) (chainID : string) : result C :=
  match chains s !! chainID with
  | Some client => Ok client
  | None => Fail (DomainError (NewChainError chainID "chain not found"))
  end.

(** [FileService.getClient] *)
Definition getClient (s : FileService) (chainID : string) : result C :=
  if String.eqb chainID "" then GetChain s (defaultChain s) else GetChain s chainID.

(** What one [GetFile] does: the value returned, the cache state it
    leaves, the client calls it issued, and the store it spawned. *)
Record outcome : Type := mkOutcome {
  returned : result File;
  cacheAfter : option K;
  rpcCalls : list (string * string);
  spawned : option asyncSet
}.

Definition cache_lookup (s : FileService) (ctx : option goerror) (now : Z)
    (req : FileRequest) : option File * option K :=
  match cache s with
  | Some k =>
      if rUseCache req then
        let '(r, k') := cache_Get k ctx now (CacheKey req) in
        match r with
        | Ok cached => (Some cached, Some k')
        | Fail _ => (None, Some k')
        end
      else (None, Some k)
  | None => (None, None)
  end.

(** [FileService.GetFile] *)
Definition GetFile (s : FileService) (ctx : option goerror) (now : Z)
    (req : FileRequest) : outcome :=
  match Validate req with
  | Some err => mkOutcome (Fail err) (cache s) [] None
  | None =>
      let '(hit, k') := cache_lookup s ctx now req in
      match hit with
      | Some cached => mkOutcome (Ok cached) k' [] None
      | None =>
          match getClient s (rChainID req) with
          | Fail err => mkOutcome (Fail err) k' [] None
          | Ok client =>
              let '(r, calls) := Crypto.DecryptData client (rTXID req) (rEVK req) in
              match r with
              | Fail err => mkOutcome (Fail err) k' calls None
              | Ok encryptedData =>
                  let data :=
                    match Storage.Decompress (decompressor s) encryptedData with
                    | Ok d => d
                    | Fail _ => encryptedData
                    end in
                  match Storage.DetectType data (rFilename req) with
                  | Fail err =>
                      mkOutcome (Fail (ErrorfW "failed to detect file type" err)) k' calls None
                  | Ok metadata =>
                      let file := mkFile (rTXID req) (rChainID req) data (Some metadata) now in
                      let store :=
                        match cache s with
                        | Some _ =>
                            if rUseCache req then
                              Some (mkAsyncSet (CacheKey req) file (24 * Cache.hour))
                            else None
                        | None => None
                        end in
                      mkOutcome (Ok file) k' calls store
                  end
              end
          end
      end
  end.

End WithDeps.

(** [FileHandler.writeError]: the status and the error code of the JSON
    body. Only a [*domain.Error] itself carries its own status. *)
Definition writeError (err : goerror) : Z * string :=
  match err with
  | DomainError e => (HTTPStatus e, Code e)
  | _ => (500, "INTERNAL_ERROR")
  end.

End Service.

(** ** Wiring: the implementations behind the interfaces *)

Module Wiring.

(** [*verusrpc.Client] as a [crypto.RPCClient]: the client and the node
    it talks to. *)
#[export] Instance verus_rpc_client `{Verusrpc.ResponseCodec} `{Verusrpc.ResultCodec}
    : Crypto.RPCClient (Verusrpc.Client * Verusrpc.Env) := {|
  Crypto.client_DecryptData ce txid evk :=
    (Verusrpc.DecryptData ce.1 ce.2 (Verusrpc.mkMetrics 0 0 0) txid evk).1.1
|}.

(** [mockRPCClient] of decrypt_test.go. *)
Record mockRPCClient : Type := mkMockRPCClient {
  hexData : string;
  err : option goerror
}.

#[export] Instance mock_rpc_client : Crypto.RPCClient mockRPCClient := {|
  Crypto.client_DecryptData m _ _ :=
    match err m with
    | Some e => Fail e
    | None => Ok (hexData m)
    end
|}.

(** [*cache.FilesystemCache] as a [domain.Cache]. *)
#[export] Instance fs_cache `{Cache.Hasher} `{Cache.MetaCodec}
    : Service.CacheImpl (Cache.FilesystemCache * Cache.State) := {|
  Service.cache_Get k ctx now key :=
    let '(r, st') := Cache.Get k.1 ctx now key k.2 in (r, (k.1, st'))
|}.

(** The status and error code the HTTP surface answers with. *)
Definition response_of (r : result Domain.File) : Z * string :=
  match r with
  | Ok _ => (200, "")
  | Fail e => Service.writeError e
  end.

End Wiring.

(** ** More of package verusrpc: what [Call] retries *)

Module Retry.
Import Verusrpc.

Section WithCodec.
Context `{ResponseCodec}.

(** An exchange that fails with an error [Call] goes on after: anything
    but success and a JSON-RPC error of the reserved band. *)
Definition retryable (o : httpOutcome) : bool :=
  match call_error o with
  | Some e => negb (no_retry e)
  | None => false
  end.

(** An exchange that succeeds. *)
Definition succeeds (o : httpOutcome) : option bytes :=
  match fst (call (mkMetrics 0 0 0) o 0) with
  | Ok v => Some v
  | Fail _ => None
  end.

(** The trace of the iterations [a], [a+1], ..., [a+k-1]. *)
Definition iterations (c : Client) (a : Z) (k : nat) : list event :=
  concat (map (iteration c) (seqZ a (Z.of_nat k))).

End WithCodec.

End Retry.

(** ** More of package cache: [Clear] and sequences of operations *)

Module CacheOps.
Import Domain Cache.

(** [Clear]: the directory is removed and made anew, the size and item
    counters are reset; hits and misses stay. *)
Definition Clear (ctx : option goerror) (st : State) : option goerror * State :=
  match ctx with
  | Some err => (Some err, st)
  | None => (None, mkState ∅ ∅ (hits st) (misses st) 0 0)
  end.

(** The test that [Get] and [cleanup] apply to a [.bin] file. *)
Definition expired (c : FilesystemCache) (now : Z) (f : binFile) : bool :=
  time_Sub now (modTime f) >? ttl c.

(** Number of [.bin] files. *)
Definition file_count (m : gmap string binFile) : Z := Z.of_nat (length (map_to_list m)).

(** Both counters are at least what the directory holds. *)
Definition counters_cover (st : State) : Prop :=
  stored (bins st) <= size st ∧ file_count (bins st) <= items st.

(** Both counters are exactly what the directory holds. *)
Definition counters_exact (st : State) : Prop :=
  size st = stored (bins st) ∧ items st = file_count (bins st).

(** The order that the sort in [evictOldest] aims at: not modified later. *)
Definition mtime_le (a b : string * binFile) : Prop := modTime a.2 <= modTime b.2.

Section WithLibs.
Context `{Hasher} `{MetaCodec}.

(** One call on the cache, or one tick of the sweeper. *)
Inductive op : Type :=
  | OpGet (ctx : option goerror) (now : Z) (key : string)
  | OpSet (ctx : option goerror) (now : Z) (key : string) (file : File) (ttl_ : Z)
  | OpDelete (ctx : option goerror) (key : string)
  | OpClear (ctx : option goerror)
  | OpCleanup (now : Z).

Definition run_op (c : FilesystemCache) (st : State) (o : op) : State :=
  match o with
  | OpGet ctx now key => (Get c ctx now key st).2
  | OpSet ctx now key file ttl_ => (Set_ c ctx now key file ttl_ st).2
  | OpDelete ctx key => (Delete ctx key st).2
  | OpClear ctx => (Clear ctx st).2
  | OpCleanup now => cleanup c now st
  end.

Definition run_ops (c : FilesystemCache) (st : State) (ops : list op) : State :=
  foldl (run_op c) st ops.

End WithLibs.

End CacheOps.

(** ** More of package service *)

Module ServiceOps.
Import Domain Service.

Section WithDeps.
Context {C : Type} `{Crypto.RPCClient C}.
Context {K : Type} `{CacheImpl K}.
Context `{Storage.GzipLib} `{Storage.Sniffer}.

(** The service looking at the cache in state [k]. *)
Definition with_cache (s : @FileService C K) (k : K) : @FileService C K :=
  mkFileService (chains s) (defaultChain s) (Some k) (decompressor s).

(** The service with another default chain. *)
Definition with_default (s : @FileService C K) (d : string) : @FileService C K :=
  mkFileService (chains s) d (cache s) (decompressor s).

(** [FileService.GetMetadata]: the whole file is fetched. *)
Definition GetMetadata (s : @FileService C K) (ctx : option goerror) (now : Z)
    (req : FileRequest) : result (option FileMetadata) * outcome :=
  let o := GetFile s ctx now req in
  match returned o with
  | Ok file => (Ok (Metadata file), o)
  | Fail err => (Fail err, o)
  end.

End WithDeps.

End ServiceOps.

(** ** Package handler (internal/http/handler/file_handler.go) *)

Module Handler.
Import Domain Service.

(** What the handler reads off the HTTP request: the two URL parameters,
    the two query values (empty when absent) and the request id that the
    middleware left in the context. *)
Record request : Type := mkRequest {
  chainParam : string;
  txidParam : string;
  evkQuery : string;
  txidQuery : string;
  requestID : string
}.

(** [isHexString]. The loop runs over runes; a rune in one of the three
    ranges is a single byte, and a byte outside them belongs to a rune
    outside them, so the test is the same byte by byte. *)
Definition isHexString (s : string) : bool :=
  forallb (λ c, negb ((Ascii.ltb c "0" || Ascii.ltb "9" c) &&
                      (Ascii.ltb c "a" || Ascii.ltb "f" c) &&
                      (Ascii.ltb c "A" || Ascii.ltb "F" c)))
          (GoString.chars s).

(** The request that [GetFile] builds. *)
Definition fileRequest (r : request) : FileRequest :=
  if (GoString.len (txidParam r) =? 64) && isHexString (txidParam r) then
    mkFileRequest (txidParam r) (evkQuery r) (chainParam r) "" true
  else
    mkFileRequest (txidQuery r) (evkQuery r) (chainParam r) (txidParam r) true.

(** The request that [HeadFile] and [GetMeta] build. *)
Definition metaRequest (r : request) : FileRequest :=
  mkFileRequest (txidParam r) (evkQuery r) (chainParam r) "" true.

(** The body written: the bytes of a file, or the JSON object of
    [writeError] with its [details] member when there is one. *)
Inductive body : Type :=
  | FileBody (content : bytes)
  | ErrorBody (error message request_id : string) (details : option (gmap string string))
  | NoBody.

(** Status, headers under the names the handler sets them with, body. *)
Record response : Type := mkResponse {
  status : Z;
  header : gmap string string;
  payload : body
}.

(** A handler either writes a response or panics on a nil pointer. *)
Inductive handled : Type :=
  | Panicked
  | Wrote (resp : response).

Definition quote : string := String "034"%char EmptyString.

(** [strings.ReplaceAll] of the double quote by backslash and double quote. *)
Fixpoint escape_quotes (s : string) : string :=
  match s with
  | EmptyString => EmptyString
  | String c rest =>
      if Ascii.eqb c "034" then String "\"%char (String "034"%char (escape_quotes rest))
      else String c (escape_quotes rest)
  end.

(** [writeError] through [writeJSON]. *)
Definition writeError (r : request) (err : goerror) : response :=
  match err with
  | DomainError e =>
      mkResponse (HTTPStatus e) {[ "Content-Type" := "application/json" ]}
        (ErrorBody (Code e) (Message e) (requestID r)
           (if (0 <? Z.of_nat (length (map_to_list (Details e)))) then Some (Details e)
            else None))
  | _ =>
      mkResponse 500 {[ "Content-Type" := "application/json" ]}
        (ErrorBody "INTERNAL_ERROR" "An internal error occurred" (requestID r) None)
  end.

(** [setFileHeaders] on a file whose metadata is [md]. *)
Definition setFileHeaders (txid : string) (md : FileMetadata) : gmap string string :=
  let h1 : gmap string string :=
    if negb (String.eqb (ContentType md) "") then {[ "Content-Type" := ContentType md ]}
    else {[ "Content-Type" := "application/octet-stream" ]} in
  let h2 :=
    if negb (String.eqb (Filename md) "") then
      <[ "Content-Disposition" :=
           "inline; filename=" ++ quote ++ escape_quotes (Filename md) ++ quote ]> h1
    else h1 in
  let h3 := if Size md >? 0 then <[ "Content-Length" := pretty (Size md) ]> h2 else h2 in
  <[ "ETag" := quote ++ txid ++ quote ]>
    (<[ "Cache-Control" := "public, max-age=31536000, immutable" ]> h3).

Section WithDeps.
Context {C : Type} `{Crypto.RPCClient C}.
Context {K : Type} `{CacheImpl K}.
Context `{Storage.GzipLib} `{Storage.Sniffer}.

(** [FileHandler.GetFile], with what the service did for it. *)
Definition GetFile (s : @FileService C K) (ctx : option goerror) (now : Z) (r : request)
    : handled * outcome :=
  let req := fileRequest r in
  let o := Service.GetFile s ctx now req in
  match returned o with
  | Fail err => (Wrote (writeError r err), o)
  | Ok file =>
      match Metadata file with
      | None => (Panicked, o)
      | Some md =>
          let md' :=
            if negb (String.eqb (rFilename req) "") && String.eqb (Filename md) "" then
              mkFileMetadata (rFilename req) (Size md) (ContentType md) (Extension md)
                (Hash md) (Compressed md) (Encrypted md) (CreatedAt md)
            else md in
          (Wrote (mkResponse 200 (setFileHeaders (TXID file) md') (FileBody (Content file))), o)
      end
  end.

(** [FileHandler.HeadFile] *)
Definition HeadFile (s : @FileService C K) (ctx : option goerror) (now : Z) (r : request)
    : handled * outcome :=
  let o := Service.GetFile s ctx now (metaRequest r) in
  match returned o with
  | Fail err => (Wrote (writeError r err), o)
  | Ok file =>
      match Metadata file with
      | None => (Panicked, o)
      | Some md =>
          let h1 : gmap string string :=
            if negb (String.eqb (ContentType md) "") then {[ "Content-Type" := ContentType md ]}
            else ∅ in
          let h2 := if Size md >? 0 then <[ "Content-Length" := pretty (Size md) ]> h1
                    else h1 in
          let h3 :=
            if negb (String.eqb (Filename md) "") then
              <[ "Content-Disposition" := "inline; filename=" ++ quote ++ Filename md ++ quote ]> h2
            else h2 in
          (Wrote (mkResponse 200 h3 NoBody), o)
      end
  end.

End WithDeps.

End Handler.

(** ** Package chain (internal/chain/manager.go) with the chain part of
    package config *)

Module Chain.
Import Domain.

(** [config.ChainConfig] *)
Record ChainConfig : Type := mkChainConfig {
  ccName : string;
  ccEnabled : bool;
  ccRPCURL : string;
  ccRPCUser : string;
  ccRPCPassword : string;
  ccRPCTimeout : Z;
  ccTLSInsecure : bool;
  ccMaxRetries : Z;
  ccRetryDelay : Z
}.

(** [config.ChainsConfig] *)
Record ChainsConfig : Type := mkChainsConfig {
  Default : string;
  Chains : gmap string ChainConfig
}.

(** [ChainConfig.Validate] *)
Definition ChainConfig_Validate (cc : ChainConfig) (id : string) : option goerror :=
  if negb (ccEnabled cc) then None
  else if String.eqb (ccRPCURL cc) "" then Some (ErrorsNew "rpc_url is required")
  else if String.eqb (ccRPCUser cc) "" then Some (ErrorsNew "rpc_user is required")
  else if String.eqb (ccRPCPassword cc) "" then Some (ErrorsNew "rpc_password is required")
  else if ccRPCTimeout cc <? Verusrpc.second then
    Some (ErrorsNew "rpc_timeout must be at least 1 second")
  else if (ccMaxRetries cc <? 0) || (ccMaxRetries cc >? 10) then
    Some (ErrorsNew "max_retries must be between 0 and 10")
  else None.

Record Chain : Type := mkChain {
  ID : string;
  Name : string;
  Config : ChainConfig;
  Client : Verusrpc.Client
}.

Record Manager : Type := mkManager {
  chains : gmap string Chain;
  defaultChain : string
}.

(** The body of the first loop of [NewManager] for one entry. *)
Definition new_chain (id : string) (chainCfg : ChainConfig) : option Chain :=
  if negb (ccEnabled chainCfg) then None
  else
    Some (mkChain id (ccName chainCfg) chainCfg
            (Verusrpc.NewClient
               (Verusrpc.mkConfig (ccRPCURL chainCfg) (ccRPCUser chainCfg)
                  (ccRPCPassword chainCfg) (ccRPCTimeout chainCfg)
                  (ccMaxRetries chainCfg) (ccRetryDelay chainCfg)))).

(** The map that the first loop builds: each key is written once, so the
    order of the iteration does not show. *)
Definition enabled_chains (cfg : ChainsConfig) : gmap string Chain :=
  map_imap new_chain (Chains cfg).

(** [NewManager]. [order] lists the ids in the order in which the range
    over [manager.chains] yields them; only its head is used. *)
Definition NewManager (cfg : ChainsConfig) (order : list string) : result Manager :=
  let chains := enabled_chains cfg in
  if Z.of_nat (size chains) =? 0 then Fail (ErrorsNew "no chains configured")
  else if negb (String.eqb (Default cfg) "") then
    match chains !! Default cfg with
    | None => Fail (ErrorsNew ("default chain " ++ Default cfg ++ " not found"))
    | Some _ => Ok (mkManager chains (Default cfg))
    end
  else
    match order with
    | id :: _ => Ok (mkManager chains id)
    | [] => Ok (mkManager chains "")
    end.

(** [Manager.GetChain] *)
Definition GetChain (m : Manager) (chainID : string) : result Verusrpc.Client :=
  match chains m !! chainID with
  | Some chain => Ok (Client chain)
  | None => Fail (DomainError (NewChainError chainID "chain not found"))
  end.

(** [Manager.GetDefaultChain] *)
Definition GetDefaultChain (m : Manager) : result Verusrpc.Client :=
  GetChain m (defaultChain m).

(** [Manager.GetChainInfo] *)
Definition GetChainInfo (m : Manager) (chainID : string) : result Chain :=
  match chains m !! chainID with
  | Some chain => Ok chain
  | None => Fail (DomainError (NewChainError chainID "chain not found"))
  end.

End Chain.

(** ** Concrete inputs

    Small closed values on which the theorems below are exercised. Where a
    function of the Go standard library is needed, the sample instance is
    a finite table of what the real function returns on the listed inputs. *)

Module Samples.

(** Writes a JSON text with ['] for the double quote. *)
Definition dq (s : string) : bytes :=
  map (λ b, if Byte.eqb b "'"%byte then x22 else b) (list_byte_of_string s).

(** *** RPC client *)

Definition server_error_body : bytes :=
  dq "{'jsonrpc':'2.0','id':1,'error':{'code':-32000,'message':'Server error'}}".

(** The node's answer of the specification's second scenario, and its
    [result] member. *)
Definition hello_world_body : bytes :=
  dq "{'result':[{'objectdata':'48656c6c6f2c20576f726c6421'}],'error':null,'id':1}".
Definition hello_world_result : bytes :=
  dq "[{'objectdata':'48656c6c6f2c20576f726c6421'}]".

#[export] Instance sample_codec : Verusrpc.ResponseCodec := {|
  Verusrpc.json_Unmarshal_Response body :=
    if decide (body = server_error_body) then
      Ok (Verusrpc.mkResponse [] (Some (-32000, "Server error")))
    else if decide (body = hello_world_body) then
      Ok (Verusrpc.mkResponse hello_world_result None)
    else Fail (ErrorsNew "invalid character looking for beginning of value")
|}.

#[export] Instance sample_result_codec : Verusrpc.ResultCodec := {|
  Verusrpc.json_Unmarshal_ObjectArray raw :=
    if decide (raw = hello_world_result) then
      Ok [ {[ "objectdata" := Verusrpc.JString "48656c6c6f2c20576f726c6421" ]} ]
    else Fail (ErrorsNew "unexpected end of JSON input")
|}.

Definition sample_client : Verusrpc.Client :=
  Verusrpc.NewClient (Verusrpc.mkConfig "https://node.example:27486" "user" "pass" 0 0 0).

Definition live (_ : Z) : option goerror := None.

(** A node that refuses the connection, except for one 503 answer. *)
Definition node_down : Verusrpc.Env :=
  Verusrpc.mkEnv
    (λ i, if i =? 1 then Verusrpc.Responded 503 (list_byte_of_string "Service Unavailable")
          else Verusrpc.DoFailed (ErrorsNew "dial tcp: connection refused"))
    (λ _, 1500) live live.

(** A node that answers with an error of the reserved band. *)
Definition node_rejects : Verusrpc.Env :=
  Verusrpc.mkEnv (λ _, Verusrpc.Responded 200 server_error_body) (λ _, 900) live live.

Definition fresh_metrics : Verusrpc.Metrics := Verusrpc.mkMetrics 0 0 0.

(** *** Requests *)

Definition txid_a : string :=
  "004b2d1e74351bf361f2555e4254481a3aee9f5db173ff2eeff07e6ae540ba47".
Definition evk_a : string :=
  "zxviews1q0duytgcqqqqpqre26wkl45gvwwwd706xw608hucmvfalr759ejwf7qshjf5r9aa7323zulvz6plhttp5mltqcgs9t039cx2d09mgq05ts63n8u35hyv6h9nc9ctqqtue2u7cer2mqegunuulq2luhq3ywjcz35yyljewa4mgkgjzyfwh6fr6jd0dzd44ghk0nxdv2hnv4j5nxfwv24rwdmgllhe0p8568sgqt9ckt02v2kxf5ahtql6s0ltjpkckw8gtymxtxuu9gcr0swvz".
Definition evk_b : string :=
  "zxviews1qvqqqqqqqqqqqqqqqqqqqqqqqqqqqqqqqqqqqqqqqqqqqqqqqqqqqqqqqqqqqqqqqqqqqqqqqqqqqqqqqqqqqqqqqqqqqqqqqqqqqqqqqq7".
Definition req_a : Domain.FileRequest :=
  Domain.mkFileRequest txid_a evk_a "vrsctest" "lee.gif" true.
Definition req_b : Domain.FileRequest :=
  Domain.mkFileRequest txid_a evk_b "vrsctest" "" false.

(** *** Standard-library tables *)

Definition sha_table : list (string * string) :=
  [ ("test-key", "62af8704764faf8ea82fc61ce9c4c3908b6cb97d463a634e9e587d7c885db0ef");
    ("key1", "8174099687a26621f4e2cdd7cc03b3dacedb3fb962255b1aafd033cabe831530");
    ("key2", "b10253764c8b233fb37542e23401c7b450e5a6f9751f3b5a014f6f67e8bc999d");
    ("key3", "f576104eebeab09651d83acffc77c8b8c6eaa4b767aeab24d7da80f83f51d865") ].

#[export] Instance sample_hasher : Cache.Hasher := {|
  Cache.sha256_hex key :=
    match Storage.assoc key sha_table with
    | Some h => h
    | None => "e3b0c44298fc1c149afbf4c8996fb92427ae41e4649b934ca495991b7852b855"
    end
|}.

(** The metadata of the test [TestFilesystemCache_SetAndGet]. *)
Definition test_metadata : Domain.FileMetadata :=
  Domain.mkFileMetadata "test.txt" 12 "text/plain" "" "" false false None.

Definition test_metadata_json : bytes :=
  dq "{'Filename':'test.txt','Size':12,'ContentType':'text/plain','Extension':'','Hash':'','Compressed':false,'Encrypted':false,'CreatedAt':null}".

#[export] Instance FileMetadata_eq_dec : EqDecision Domain.FileMetadata.
Proof. solve_decision. Defined.

#[export] Instance sample_meta_codec : Cache.MetaCodec := {|
  Cache.json_Marshal_FileMetadata md :=
    if decide (md = test_metadata) then Ok test_metadata_json
    else Fail (ErrorsNew "json: unsupported value");
  Cache.json_Unmarshal_FileMetadata b :=
    if decide (b = test_metadata_json) then test_metadata else Domain.zeroFileMetadata
|}.

(** [gzip.compress] of the five bytes [hello]. *)
Definition gzip_hello : bytes :=
  [x1f; x8b; x08; x00; x00; x00; x00; x00; x02; x03; xcb; x48; xcd; xc9; xc9;
   x07; x00; x86; xa6; x10; x36; x05; x00; x00; x00].

(** Gzip magic followed by a compression method that does not exist. *)
Definition gzip_bad_header : bytes :=
  [x1f; x8b; x00; x00; x00; x00; x00; x00; x00; x00].

#[export] Instance sample_gzip : Storage.GzipLib := {|
  Storage.gzip_NewReader content :=
    if decide (content = gzip_hello) then Ok ([list_byte_of_string "hello"], None)
    else Fail (ErrorsNew "gzip: invalid header")
|}.

#[export] Instance sample_sniffer : Storage.Sniffer := {|
  Storage.http_DetectContentType content :=
    if Storage.HasPrefix content [x1f; x8b; x08] then "application/x-gzip"
    else if Storage.HasPrefix content (list_byte_of_string "%PDF-") then "application/pdf"
    else if forallb (λ b, Byte.to_N b <? 32)%N content then "application/octet-stream"
    else "text/plain; charset=utf-8"
|}.

(** *** Cache *)

Definition small_cache : Cache.FilesystemCache :=
  (Cache.NewFilesystemCache (Cache.mkFilesystemCacheConfig "/tmp/cache" 50 0 0) ∅ ∅).1.
Definition empty_dir : Cache.State :=
  (Cache.NewFilesystemCache (Cache.mkFilesystemCacheConfig "/tmp/cache" 50 0 0) ∅ ∅).2.

Definition test_file : Domain.File :=
  Domain.mkFile txid_a "vrsctest" (list_byte_of_string "test content")
                (Some test_metadata) 1000.


Definition small_file : Domain.File :=
  Domain.mkFile "" "" (list_byte_of_string "small") None 0.




(** The directory after [test_file] was stored under [test-key] at time 1000. *)
Definition after_store : Cache.State :=
  (Cache.Set_ small_cache None 1000 "test-key" test_file Cache.hour empty_dir).2.

(** *** Services *)

Definition fs_handle : Type := Cache.FilesystemCache * Cache.State.

(** One chain whose node is down; no cache. *)
Definition service_node_down : @Service.FileService (Verusrpc.Client * Verusrpc.Env) fs_handle :=
  Service.NewFileService {[ "vrsctest" := (sample_client, node_down) ]} "vrsctest" None.

(** A node that answers with the thirteen bytes of the second scenario. *)
Definition node_hello : Verusrpc.Env :=
  Verusrpc.mkEnv (λ _, Verusrpc.Responded 200 hello_world_body) (λ _, 900) live live.

Definition service_hello : @Service.FileService (Verusrpc.Client * Verusrpc.Env) fs_handle :=
  Service.NewFileService {[ "vrsctest" := (sample_client, node_hello) ]} "vrsctest" None.

(** A client whose payload bears the gzip magic and a broken header. *)
Definition mock_bad_gzip : Wiring.mockRPCClient :=
  Wiring.mkMockRPCClient "1f8b0000000000000000" None.

Definition service_bad_gzip : @Service.FileService Wiring.mockRPCClient fs_handle :=
  Service.NewFileService {[ "vrsctest" := mock_bad_gzip ]} "vrsctest" None.

End Samples.

(** ** Further concrete inputs *)

Module Cases.
Import Samples.

(** *** RPC client *)

(** The node of the retry test: two 503 answers, then the result. *)
Definition node_flaky : Verusrpc.Env :=
  Verusrpc.mkEnv
    (λ i, if i <? 2 then Verusrpc.Responded 503 (list_byte_of_string "Service Unavailable")
          else Verusrpc.Responded 200 hello_world_body)
    (λ _, 1200) live live.

(** A caller that gives up during the first back-off wait. *)
Definition node_down_caller_leaves : Verusrpc.Env :=
  Verusrpc.mkEnv
    (λ _, Verusrpc.DoFailed (ErrorsNew "dial tcp: connection refused"))
    (λ _, 1500)
    (λ i, if i =? 1 then Some ContextCanceled else None)
    live.

Definition method_not_found_body : bytes :=
  dq "{'result':null,'error':{'code':-32601,'message':'Method not found'},'id':1}".

(** A decoder that knows the answer above. *)
Definition method_not_found_codec : Verusrpc.ResponseCodec := {|
  Verusrpc.json_Unmarshal_Response body :=
    if decide (body = method_not_found_body) then
      Ok (Verusrpc.mkResponse [] (Some (-32601, "Method not found")))
    else Fail (ErrorsNew "invalid character looking for beginning of value")
|}.

Definition node_without_method : Verusrpc.Env :=
  Verusrpc.mkEnv (λ _, Verusrpc.Responded 200 method_not_found_body) (λ _, 700) live live.

(** *** Requests *)

(** The fifth scenario: a path segment that is no transaction id, and no
    [txid] in the query. *)
Definition req_no_txid : Domain.FileRequest :=
  Domain.mkFileRequest "" "" "vrsctest" "zzz" true.

(** A viewing key of the right shape with one upper-case letter. *)
Definition evk_upper : string :=
  "zxviews1Qvqqqqqqqqqqqqqqqqqqqqqqqqqqqqqqqqqqqqqqqqqqqqqqqqqqqqqqqqqqqqqqqqqqqqqqqqqqqqqqqqqqqqqqqqqqqqqqqqqqqqqqq7".
Definition req_upper : Domain.FileRequest :=
  Domain.mkFileRequest txid_a evk_upper "vrsctest" "" true.

(** *** Detection *)

(** The start of a 7z archive: a format the standard sniffer does not know. *)
Definition sevenzip_sample : bytes :=
  [x37; x7a; xbc; xaf; x27; x1c; x00; x04; x5b; x28; xd6; x3e; x20; x00; x00; x00; x00; x00].

Definition sniffer_7z : Storage.Sniffer := {|
  Storage.http_DetectContentType content :=
    if decide (content = sevenzip_sample) then "application/octet-stream"
    else "text/plain; charset=utf-8"
|}.

(** Two entries stored one after the other: [key1] at 1000, [test-key] at 2000. *)
Definition two_entries : Cache.State :=
  Cache.run_Sets small_cache empty_dir
    [ Cache.mkSetCall None 1000 "key1" small_file Cache.hour;
      Cache.mkSetCall None 2000 "test-key" test_file Cache.hour ].

(** *** The service over the filesystem cache *)

(** The metadata of the thirteen bytes of the second scenario, and its
    encoding. *)
Definition hello_metadata : Domain.FileMetadata :=
  Domain.mkFileMetadata "lee.gif" 13 "text/plain; charset=utf-8" "gif" "" false false None.

Definition hello_metadata_json : bytes :=
  dq "{'Filename':'lee.gif','Size':13,'ContentType':'text/plain; charset=utf-8','Extension':'gif','Hash':'','Compressed':false,'Encrypted':false,'CreatedAt':null}".

Definition meta_codec_hello : Cache.MetaCodec := {|
  Cache.json_Marshal_FileMetadata md :=
    if decide (md = hello_metadata) then Ok hello_metadata_json
    else Cache.json_Marshal_FileMetadata (MetaCodec := sample_meta_codec) md;
  Cache.json_Unmarshal_FileMetadata b :=
    if decide (b = hello_metadata_json) then hello_metadata
    else Cache.json_Unmarshal_FileMetadata (MetaCodec := sample_meta_codec) b
|}.

(** SHA-256 of the cache key of [req_a] beside the table of the tests. *)
Definition hasher_requests : Cache.Hasher := {|
  Cache.sha256_hex key :=
    if decide (key = Domain.CacheKey req_a) then
      "79bc2d067db124aff79c554ec370c2a62abdc9fc0df5ff36f000e05473bb3c98"
    else Cache.sha256_hex (Hasher := sample_hasher) key
|}.

Definition fs_cache_hello : Service.CacheImpl fs_handle :=
  @Wiring.fs_cache hasher_requests meta_codec_hello.

(** The node of the second scenario behind a service with an empty cache. *)
Definition service_hello_cached
    : @Service.FileService (Verusrpc.Client * Verusrpc.Env) fs_handle :=
  Service.NewFileService {[ "vrsctest" := (sample_client, node_hello) ]} "vrsctest"
    (Some (small_cache, empty_dir)).

(** The store that the first request for [req_a] at time 7 spawns. *)
Definition hello_store : Service.asyncSet :=
  Service.mkAsyncSet (Domain.CacheKey req_a)
    (Domain.mkFile txid_a "vrsctest" (list_byte_of_string "Hello, World!")
       (Some hello_metadata) 7)
    (24 * Cache.hour).

(** *** HTTP requests *)

(** The fifth scenario: [GET /c/vrsctest/file/zzz] without query. *)
Definition http_no_txid : Handler.request :=
  Handler.mkRequest "vrsctest" "zzz" "" "" "req-1".

(** [GET /c/vrsctest/file/lee.gif?txid=...&evk=...], which is [req_a]. *)
Definition http_req_a : Handler.request :=
  Handler.mkRequest "vrsctest" "lee.gif" evk_a txid_a "req-2".

(** *** Chains *)

(** One enabled chain that asks for no retries, one disabled chain, and
    no default. *)
Definition testnet_cfg : Chain.ChainConfig :=
  Chain.mkChainConfig "Verus Testnet" true "http://localhost:18843" "user" "pass"
    (30 * Verusrpc.second) false 0 0.

Definition chains_cfg : Chain.ChainsConfig :=
  Chain.mkChainsConfig ""
    {[ "vrsctest" := testnet_cfg;
       "vrsc" := Chain.mkChainConfig "Verus" false "" "" "" 0 false 0 0 ]}.

End Cases.
(** * Properties *)

(** ** Cache keys (domain/file.go) *)

Module GoStringProps.
Import GoString.

Lemma chars_app (a b : string) : chars (a ++ b) = (chars a ++ chars b)%list.
Proof. induction a as [|c a IH]; simpl; [done | by rewrite IH]. Qed.

Lemma chars_length (s : string) : length (chars s) = String.length s.
Proof. induction s as [|c s IH]; simpl; [done | by rewrite IH]. Qed.

Lemma chars_inj (a b : string) : chars a = chars b → a = b.
Proof.
  intros H. rewrite <- (string_of_list_ascii_of_string a).
  rewrite <- (string_of_list_ascii_of_string b). unfold chars in H. by rewrite H.
Qed.

Lemma app_length (a b : string) :
  String.length (a ++ b) = (String.length a + String.length b)%nat.
Proof. induction a as [|c a IH]; simpl; [done | by rewrite IH]. Qed.

End GoStringProps.

Module CacheKeyProps.
Import Domain GoStringProps.

Lemma eqb_empty_false (s : string) : String.eqb s "" = false ↔ s ≠ "".
Proof. rewrite <- not_true_iff_false, String.eqb_eq. done. Qed.

(** What a passing [Validate] establishes about the fields. *)
Lemma Validate_ok_inv (r : FileRequest) :
  Validate r = None →
  txidPattern (rTXID r) = true ∧
  chainIDPattern (rChainID r) = true ∧
  GoString.len (rChainID r) <= 32 ∧
  (rEVK r ≠ "" → 95 <= GoString.len (rEVK r) ∧ evkPattern (rEVK r) = true).
Proof.
  unfold Validate, invalid. intros H.
  destruct (String.eqb (rTXID r) ""); [discriminate|].
  destruct (negb (GoString.len (rTXID r) =? 64)); [discriminate|].
  destruct (txidPattern (rTXID r)) eqn:Ht; [|discriminate]. simpl in H.
  destruct (String.eqb (rChainID r) ""); [discriminate|].
  destruct (GoString.len (rChainID r) >? 32) eqn:Hl; [discriminate|].
  destruct (chainIDPattern (rChainID r)) eqn:Hc; [|discriminate]. simpl in H.
  split; [done|]. split; [done|]. split; [lia|]. intros Hne. split.
  -  apply eqb_empty_false in Hne. rewrite Hne in H. simpl in H.
    destruct (_ && _); [discriminate|]. destruct (_ && _); [discriminate|].
    destruct (_ && _); [discriminate|].
    destruct (GoString.len (rEVK r) <? 95) eqn:Hlo; [discriminate|].
    destruct (GoString.len (rEVK r) >? 500); [discriminate|]. lia.
  - apply eqb_empty_false in Hne. rewrite Hne in H. simpl in H.
    destruct (_ && _); [discriminate|]. destruct (_ && _); [discriminate|].
    destruct (_ && _); [discriminate|]. destruct (_ || _); [discriminate|].
    destruct (evkPattern (rEVK r)); [done|discriminate].
Qed.

Lemma forallb_no_colon (P : ascii → bool) (l : list ascii) :
  P colon = false → forallb P l = true → colon ∉ l.
Proof.
  intros HP Hl Hin. apply list_elem_of_In in Hin.
  rewrite forallb_forall in Hl. specialize (Hl _ Hin). congruence.
Qed.

Lemma chainID_no_colon (s : string) :
  chainIDPattern s = true → colon ∉ GoString.chars s.
Proof.
  unfold chainIDPattern. intros [_ H]%andb_true_iff.
  eapply forallb_no_colon; [|exact H]. reflexivity.
Qed.

Lemma txid_length (s : string) : txidPattern s = true → String.length s = 64%nat.
Proof. unfold txidPattern. intros [H _]%andb_true_iff. by apply Nat.eqb_eq. Qed.

Lemma prefix_split (p s : string) :
  String.prefix p s = true →
  s = p ++ String.substring (String.length p) (String.length s - String.length p) s.
Proof.
  revert s. induction p as [|c p IH]; intros s H; simpl in H.
  - change ("" ++ ?x) with x. simpl String.length. rewrite Nat.sub_0_r. clear H.
    induction s as [|d s IHs]; [done|]. simpl. by rewrite <- IHs.
  - destruct s as [|d s]; simpl in H; [discriminate|].
    destruct (ascii_dec c d) as [->|]; [|discriminate].
    change (String d p ++ ?x) with (String d (p ++ x)).
    simpl. f_equal. by apply IH.
Qed.

Lemma evk_no_colon (s : string) :
  evkPattern s = true → colon ∉ GoString.chars s.
Proof.
  unfold evkPattern. intros [Hp [_ Hr]%andb_true_iff]%andb_true_iff.
  apply prefix_split in Hp. rewrite Hp at 1. rewrite chars_app.
  simpl String.length in *. intros [Hin|Hin]%elem_of_app.
  - vm_compute in Hin. repeat (apply elem_of_cons in Hin as [Hin|Hin]; [discriminate|]).
    by apply elem_of_nil in Hin.
  - revert Hin. eapply forallb_no_colon; [|exact Hr]. reflexivity.
Qed.

(** Two keys with colon-free chain ids agree on the chain id and on the rest. *)
Lemma split_at_colon (a b x y : list ascii) :
  colon ∉ a → colon ∉ b → (a ++ colon :: x = b ++ colon :: y)%list → a = b ∧ x = y.
Proof.
  revert b. induction a as [|c a IH]; intros [|d b] Ha Hb H; simpl in *.
  - by inversion H.
  - inversion H; subst. exfalso. apply Hb. left.
  - inversion H; subst. exfalso. apply Ha. left.
  - inversion H; subst. destruct (IH b) as [-> ->]; [| |done|done].
    + intros ?. apply Ha. by right.
    + intros ?. apply Hb. by right.
Qed.

(** A colon-free window cannot cover a position that holds a colon. *)
Lemma window_misses_colon (pre w post : list ascii) (i : nat) :
  colon ∉ w → (pre ++ w ++ post)%list !! i = Some colon →
  (i < length pre ∨ length pre + length w ≤ i)%nat.
Proof.
  intros Hw Hi. destruct (decide (i < length pre)%nat); [by left|]. right.
  destruct (decide (length pre + length w ≤ i)%nat); [done|]. exfalso.
  rewrite lookup_app_r in Hi by lia. rewrite lookup_app_l in Hi by lia.
  apply Hw. eapply list_elem_of_lookup_2; eauto.
Qed.

Lemma CacheKey_chars (r : FileRequest) :
  GoString.chars (CacheKey r) =
  (GoString.chars (rChainID r) ++ colon :: GoString.chars (rTXID r)
     ++ GoString.chars (suffix_of r))%list.
Proof.
  unfold CacheKey, suffix_of. destruct (negb _);
    rewrite !chars_app; simpl; [done|]. by rewrite app_nil_r.
Qed.

Lemma CacheKey_same_pair (r1 r2 : FileRequest) :
  Validate r1 = None → Validate r2 = None → CacheKey r1 = CacheKey r2 →
  rChainID r1 = rChainID r2 ∧ rTXID r1 = rTXID r2.
Proof.
  intros (T1 & C1 & _ & _)%Validate_ok_inv (T2 & C2 & _ & _)%Validate_ok_inv HK.
  apply (f_equal GoString.chars) in HK. rewrite !CacheKey_chars in HK.
  apply split_at_colon in HK as [Hc Ht]; [|by apply chainID_no_colon..].
  apply app_inj_1 in Ht as [Ht _].
  - split; by apply chars_inj.
  - rewrite !chars_length. apply txid_length in T1, T2. congruence.
Qed.

Lemma CacheKey_hides_evk (r : FileRequest) :
  Validate r = None → rEVK r ≠ "" → ¬ GoString.occurs_in (rEVK r) (CacheKey r).
Proof.
  intros (T & C & L & E)%Validate_ok_inv Hne (pre & post & HK).
  destruct (E Hne) as [Hlen Hpat]. apply evk_no_colon in Hpat.
  apply (f_equal GoString.chars) in HK. rewrite CacheKey_chars in HK.
  rewrite !chars_app in HK.
  unfold suffix_of in HK. apply eqb_empty_false in Hne. rewrite Hne in HK. simpl negb in HK.
  cbv iota in HK.
  pose proof (f_equal (@length ascii) HK) as HL. rewrite !length_app in HL.
  simpl in HL. rewrite !length_app in HL. rewrite !chars_length in HL.
  apply txid_length in T. unfold GoString.len in *.
  set (c := GoString.chars (rChainID r)) in *.
  set (t := GoString.chars (rTXID r)) in *.
  assert (Hc : length c = String.length (rChainID r)) by apply chars_length.
  assert (Ht : length t = 64%nat) by (unfold t; rewrite chars_length; done).
  assert (H1 : (GoString.chars pre ++ GoString.chars (rEVK r) ++ GoString.chars post)%list
                 !! length c = Some colon).
  { rewrite <- HK. rewrite lookup_app_r by lia. by rewrite Nat.sub_diag. }
  assert (H2 : (GoString.chars pre ++ GoString.chars (rEVK r) ++ GoString.chars post)%list
                 !! (length c + 65)%nat = Some colon).
  { rewrite <- HK. rewrite lookup_app_r by lia.
    replace (length c + 65 - length c)%nat with (S (length t)) by lia.
    simpl. rewrite lookup_app_r by lia. by rewrite Nat.sub_diag. }
  apply window_misses_colon in H1; [|done]. apply window_misses_colon in H2; [|done].
  rewrite !chars_length in H1, H2. simpl in HL. lia.
Qed.

(** C8. Over valid requests the cache key determines the pair
    (chain id, transaction id); two requests that differ only in their
    non-empty viewing keys get the same key; the key is
    [{ChainID}:{TXID}] for an empty viewing key and
    [{ChainID}:{TXID}:encrypted] otherwise; and the viewing key never
    occurs inside the key. *)
Theorem CacheKey_injective_evk_free (r1 r2 : FileRequest)
    (V1 : Validate r1 = None) (V2 : Validate r2 = None) :
  (CacheKey r1 = CacheKey r2 → rChainID r1 = rChainID r2 ∧ rTXID r1 = rTXID r2) ∧
  (rChainID r1 = rChainID r2 → rTXID r1 = rTXID r2 → rEVK r1 ≠ "" → rEVK r2 ≠ "" →
     CacheKey r1 = CacheKey r2) ∧
  (rEVK r1 = "" → CacheKey r1 = rChainID r1 ++ ":" ++ rTXID r1) ∧
  (rEVK r1 ≠ "" →
     CacheKey r1 = rChainID r1 ++ ":" ++ rTXID r1 ++ ":encrypted" ∧
     ¬ GoString.occurs_in (rEVK r1) (CacheKey r1)).
Proof.
  split; [by apply CacheKey_same_pair|]. split; [|split].
  - intros Hc Ht E1%eqb_empty_false E2%eqb_empty_false.
    unfold CacheKey. by rewrite E1, E2, Hc, Ht.
  - intros E. unfold CacheKey. by rewrite E.
  - intros E. split; [|by apply CacheKey_hides_evk].
    apply eqb_empty_false in E. unfold CacheKey. by rewrite E.
Qed.

Import Samples.

Lemma CacheKey_injective_evk_free_witness :
  Validate req_a = None ∧ Validate req_b = None ∧
  CacheKey req_a = "vrsctest:" ++ txid_a ++ ":encrypted" ∧
  CacheKey req_a = CacheKey req_b ∧
  ¬ GoString.occurs_in evk_a (CacheKey req_a).
Proof.
  split; [reflexivity|]. split; [reflexivity|].
  destruct (CacheKey_injective_evk_free req_a req_b eq_refl eq_refl)
    as (_ & Hsame & _ & Henc).
  destruct Henc as [Hfmt Hfree]; [discriminate|].
  split; [exact Hfmt|]. split; [|exact Hfree].
  apply Hsame; [reflexivity|reflexivity|discriminate|discriminate].
Defined.

End CacheKeyProps.

(** ** Retry accounting of the RPC client (pkg/verusrpc/client.go) *)

Module CallProps.
Import Verusrpc.

Section WithCodec.
Context `{ResponseCodec}.

(** What [call] returns does not depend on the counters. *)
Lemma call_result_metrics (m1 m2 : Metrics) (o : httpOutcome) (t1 t2 : Z) :
  fst (call m1 o t1) = fst (call m2 o t2).
Proof.
  unfold call. destruct o; simpl; try done.
  destruct (negb _); [done|].
  destruct (json_Unmarshal_Response body) as [resp|e]; [|done].
  destruct (respError resp) as [[code msg]|]; done.
Qed.

Lemma call_counts_request (m : Metrics) (o : httpOutcome) (t : Z) :
  requestCount (snd (call m o t)) = requestCount m + 1.
Proof.
  unfold call. destruct o; simpl; try done.
  destruct (negb _); [done|].
  destruct (json_Unmarshal_Response body) as [resp|e]; [|done].
  destruct (respError resp) as [[code msg]|]; done.
Qed.

(** A transport error or a non-200 status makes [call] fail with an
    error that [Call] retries. *)
Lemma transport_or_status_fails (m : Metrics) (o : httpOutcome) (t : Z) :
  transport_or_status o →
  ∃ e, fst (call m o t) = Fail e ∧ no_retry e = false ∧ call_error o = Some e.
Proof.
  intros Ho. unfold call_error. rewrite (call_result_metrics (mkMetrics 0 0 0) m o 0 t).
  destruct o; simpl in Ho; try done; unfold call; simpl.
  - eexists; split; [done|]. split; done.
  - eexists; split; [done|]. split; done.
  - apply Z.eqb_neq in Ho. rewrite Ho. simpl. eexists; split; [done|]. split; done.
Qed.

Lemma Call_loop_exhausts (c : Client) (env : Env) (n : nat) :
  ∀ (a : Z) (lastErr : option goerror) (m : Metrics),
    (∀ i, a <= i < a + Z.of_nat n →
          doneWhileWaiting env i = None ∧ errAfter env i = None ∧
          transport_or_status (roundTrip env i)) →
    ∃ m', Call_loop c env n a lastErr m =
            (Fail (exhausted c (last_cause env n a lastErr)),
             concat (map (iteration c) (seqZ a (Z.of_nat n))), m')
          ∧ requestCount m' = requestCount m + Z.of_nat n.
Proof.
  induction n as [|n IH]; intros a lastErr m Hall.
  - exists m. simpl. split; [done|lia].
  - destruct (Hall a) as (Hw & Ha & Ho); [lia|].
    destruct (transport_or_status_fails m _ (elapsedMicros env a) Ho) as (e & He & Hr & Hc).
    cbn [Call_loop]. rewrite Hw, Ha.
    destruct (call m (roundTrip env a) (elapsedMicros env a)) as [r m1] eqn:Hcall.
    simpl in He. subst r. rewrite Hr.
    pose proof (call_counts_request m (roundTrip env a) (elapsedMicros env a)) as Hreq.
    rewrite Hcall in Hreq. simpl in Hreq.
    destruct (IH (a + 1) (Some e) m1) as (m' & Hloop & Hcount).
    { intros i Hi. apply Hall. lia. }
    rewrite Hloop. exists m'. split; [|lia].
    rewrite Nat2Z.inj_succ, (seqZ_cons a) by lia.
    replace (Z.pred (Z.succ (Z.of_nat n))) with (Z.of_nat n) by lia.
    replace (Z.succ a) with (a + 1) by lia.
    assert (Hlast : last_cause env n (a + 1) (Some e) = last_cause env (S n) a lastErr).
    { unfold last_cause. destruct n as [|n'].
      - replace (a + Z.of_nat 1 - 1) with a by lia. done.
      - f_equal. f_equal. lia. }
    rewrite Hlast. cbn [map concat]. unfold iteration at 2.
    destruct (a >? 0); done.
Qed.

Lemma wrap64_id (z : Z) : minInt64 <= z <= maxInt64 → wrap64 z = z.
Proof.
  unfold wrap64, minInt64, maxInt64. intros Hz.
  rewrite Z.mod_small; lia.
Qed.

Lemma attempts_iterations (c : Client) (a : Z) (n : nat) :
  attempts (concat (map (iteration c) (seqZ a (Z.of_nat n)))) = Z.of_nat n.
Proof.
  unfold attempts. revert a. induction n as [|n IH]; intros a; [done|].
  rewrite Nat2Z.inj_succ, (seqZ_cons a) by lia.
  replace (Z.pred (Z.succ (Z.of_nat n))) with (Z.of_nat n) by lia.
  simpl. rewrite List.filter_app, length_app.
  specialize (IH (Z.succ a)). unfold iteration at 1.
  destruct (a >? 0); simpl; lia.
Qed.

Lemma waits_iterations (c : Client) (a : Z) (n : nat) :
  0 < a →
  waits (concat (map (iteration c) (seqZ a (Z.of_nat n)))) =
  map (λ i, wrap64 (retryDelay c * i)) (seqZ a (Z.of_nat n)).
Proof.
  unfold waits. revert a. induction n as [|n IH]; intros a Ha; [done|].
  rewrite Nat2Z.inj_succ, (seqZ_cons a) by lia.
  replace (Z.pred (Z.succ (Z.of_nat n))) with (Z.of_nat n) by lia.
  simpl. rewrite omap_app. rewrite IH by lia. unfold iteration.
  destruct (a >? 0) eqn:E; [done|lia].
Qed.

(** Persistent failure ends in the wrapped error of the last attempt. *)
Lemma Call_persistent_failure (c : Client) (env : Env) (m : Metrics) :
  0 <= maxRetries c < maxInt64 →
  (∀ i, doneWhileWaiting env i = None ∧ errAfter env i = None) →
  (∀ i, 0 <= i <= maxRetries c → transport_or_status (roundTrip env i)) →
  ∃ cause tr m',
    call_error (roundTrip env (maxRetries c)) = Some cause ∧
    Call c env m =
      (Fail (ErrorfW ("rpc call failed after " ++ pretty (maxRetries c + 1) ++ " attempts")
                     cause), tr, m').
Proof.
  intros Hretries Hctx Hall.
  destruct (Call_loop_exhausts c env (Z.to_nat (maxRetries c + 1)) 0 None m)
    as (m' & Hloop & _).
  { intros i Hi. destruct (Hctx i) as [Hw Ha]. repeat split; [done|done|].
    apply Hall. lia. }
  destruct (transport_or_status_fails m (roundTrip env (maxRetries c)) 0)
    as (cause & _ & _ & Hcause); [apply Hall; lia|].
  exists cause. eexists. exists m'. split; [done|].
  unfold Call. rewrite Hloop. unfold exhausted, last_cause.
  destruct (Z.to_nat (maxRetries c + 1)) as [|k] eqn:Hk; [lia|].
  rewrite <- Hk. replace (0 + Z.of_nat (Z.to_nat (maxRetries c + 1)) - 1)
    with (maxRetries c) by lia.
  rewrite Hcause. rewrite wrap64_id by (unfold minInt64, maxInt64 in *; lia). done.
Qed.

(** C2. With a live context and a configured retry count: when every
    attempt fails with a transport error or a non-200 status, [Call]
    makes exactly [maxRetries+1] attempts, waits [retryDelay * i]
    before attempt [i], and returns the wrapped error that carries the
    cause of the last attempt; when the first attempt answers with a
    JSON-RPC error whose code lies in [-32099, -32000], [Call] makes
    exactly one attempt and returns that error itself. *)
Theorem Call_retry_accounting (c : Client) (env : Env) (m : Metrics)
    (Hretries : 0 <= maxRetries c < maxInt64)
    (Hdelay : 0 <= retryDelay c ∧ retryDelay c * maxRetries c <= maxInt64)
    (Hctx : ∀ i, doneWhileWaiting env i = None ∧ errAfter env i = None) :
  ((∀ i, 0 <= i <= maxRetries c → transport_or_status (roundTrip env i)) →
   ∃ cause tr m',
     call_error (roundTrip env (maxRetries c)) = Some cause ∧
     Call c env m =
       (Fail (ErrorfW ("rpc call failed after " ++ pretty (maxRetries c + 1) ++ " attempts")
                      cause), tr, m') ∧
     attempts tr = maxRetries c + 1 ∧
     waits tr = map (λ i, retryDelay c * i) (seqZ 1 (maxRetries c)) ∧
     requestCount m' = requestCount m + (maxRetries c + 1))
  ∧
  (∀ body resp code msg,
     roundTrip env 0 = Responded 200 body →
     json_Unmarshal_Response body = Ok resp →
     respError resp = Some (code, msg) →
     -32099 <= code <= -32000 →
     ∃ m', Call c env m = (Fail (RPCError code msg), [Attempted 0], m') ∧
           attempts [Attempted 0] = 1 ∧
           requestCount m' = requestCount m + 1).
Proof.
  split.
  - intros Hall.
    destruct (Call_loop_exhausts c env (Z.to_nat (maxRetries c + 1)) 0 None m)
      as (m' & Hloop & Hcount).
    { intros i Hi. destruct (Hctx i) as [Hw Ha]. repeat split; [done|done|].
      apply Hall. lia. }
    destruct (transport_or_status_fails m (roundTrip env (maxRetries c)) 0)
      as (cause & _ & _ & Hcause); [apply Hall; lia|].
    exists cause, (concat (map (iteration c) (seqZ 0 (Z.of_nat (Z.to_nat (maxRetries c + 1)))))), m'.
    split; [done|]. split; [|split; [|split]].
    + unfold Call. rewrite Hloop. unfold exhausted, last_cause.
      destruct (Z.to_nat (maxRetries c + 1)) as [|k] eqn:Hk; [lia|].
      rewrite <- Hk. replace (0 + Z.of_nat (Z.to_nat (maxRetries c + 1)) - 1)
        with (maxRetries c) by lia.
      rewrite Hcause. rewrite wrap64_id by (unfold minInt64, maxInt64 in *; lia). done.
    + rewrite attempts_iterations. lia.
    + replace (Z.of_nat (Z.to_nat (maxRetries c + 1))) with (Z.succ (maxRetries c)) by lia.
      rewrite seqZ_cons by lia. replace (Z.pred (Z.succ (maxRetries c))) with (maxRetries c) by lia.
      cbn [map concat]. unfold iteration at 1. change (0 >? 0) with false. cbv iota.
      change (waits (([] ++ [Attempted 0]) ++ ?l)%list) with (waits l).
      change (Z.succ 0) with 1.
      replace (maxRetries c) with (Z.of_nat (Z.to_nat (maxRetries c))) at 1 2 by lia.
      rewrite waits_iterations by lia.
      apply map_ext_in. intros i Hi%list_elem_of_In%elem_of_seqZ.
      apply wrap64_id. unfold minInt64, maxInt64 in *. nia.
    + lia.
  - intros body resp code msg Hrt Hdec Herr Hcode.
    unfold Call. destruct (Z.to_nat (maxRetries c + 1)) as [|k] eqn:Hk; [lia|].
    cbn [Call_loop]. change (0 >? 0) with false. cbv iota.
    destruct (call m (roundTrip env 0) (elapsedMicros env 0)) as [r m1] eqn:Hcall.
    pose proof (call_counts_request m (roundTrip env 0) (elapsedMicros env 0)) as Hreq.
    rewrite Hcall in Hreq. simpl in Hreq.
    assert (r = Fail (RPCError code msg)) as ->.
    { pose proof (f_equal fst Hcall) as Hr. simpl in Hr. rewrite <- Hr.
      unfold call. rewrite Hrt. simpl. rewrite Hdec, Herr. done. }
    destruct (Hctx 0) as [_ ->]. unfold no_retry, reserved_code.
    replace (-32099 <=? code) with true by (symmetry; apply Z.leb_le; lia).
    replace (code <=? -32000) with true by (symmetry; apply Z.leb_le; lia).
    simpl. exists m1. done.
Qed.

End WithCodec.

Import Samples.

Lemma Call_retry_accounting_witness :
  (∃ cause tr m',
     Call sample_client node_down fresh_metrics =
       (Fail (ErrorfW "rpc call failed after 4 attempts" cause), tr, m') ∧
     attempts tr = 4 ∧
     waits tr = [500000000; 1000000000; 1500000000] ∧
     requestCount m' = 4) ∧
  (∃ m', Call sample_client node_rejects fresh_metrics =
           (Fail (RPCError (-32000) "Server error"), [Attempted 0], m')).
Proof.
  split.
  - destruct (Call_retry_accounting sample_client node_down fresh_metrics)
      as [Hfail _].
    + vm_compute. split; [discriminate|reflexivity].
    + vm_compute. split; discriminate.
    + intros i. split; reflexivity.
    + destruct Hfail as (cause & tr & m' & _ & Hcall & Hn & Hw & Hreq).
      * intros i _. simpl. destruct (i =? 1); simpl; [lia|done].
      * exists cause, tr, m'. split; [exact Hcall|]. split; [exact Hn|].
        split; [exact Hw|exact Hreq].
  - destruct (Call_retry_accounting sample_client node_rejects fresh_metrics)
      as [_ Hone].
    + vm_compute. split; [discriminate|reflexivity].
    + vm_compute. split; discriminate.
    + intros i. split; reflexivity.
    + destruct (Hone server_error_body
                  (mkResponse [] (Some (-32000, "Server error")))
                  (-32000) "Server error") as (m' & Hcall & _).
      * reflexivity.
      * reflexivity.
      * reflexivity.
      * lia.
      * exists m'. exact Hcall.
Defined.

End CallProps.

(** ** The filesystem cache (package cache) *)

Module CacheProps.
Import Domain Cache.

(** *** Sizes of directory listings *)

Lemma total_perm (l l' : list (string * binFile)) : l ≡ₚ l' → total l = total l'.
Proof. induction 1; simpl in *; lia. Qed.


Lemma stored_total (m : gmap string binFile) : stored m = total (map_to_list m).
Proof. done. Qed.


Lemma stored_empty : stored ∅ = 0.
Proof. unfold stored. by rewrite map_to_list_empty. Qed.

Lemma stored_delete (m : gmap string binFile) (k : string) (f : binFile) :
  m !! k = Some f → stored (delete k m) = stored m - fsize f.
Proof.
  intros Hk. rewrite !stored_total.
  rewrite <- (total_perm _ _ (map_to_list_delete m k f Hk)). simpl. lia.
Qed.

Lemma stored_insert_fresh (m : gmap string binFile) (k : string) (f : binFile) :
  m !! k = None → stored (<[k := f]> m) = fsize f + stored m.
Proof.
  intros Hk. rewrite !stored_total.
  by rewrite (total_perm _ _ (map_to_list_insert m k f Hk)).
Qed.

Lemma stored_insert (m : gmap string binFile) (k : string) (f : binFile) :
  stored (<[k := f]> m) =
  fsize f + stored m - match m !! k with Some old => fsize old | None => 0 end.
Proof.
  destruct (m !! k) as [old|] eqn:Hk.
  - rewrite <- insert_delete_eq. rewrite stored_insert_fresh by apply lookup_delete_eq.
    rewrite (stored_delete m k old Hk). lia.
  - rewrite stored_insert_fresh by done. lia.
Qed.

Lemma stored_insert_le (m : gmap string binFile) (k : string) (f : binFile) :
  stored (<[k := f]> m) <= fsize f + stored m.
Proof.
  rewrite stored_insert. destruct (m !! k) as [old|]; [|lia].
  unfold fsize. lia.
Qed.


Lemma foldl_total (l : list (string * binFile)) (acc : Z) :
  foldl (λ a kv, a + fsize kv.2) acc l = acc + total l.
Proof.
  revert acc. induction l as [|kv l IH]; intros acc; simpl; [lia|].
  rewrite IH. lia.
Qed.

(** *** The sort is a permutation *)

Lemma bubble_pass_perm (k : nat) (files : list (string * binFile)) :
  bubble_pass k files ≡ₚ files.
Proof.
  revert files. induction k as [|k IH]; intros files; [by destruct files|].
  destruct files as [|a [|b rest]]; simpl; [done|done|].
  destruct (modTime a.2 >? modTime b.2).
  - rewrite IH. apply perm_swap.
  - by rewrite IH.
Qed.

Lemma bubble_passes_perm (p : nat) (files : list (string * binFile)) :
  bubble_passes p files ≡ₚ files.
Proof.
  revert files. induction p as [|p IH]; intros files; [done|].
  cbn [bubble_passes]. rewrite IH. apply bubble_pass_perm.
Qed.

Lemma bubble_sort_perm (files : list (string * binFile)) : bubble_sort files ≡ₚ files.
Proof. apply bubble_passes_perm. Qed.

Lemma walk_perm (m : gmap string binFile) : walk m ≡ₚ map_to_list m.
Proof. apply merge_sort_Permutation. Qed.

Lemma calculateSize_size (st : State) : size (calculateSize st) = stored (bins st).
Proof.
  unfold calculateSize. simpl. rewrite foldl_total, stored_total.
  rewrite (total_perm _ _ (walk_perm (bins st))). lia.
Qed.

(** *** Eviction *)



Section WithLibs.
Context `{Hasher} `{MetaCodec}.





(** *** Round trip *)

(** The metadata [Get] reports for an entry: the [.meta] file decoded,
    or the zero value when there is none. *)
Lemma Get_fresh (c : FilesystemCache) (now : Z) (key : string) (st : State)
    (info : binFile) :
  bins st !! sha256_hex key = Some info →
  time_Sub now (modTime info) <= ttl c →
  Get c None now key st =
    (Ok (mkFile "" "" (data info) (Some (read_meta (sha256_hex key) st)) now),
     add_hit st).
Proof.
  intros Hk Hfresh. unfold Get, read_meta. rewrite Hk.
  replace (time_Sub now (modTime info) >? ttl c) with false
    by (symmetry; rewrite Z.gtb_ltb; apply Z.ltb_ge; lia).
  done.
Qed.


(** The [ttl] argument of [Set] has no effect. *)
Lemma Set_ignores_ttl (c : FilesystemCache) (ctx : option goerror) (now : Z) (key : string)
    (file : File) (ttl1 ttl2 : Z) (st : State) :
  Set_ c ctx now key file ttl1 st = Set_ c ctx now key file ttl2 st.
Proof. reflexivity. Qed.

(** *** Expiry *)


End WithLibs.

Import Samples.



(** Storing twice under one key counts the content twice: the counter
    says 24 bytes while 12 are stored. *)
Example Set_overwrite_counts_twice :
  size (run_Sets small_cache empty_dir
          [mkSetCall None 1000 "test-key" test_file hour;
           mkSetCall None 2000 "test-key" test_file hour]) = 24 ∧
  stored (bins (run_Sets small_cache empty_dir
          [mkSetCall None 1000 "test-key" test_file hour;
           mkSetCall None 2000 "test-key" test_file hour])) = 12.
Proof. vm_compute. split; reflexivity. Qed.




End CacheProps.

(** ** Decompression under the size cap (package storage) *)

Module DecompressProps.
Import Storage.

Lemma blen_app (a b : bytes) : blen (a ++ b) = blen a + blen b.
Proof. unfold blen. rewrite length_app. lia. Qed.

Lemma blen_nonneg (a : bytes) : 0 <= blen a.
Proof. unfold blen. lia. Qed.

(** A write that stays strictly below the allowance goes through whole. *)
Lemma Write_below (l : limitedWriter) (p : bytes) :
  blen p < N l →
  Write l p = (mkLimitedWriter (W l ++ p) (N l - blen p), blen p, None).
Proof.
  intros Hp. pose proof (blen_nonneg p). unfold Write.
  replace (N l <=? 0) with false by (symmetry; apply Z.leb_gt; lia).
  replace (blen p >? N l) with false by (symmetry; rewrite Z.gtb_ltb; apply Z.ltb_ge; lia).
  cbn [N]. replace (N l - blen p <=? 0) with false by (symmetry; apply Z.leb_gt; lia).
  done.
Qed.


Lemma io_Copy_below (chunks : list bytes) :
  ∀ (out : bytes) (n : Z),
    blen (concat chunks) < n →
    io_Copy (mkLimitedWriter out n) chunks None =
      (mkLimitedWriter (out ++ concat chunks) (n - blen (concat chunks)), None).
Proof.
  induction chunks as [|p rest IH]; intros out n Hn; simpl.
  - rewrite app_nil_r. do 2 f_equal. unfold blen. simpl. lia.
  - simpl in Hn. rewrite blen_app in Hn.
    pose proof (blen_nonneg p). pose proof (blen_nonneg (concat rest)).
    destruct (blen p >? 0) eqn:Hpos.
    + rewrite Write_below by (cbn [N]; lia). cbn [W N].
      rewrite Z.eqb_refl. cbn [negb]. rewrite IH by lia.
      rewrite blen_app, <- app_assoc. do 2 f_equal. lia.
    + rewrite Z.gtb_ltb in Hpos. apply Z.ltb_ge in Hpos.
      assert (p = []) as -> by (destruct p; [done|]; unfold blen in *; simpl in *; lia).
      rewrite IH by (unfold blen in *; simpl in *; lia).
      done.
Qed.


Section WithGzip.
Context `{GzipLib}.


(** A well-formed stream whose output is strictly shorter than the cap
    is decompressed. *)
Lemma Decompress_below_cap (d : Decompressor) (content : bytes) (chunks : list bytes) :
  isGzipped content = true →
  gzip_NewReader content = Ok (chunks, None) →
  blen (concat chunks) < maxSize d →
  Decompress d content = Ok (concat chunks).
Proof.
  intros Hg Hr Hlt. unfold Decompress, decompressGzip. rewrite Hg, Hr. cbn [negb].
  by rewrite io_Copy_below.
Qed.


(** Every failure of [Decompress] carries the code DECOMPRESSION_FAILED. *)
Lemma Decompress_failure_code (d : Decompressor) (content : bytes) (e : goerror) :
  Decompress d content = Fail e →
  ∃ de, e = DomainError de ∧ Code de = "DECOMPRESSION_FAILED" ∧ HTTPStatus de = 500.
Proof.
  unfold Decompress. destruct (negb _); [discriminate|].
  destruct (decompressGzip d content); [discriminate|].
  intros [= <-]. by eauto.
Qed.

End WithGzip.

Import Samples.


End DecompressProps.

(** ** Type detection (package storage) *)

Module DetectProps.
Import Storage.

Section WithSniffer.
Context `{Sniffer}.

Lemma detectBySignature_short (content : bytes) :
  blen content < 16 → detectBySignature content = "".
Proof.
  intros Hs. unfold detectBySignature.
  by replace (blen content <? 16) with true by (symmetry; apply Z.ltb_lt; lia).
Qed.

Lemma plain_types_not_signatures :
  ("application/octet-stream" ∉ signature_types) ∧
  ("text/plain; charset=utf-8" ∉ signature_types).
Proof.
  split; intros Hin; apply list_elem_of_In in Hin; vm_compute in Hin;
    repeat (destruct Hin as [Hin|Hin]; [discriminate|]); exact Hin.
Qed.

(** C10. For content shorter than 16 bytes that the standard sniffer
    reports as application/octet-stream or as generic text/plain, the
    signature table is not consulted: the detected type is the sniffer's,
    it is not a type of the signature table, and it is the ContentType
    that [DetectType] returns. *)
Theorem short_content_skips_signatures (content : bytes) (filename : string)
    (Hshort : blen content < 16)
    (Hsniff : http_DetectContentType content = "application/octet-stream" ∨
              http_DetectContentType content = "text/plain; charset=utf-8") :
  detectBySignature content = "" ∧
  (DetectMIME content = "application/octet-stream" ∨
   DetectMIME content = "text/plain; charset=utf-8") ∧
  (DetectMIME content ∉ signature_types) ∧
  ∃ md, DetectType content filename = Ok md ∧
        Domain.ContentType md = DetectMIME content.
Proof.
  assert (Hsig : detectBySignature content = "") by by apply detectBySignature_short.
  assert (Hmime : DetectMIME content = "application/octet-stream" ∨
                  DetectMIME content = "text/plain; charset=utf-8").
  { unfold DetectMIME. destruct (blen content =? 0); [by left|].
    rewrite Hsig. destruct Hsniff as [-> | ->]; [by left|by right]. }
  split; [done|]. split; [done|]. split.
  - destruct plain_types_not_signatures as [Ho Ht].
    destruct Hmime as [-> | ->]; done.
  - unfold DetectType. by eauto.
Qed.

End WithSniffer.

Import Samples.

Lemma short_content_skips_signatures_witness :
  DetectMIME (B "%PDF") = "text/plain; charset=utf-8" ∧
  DetectMIME (B "%PDF") ≠ "application/pdf" ∧
  (DetectMIME (B "%PDF") ∉ signature_types).
Proof.
  destruct (short_content_skips_signatures (B "%PDF") "") as (_ & _ & Hnot & _).
  - vm_compute. reflexivity.
  - right. reflexivity.
  - split; [reflexivity|]. split; [discriminate|exact Hnot].
Defined.

End DetectProps.

(** ** The retrieval pipeline (package service) *)

Module ServiceProps.
Import Domain Service.

(** A request that passes [Validate] passes the decryptor's check of the
    transaction id. *)
Lemma Validate_ValidateTXID (req : FileRequest) :
  Validate req = None → Crypto.ValidateTXID (rTXID req) = None.
Proof.
  intros (Ht & _)%CacheKeyProps.Validate_ok_inv.
  unfold Crypto.ValidateTXID. change (Crypto.reTXID (rTXID req)) with (txidPattern (rTXID req)).
  by rewrite Ht.
Qed.



Section WithDeps.
Context {C : Type} `{Crypto.RPCClient C}.
Context {K : Type} `{CacheImpl K}.
Context `{Storage.GzipLib} `{Storage.Sniffer}.

(** Past validation, a cache miss and the chain lookup, [GetFile] is the
    decrypt, decompress, detect pipeline. *)
Lemma GetFile_pipeline (s : @FileService C K) (ctx : option goerror) (now : Z)
    (req : FileRequest) (client : C) :
  Validate req = None →
  (cache_lookup s ctx now req).1 = None →
  getClient s (rChainID req) = Ok client →
  returned (GetFile s ctx now req) =
    match (Crypto.DecryptData client (rTXID req) (rEVK req)).1 with
    | Fail err => Fail err
    | Ok encryptedData =>
        let data := match Storage.Decompress (decompressor s) encryptedData with
                    | Ok d => d
                    | Fail _ => encryptedData
                    end in
        match Storage.DetectType data (rFilename req) with
        | Fail err => Fail (ErrorfW "failed to detect file type" err)
        | Ok metadata => Ok (mkFile (rTXID req) (rChainID req) data (Some metadata) now)
        end
    end
  ∧ rpcCalls (GetFile s ctx now req) = (Crypto.DecryptData client (rTXID req) (rEVK req)).2.
Proof.
  intros Hv Hmiss Hc. unfold GetFile. rewrite Hv.
  destruct (cache_lookup s ctx now req) as [hit k'] eqn:Hl. simpl in Hmiss. subst hit.
  rewrite Hc. destruct (Crypto.DecryptData client (rTXID req) (rEVK req)) as [r calls].
  destruct r as [enc|e]; [|done]. cbn [fst snd].
  unfold Storage.DetectType. done.
Qed.

(** A failing client call comes back as DECRYPTION_FAILED, status 500. *)
Lemma DecryptData_client_failure (client : C) (txid evk : string) (cause : goerror) :
  Crypto.ValidateTXID txid = None →
  Crypto.ValidateEVK evk = None →
  Crypto.client_DecryptData client txid evk = Fail cause →
  Crypto.DecryptData client txid evk =
    (Fail (DomainError (NewDecryptionError txid (Some cause))), [(txid, evk)]).
Proof. intros Ht He Hc. unfold Crypto.DecryptData. by rewrite Ht, He, Hc. Qed.


(** C9. When the decrypted payload bears the gzip magic and does not
    decompress, for whatever reason, [GetFile] still succeeds and the
    content of the file is the raw payload. *)
Theorem GetFile_decompression_fallback (s : @FileService C K) (ctx : option goerror)
    (now : Z) (req : FileRequest) (client : C) (raw : bytes) (e : goerror)
    (Hvalid : Validate req = None)
    (Hmiss : (cache_lookup s ctx now req).1 = None)
    (Hclient : getClient s (rChainID req) = Ok client)
    (Hdecrypt : (Crypto.DecryptData client (rTXID req) (rEVK req)).1 = Ok raw)
    (Hmagic : Storage.isGzipped raw = true)
    (Hfail : Storage.Decompress (decompressor s) raw = Fail e) :
  ∃ md, returned (GetFile s ctx now req) =
          Ok (mkFile (rTXID req) (rChainID req) raw (Some md) now) ∧
        Size md = Storage.blen raw ∧ Compressed md = true.
Proof.
  destruct (GetFile_pipeline s ctx now req client Hvalid Hmiss Hclient) as [Hret _].
  rewrite Hret, Hdecrypt. cbn zeta. rewrite Hfail. unfold Storage.DetectType.
  eexists. split; [done|]. cbn [Size Compressed]. split; [done|].
  unfold Storage.isGzipCompressed. exact Hmagic.
Qed.

End WithDeps.

(** *** The RPC client behind the pipeline *)

Section WithVerusClient.
Import Verusrpc Wiring.
Context `{ResponseCodec} `{ResultCodec}.
Context {K : Type} `{CacheImpl K}.
Context `{Storage.GzipLib} `{Storage.Sniffer}.

(** C3 (amended). When the node RPC call of a [GetFile] request fails
    after the retries are exhausted, the error returned to the caller is a
    domain error with code DECRYPTION_FAILED and HTTP status 500 that wraps
    the RPC failure, and the HTTP surface answers 500 DECRYPTION_FAILED. *)
Theorem rpc_failure_is_decryption_failed (s : @FileService (Client * Env) K)
    (ctx : option goerror) (now : Z) (req : FileRequest) (c : Client) (env : Env)
    (Hvalid : Validate req = None)
    (Hevk : Crypto.ValidateEVK (rEVK req) = None)
    (Hmiss : (cache_lookup s ctx now req).1 = None)
    (Hclient : getClient s (rChainID req) = Ok (c, env))
    (Hretries : 0 <= maxRetries c < maxInt64)
    (Hctx : ∀ i, doneWhileWaiting env i = None ∧ errAfter env i = None)
    (Hdown : ∀ i, 0 <= i <= maxRetries c → transport_or_status (roundTrip env i)) :
  ∃ cause de,
    call_error (roundTrip env (maxRetries c)) = Some cause ∧
    returned (GetFile s ctx now req) = Fail (DomainError de) ∧
    Code de = "DECRYPTION_FAILED" ∧
    HTTPStatus de = 500 ∧
    Err de = Some (ErrorfW "decryptdata failed"
               (ErrorfW ("rpc call failed after " ++ pretty (maxRetries c + 1) ++ " attempts")
                        cause)) ∧
    writeError (DomainError de) = (500, "DECRYPTION_FAILED").
Proof.
  destruct (CallProps.Call_persistent_failure c env (mkMetrics 0 0 0) Hretries Hctx Hdown)
    as (cause & tr & m' & Hcause & Hcall).
  destruct (GetFile_pipeline s ctx now req (c, env) Hvalid Hmiss Hclient) as [Hret _].
  rewrite (DecryptData_client_failure (c, env) (rTXID req) (rEVK req)
             (ErrorfW "decryptdata failed"
               (ErrorfW ("rpc call failed after " ++ pretty (maxRetries c + 1) ++ " attempts")
                        cause))) in Hret.
  - exists cause. eexists. split; [done|]. split; [exact Hret|]. done.
  - by apply Validate_ValidateTXID.
  - done.
  - cbn. unfold DecryptData. cbn [fst snd]. by rewrite Hcall.
Qed.

End WithVerusClient.

Import Samples Wiring.



Lemma rpc_failure_is_decryption_failed_witness :
  response_of (returned (GetFile service_node_down None 0 req_a))
    = (500, "DECRYPTION_FAILED").
Proof.
  destruct (rpc_failure_is_decryption_failed service_node_down None 0 req_a
              sample_client node_down)
    as (cause & de & _ & Hret & _ & _ & _ & Hwrite).
  - reflexivity.
  - reflexivity.
  - reflexivity.
  - reflexivity.
  - vm_compute. split; [discriminate|reflexivity].
  - intros i. split; reflexivity.
  - intros i _. simpl. destruct (i =? 1); simpl; [lia|done].
  - rewrite Hret. exact Hwrite.
Defined.

(** With the node down for all four attempts, the caller gets 500
    DECRYPTION_FAILED, not 502 RPC_ERROR. *)
Lemma rpc_failure_not_rpc_error :
  Verusrpc.attempts (Verusrpc.Call sample_client node_down fresh_metrics).1.2 = 4 ∧
  response_of (returned (GetFile service_node_down None 0 req_a))
    = (500, "DECRYPTION_FAILED") ∧
  response_of (returned (GetFile service_node_down None 0 req_a)) ≠ (502, "RPC_ERROR").
Proof.
  split; [vm_compute; reflexivity|].
  assert (Hr : response_of (returned (GetFile service_node_down None 0 req_a))
               = (500, "DECRYPTION_FAILED")) by (vm_compute; reflexivity).
  split; [exact Hr|]. rewrite Hr. discriminate.
Qed.

Lemma GetFile_decompression_fallback_witness :
  ∃ md, returned (GetFile service_bad_gzip None 7 req_a) =
          Ok (mkFile txid_a "vrsctest" gzip_bad_header (Some md) 7) ∧
        Size md = 10.
Proof.
  destruct (GetFile_decompression_fallback service_bad_gzip None 7 req_a mock_bad_gzip
              gzip_bad_header
              (DomainError (NewDecompressionError
                 "gzip decompression failed: gzip: invalid header")))
    as (md & Hret & Hsize & _).
  - reflexivity.
  - reflexivity.
  - reflexivity.
  - vm_compute. reflexivity.
  - reflexivity.
  - vm_compute. reflexivity.
  - exists md. split; [exact Hret|]. rewrite Hsize. reflexivity.
Defined.

(** The second scenario of the specification, first request: the node
    returns the hex of [Hello, World!] and the caller gets these thirteen
    bytes as text/plain. *)
Example GetFile_hello_world :
  ∃ md, returned (GetFile service_hello None 7 req_a) =
          Ok (mkFile txid_a "vrsctest" (list_byte_of_string "Hello, World!") (Some md) 7) ∧
        ContentType md = "text/plain; charset=utf-8" ∧ Size md = 13 ∧ Extension md = "gif".
Proof. eexists. split; [vm_compute; reflexivity|]. repeat split. Qed.

End ServiceProps.

(** * Further properties *)

(** ** The retry loop in general (pkg/verusrpc/client.go) *)

Module RetryProps.
Import Verusrpc Retry.

Section WithCodec.
Context `{ResponseCodec}.

Lemma retryable_inv (o : httpOutcome) (m : Metrics) (t : Z) :
  retryable o = true →
  ∃ e, fst (call m o t) = Fail e ∧ no_retry e = false ∧ call_error o = Some e.
Proof.
  unfold retryable. destruct (call_error o) as [e|] eqn:He; [|discriminate].
  intros Hr%negb_true_iff. exists e. split; [|done].
  unfold call_error in He. rewrite (CallProps.call_result_metrics m (mkMetrics 0 0 0) o t 0).
  destruct (call (mkMetrics 0 0 0) o 0).1; [discriminate|congruence].
Qed.

Lemma succeeds_inv (o : httpOutcome) (m : Metrics) (t : Z) (v : bytes) :
  succeeds o = Some v → fst (call m o t) = Ok v.
Proof.
  unfold succeeds. rewrite (CallProps.call_result_metrics m (mkMetrics 0 0 0) o t 0).
  destruct (call (mkMetrics 0 0 0) o 0).1; [congruence|discriminate].
Qed.

(** What one exchange does to the counters. *)
Lemma call_counters (m : Metrics) (o : httpOutcome) (t : Z) :
  requestCount (call m o t).2 = requestCount m + 1 ∧
  totalDuration (call m o t).2 = totalDuration m + t ∧
  errorCount (call m o t).2 =
    errorCount m + match (call m o t).1 with Ok _ => 0 | Fail _ => 1 end.
Proof.
  unfold call. destruct o; simpl; try (repeat split; lia).
  destruct (negb _); simpl; [repeat split; lia|].
  destruct (json_Unmarshal_Response body) as [resp|e]; simpl; [|repeat split; lia].
  destruct (respError resp) as [[code msg]|]; simpl; repeat split; lia.
Qed.

(** [k] retryable failures under a live context are [k] iterations, after
    which the loop goes on with the last error in hand. *)
Lemma Call_loop_skip (c : Client) (env : Env) (k : nat) :
  ∀ (n : nat) (a : Z) (lastErr : option goerror) (m : Metrics),
    (∀ i, a <= i < a + Z.of_nat k →
          doneWhileWaiting env i = None ∧ errAfter env i = None ∧
          retryable (roundTrip env i) = true) →
    ∃ m1 last1,
      Call_loop c env (k + n) a lastErr m =
        (let '(r, tr, m') := Call_loop c env n (a + Z.of_nat k) last1 m1 in
         (r, (iterations c a k ++ tr)%list, m')) ∧
      requestCount m1 = requestCount m + Z.of_nat k ∧
      errorCount m1 = errorCount m + Z.of_nat k ∧
      last1 = match k with
              | O => lastErr
              | S _ => call_error (roundTrip env (a + Z.of_nat k - 1))
              end.
Proof.
  induction k as [|k IH]; intros n a lastErr m Hall.
  - exists m, lastErr. replace (a + Z.of_nat 0) with a by lia. cbn [Nat.add].
    split; [|split; [lia|split; [lia|done]]].
    unfold iterations. cbn. by destruct (Call_loop c env n a lastErr m) as [[r tr] m'].
  - destruct (Hall a) as (Hw & Ha & Ho); [lia|].
    destruct (retryable_inv _ m (elapsedMicros env a) Ho) as (e & He & Hr & Hc).
    pose proof (call_counters m (roundTrip env a) (elapsedMicros env a)) as (Hq & _ & Herr).
    cbn [Nat.add Call_loop]. rewrite Hw, Ha.
    destruct (call m (roundTrip env a) (elapsedMicros env a)) as [r m0] eqn:Hcall.
    cbn [fst snd] in *. subst r. rewrite Hr.
    destruct (IH n (a + 1) (Some e) m0) as (m1 & last1 & Hloop & Hq1 & He1 & Hlast).
    { intros i Hi. apply Hall. lia. }
    rewrite Hloop. exists m1, last1.
    replace (a + 1 + Z.of_nat k) with (a + Z.of_nat (S k)) by lia.
    split; [|split; [lia|split; [lia|]]].
    + destruct (Call_loop c env n (a + Z.of_nat (S k)) last1 m1) as [[r tr] m'].
      f_equal. f_equal. unfold iterations.
      rewrite Nat2Z.inj_succ, (seqZ_cons a) by lia.
      replace (Z.pred (Z.succ (Z.of_nat k))) with (Z.of_nat k) by lia.
      replace (Z.succ a) with (a + 1) by lia.
      cbn [map concat]. unfold iteration at 2. rewrite <- !app_assoc.
      destruct (a >? 0); done.
    + rewrite Hlast. destruct k as [|k'].
      * replace (a + Z.of_nat 1 - 1) with a by lia. done.
      * f_equal. f_equal. lia.
Qed.

(** The counters follow the trace, whatever the node and the context do. *)
Lemma Call_loop_counters (c : Client) (env : Env) (n : nat) :
  ∀ (a : Z) (lastErr : option goerror) (m : Metrics),
    0 <= attempts (Call_loop c env n a lastErr m).1.2 <= Z.of_nat n ∧
    requestCount (Call_loop c env n a lastErr m).2
      = requestCount m + attempts (Call_loop c env n a lastErr m).1.2 ∧
    errorCount (Call_loop c env n a lastErr m).2
      = errorCount m + attempts (Call_loop c env n a lastErr m).1.2
        - match (Call_loop c env n a lastErr m).1.1 with Ok _ => 1 | Fail _ => 0 end.
Proof.
  induction n as [|n IH]; intros a lastErr m.
  - cbn [Call_loop fst snd]. change (attempts []) with 0. lia.
  - cbn [Call_loop].
    assert (Hw : ∀ w : list event,
      (w = [] ∨ ∃ d, w = [Waited d]) →
      let R := (let '(r, m') := call m (roundTrip env a) (elapsedMicros env a) in
        let tr := (w ++ [Attempted a])%list in
        match r with
        | Ok v => (Ok v, tr, m')
        | Fail err =>
            match errAfter env a with
            | Some e => (Fail e, tr, m')
            | None =>
                if no_retry err then (Fail err, tr, m')
                else let '(r', tr', m'') := Call_loop c env n (a + 1) (Some err) m' in
                     (r', (tr ++ tr')%list, m'')
            end
        end) in
      0 <= attempts R.1.2 <= Z.of_nat (S n) ∧
      requestCount R.2 = requestCount m + attempts R.1.2 ∧
      errorCount R.2 = errorCount m + attempts R.1.2
                       - match R.1.1 with Ok _ => 1 | Fail _ => 0 end).
    { intros w Hwd.
      assert (Hone : attempts (w ++ [Attempted a]) = 1).
      { destruct Hwd as [-> | [d ->]]; reflexivity. }
      pose proof (call_counters m (roundTrip env a) (elapsedMicros env a)) as (Hq & _ & He).
      destruct (call m (roundTrip env a) (elapsedMicros env a)) as [r m0].
      cbn [fst snd] in *. destruct r as [v|err]; cbn [fst snd].
      - rewrite Hone. lia.
      - destruct (errAfter env a); cbn [fst snd]; [rewrite Hone; lia|].
        destruct (no_retry err); cbn [fst snd]; [rewrite Hone; lia|].
        specialize (IH (a + 1) (Some err) m0).
        destruct (Call_loop c env n (a + 1) (Some err) m0) as [[r' tr'] m''].
        cbn [fst snd] in *.
        assert (Happ : attempts ((w ++ [Attempted a]) ++ tr') = 1 + attempts tr').
        { unfold attempts in *. rewrite List.filter_app, length_app. lia. }
        rewrite Happ. lia. }
    destruct (a >? 0).
    + destruct (doneWhileWaiting env a).
      * cbn [fst snd]. change (attempts []) with 0. lia.
      * apply Hw. right. by eauto.
    + apply Hw. by left.
Qed.

(** X1. Whatever the node answers and whenever the context ends, one
    [Call] makes at most [maxRetries+1] HTTP exchanges, counts each of
    them as a request, and counts each as an error except the one that
    succeeded. *)
Theorem Call_accounting (c : Client) (env : Env) (m : Metrics) :
  0 <= attempts (Call c env m).1.2 <= Z.max 0 (maxRetries c + 1) ∧
  requestCount (Call c env m).2 = requestCount m + attempts (Call c env m).1.2 ∧
  errorCount (Call c env m).2
    = errorCount m + attempts (Call c env m).1.2
      - match (Call c env m).1.1 with Ok _ => 1 | Fail _ => 0 end.
Proof.
  unfold Call.
  pose proof (Call_loop_counters c env (Z.to_nat (maxRetries c + 1)) 0 None m) as (Ha & Hq & He).
  split; [lia|]. split; [exact Hq|exact He].
Qed.

(** X2. When the first [k] attempts fail with errors that are retried
    and attempt [k] succeeds, with [k <= maxRetries] and the context live,
    [Call] returns the result of attempt [k] after exactly [k+1] attempts
    and [k] back-off waits. *)
Theorem Call_retry_then_success (c : Client) (env : Env) (m : Metrics) (k : nat) (v : bytes)
    (Hk : Z.of_nat k <= maxRetries c)
    (Hlive : ∀ i, 0 <= i <= Z.of_nat k → doneWhileWaiting env i = None ∧ errAfter env i = None)
    (Hfail : ∀ i, 0 <= i < Z.of_nat k → retryable (roundTrip env i) = true)
    (Hok : succeeds (roundTrip env (Z.of_nat k)) = Some v) :
  (Call c env m).1 = (Ok v, iterations c 0 (S k)) ∧
  attempts (Call c env m).1.2 = Z.of_nat k + 1 ∧
  length (waits (Call c env m).1.2) = k.
Proof.
  unfold Call.
  replace (Z.to_nat (maxRetries c + 1)) with (k + S (Z.to_nat (maxRetries c) - k))%nat by lia.
  destruct (Call_loop_skip c env k (S (Z.to_nat (maxRetries c) - k)) 0 None m)
    as (m1 & last1 & Hloop & _).
  { intros i Hi. destruct (Hlive i) as [? ?]; [lia|]. repeat split; [done..|]. apply Hfail. lia. }
  rewrite Hloop. cbn [Call_loop]. replace (0 + Z.of_nat k) with (Z.of_nat k) by lia.
  destruct (Hlive (Z.of_nat k)) as [Hw _]; [lia|]. rewrite Hw.
  pose proof (succeeds_inv _ m1 (elapsedMicros env (Z.of_nat k)) v Hok) as Hc.
  destruct (call m1 (roundTrip env (Z.of_nat k)) (elapsedMicros env (Z.of_nat k))) as [r m2].
  cbn [fst] in Hc. subst r.
  assert (Htr : ∀ w, w = (if Z.of_nat k >? 0 then [Waited (wrap64 (retryDelay c * Z.of_nat k))]
                          else []) →
            (iterations c 0 k ++ w ++ [Attempted (Z.of_nat k)])%list = iterations c 0 (S k)).
  { intros w ->. unfold iterations.
    replace (Z.of_nat (S k)) with (Z.of_nat k + 1) by lia.
    rewrite seqZ_app by lia. rewrite map_app, concat_app.
    change (seqZ (0 + Z.of_nat k) 1) with [Z.of_nat k].
    cbn [map concat]. unfold iteration at 2. by rewrite app_nil_r. }
  assert (Hres : (let '(r, tr, m') :=
            (let waited := if Z.of_nat k >? 0
                           then inr [Waited (wrap64 (retryDelay c * Z.of_nat k))] else inr [] in
             match waited with
             | inl e => (Fail e, [], m1)
             | inr w => (Ok v, (w ++ [Attempted (Z.of_nat k)])%list, m2)
             end : result bytes * list event * Metrics) in
            (r, (iterations c 0 k ++ tr)%list, m')).1 = (Ok v, iterations c 0 (S k))).
  { rewrite <- (Htr _ eq_refl). by destruct (Z.of_nat k >? 0). }
  split; [|split].
  - destruct (Z.of_nat k >? 0); exact Hres.
  - replace ((let '(r, tr, m') := _ in _).1.2) with (iterations c 0 (S k)).
    + unfold iterations. rewrite CallProps.attempts_iterations. lia.
    + destruct (Z.of_nat k >? 0); cbn [fst snd] in *; congruence.
  - replace ((let '(r, tr, m') := _ in _).1.2) with (iterations c 0 (S k)).
    + unfold iterations. rewrite Nat2Z.inj_succ, (seqZ_cons 0) by lia.
      replace (Z.pred (Z.succ (Z.of_nat k))) with (Z.of_nat k) by lia.
      cbn [map concat]. unfold iteration at 1. change (0 >? 0) with false. cbv iota.
      change (waits (([] ++ [Attempted 0]) ++ ?l)%list) with (waits l).
      rewrite CallProps.waits_iterations by lia. rewrite length_map, length_seqZ. lia.
    + destruct (Z.of_nat k >? 0); cbn [fst snd] in *; congruence.
Qed.

(** X3. Cancellation cuts the retries short. After [k] retried
    failures, a context that ends during the back-off wait makes [Call]
    return the context's error without a further attempt; a context found
    ended right after a failed attempt makes [Call] return the context's
    error in place of the attempt's own, whatever that error is. *)
Theorem Call_cancelled (c : Client) (env : Env) (m : Metrics) (k : nat) (e : goerror)
    (Hk : Z.of_nat k <= maxRetries c)
    (Hlive : ∀ i, 0 <= i < Z.of_nat k → doneWhileWaiting env i = None ∧ errAfter env i = None)
    (Hfail : ∀ i, 0 <= i < Z.of_nat k → retryable (roundTrip env i) = true) :
  ((0 < k)%nat → doneWhileWaiting env (Z.of_nat k) = Some e →
     (Call c env m).1 = (Fail e, iterations c 0 k) ∧
     attempts (Call c env m).1.2 = Z.of_nat k) ∧
  (doneWhileWaiting env (Z.of_nat k) = None →
   succeeds (roundTrip env (Z.of_nat k)) = None →
   errAfter env (Z.of_nat k) = Some e →
     (Call c env m).1 = (Fail e, iterations c 0 (S k)) ∧
     attempts (Call c env m).1.2 = Z.of_nat k + 1).
Proof.
  assert (Hsplit : ∃ m1 last1,
    Call c env m =
      (let '(r, tr, m') := Call_loop c env (S (Z.to_nat (maxRetries c) - k)) (Z.of_nat k)
                             last1 m1 in
       (r, (iterations c 0 k ++ tr)%list, m'))).
  { unfold Call.
    replace (Z.to_nat (maxRetries c + 1)) with (k + S (Z.to_nat (maxRetries c) - k))%nat by lia.
    destruct (Call_loop_skip c env k (S (Z.to_nat (maxRetries c) - k)) 0 None m)
      as (m1 & last1 & Hloop & _).
    { intros i Hi. destruct (Hlive i) as [? ?]; [lia|]. repeat split; [done..|].
      apply Hfail. lia. }
    exists m1, last1. rewrite Hloop. by replace (0 + Z.of_nat k) with (Z.of_nat k) by lia. }
  destruct Hsplit as (m1 & last1 & ->).
  assert (Hlast : ∀ w, w = (if Z.of_nat k >? 0
                            then [Waited (wrap64 (retryDelay c * Z.of_nat k))] else []) →
            (iterations c 0 k ++ w ++ [Attempted (Z.of_nat k)])%list = iterations c 0 (S k)).
  { intros w ->. unfold iterations.
    replace (Z.of_nat (S k)) with (Z.of_nat k + 1) by lia.
    rewrite seqZ_app by lia. rewrite map_app, concat_app.
    change (seqZ (0 + Z.of_nat k) 1) with [Z.of_nat k].
    cbn [map concat]. unfold iteration at 2. by rewrite app_nil_r. }
  split.
  - intros Hpos Hdone. cbn [Call_loop].
    replace (Z.of_nat k >? 0) with true by (symmetry; rewrite Z.gtb_ltb; apply Z.ltb_lt; lia).
    rewrite Hdone. cbn [fst snd]. rewrite app_nil_r. split; [done|].
    unfold iterations. by rewrite CallProps.attempts_iterations.
  - intros Hwait Hnok Hafter. cbn [Call_loop]. rewrite Hwait, Hafter.
    assert (Hc : ∃ err, (call m1 (roundTrip env (Z.of_nat k))
                            (elapsedMicros env (Z.of_nat k))).1 = Fail err).
    { unfold succeeds in Hnok.
      rewrite (CallProps.call_result_metrics m1 (mkMetrics 0 0 0) _ _ 0).
      destruct (call (mkMetrics 0 0 0) (roundTrip env (Z.of_nat k)) 0).1; [discriminate|by eauto]. }
    destruct Hc as (err & Hc).
    destruct (call m1 (roundTrip env (Z.of_nat k)) (elapsedMicros env (Z.of_nat k))) as [r m2].
    cbn [fst] in Hc. subst r.
    assert (Hres : (let '(r, tr, m') :=
              (let waited := if Z.of_nat k >? 0
                             then inr [Waited (wrap64 (retryDelay c * Z.of_nat k))] else inr [] in
               match waited with
               | inl e0 => (Fail e0, [], m1)
               | inr w => (Fail e, (w ++ [Attempted (Z.of_nat k)])%list, m2)
               end : result bytes * list event * Metrics) in
              (r, (iterations c 0 k ++ tr)%list, m')).1 = (Fail e, iterations c 0 (S k))).
    { rewrite <- (Hlast _ eq_refl). by destruct (Z.of_nat k >? 0). }
    split.
    + destruct (Z.of_nat k >? 0); exact Hres.
    + replace ((let '(r, tr, m') := _ in _).1.2) with (iterations c 0 (S k)).
      * unfold iterations. rewrite CallProps.attempts_iterations. lia.
      * destruct (Z.of_nat k >? 0); cbn [fst snd] in *; congruence.
Qed.

(** A JSON-RPC error whose code lies outside the reserved band is retried. *)
Lemma rpc_error_outside_band_retryable (body : bytes) (resp : Response) (code : Z)
    (msg : string) :
  json_Unmarshal_Response body = Ok resp →
  respError resp = Some (code, msg) →
  code < -32099 ∨ -32000 < code →
  retryable (Responded 200 body) = true ∧
  call_error (Responded 200 body) = Some (RPCError code msg).
Proof.
  intros Hdec Herr Hcode. unfold retryable, call_error, call. cbn. rewrite Hdec, Herr. cbn.
  split; [|done]. unfold reserved_code. apply negb_true_iff, andb_false_iff.
  destruct Hcode; [left; apply Z.leb_gt|right; apply Z.leb_gt]; lia.
Qed.

(** X4. JSON-RPC errors outside [-32099, -32000] are retried like
    transport failures: this holds for the standard codes of the protocol
    (parse error -32700, method not found -32601, ...), which lie below
    the band. When every attempt is answered with such an error, [Call]
    makes [maxRetries+1] attempts and wraps the last error. *)
Theorem Call_retries_rpc_errors_outside_band (c : Client) (env : Env) (m : Metrics)
    (Hretries : 0 <= maxRetries c < maxInt64)
    (Hctx : ∀ i, doneWhileWaiting env i = None ∧ errAfter env i = None)
    (Hrpc : ∀ i, 0 <= i <= maxRetries c →
            ∃ body resp code msg,
              roundTrip env i = Responded 200 body ∧
              json_Unmarshal_Response body = Ok resp ∧
              respError resp = Some (code, msg) ∧
              (code < -32099 ∨ -32000 < code)) :
  ∃ code msg,
    call_error (roundTrip env (maxRetries c)) = Some (RPCError code msg) ∧
    (code < -32099 ∨ -32000 < code) ∧
    (Call c env m).1.1 =
      Fail (ErrorfW ("rpc call failed after " ++ pretty (maxRetries c + 1) ++ " attempts")
                    (RPCError code msg)) ∧
    attempts (Call c env m).1.2 = maxRetries c + 1.
Proof.
  destruct (Hrpc (maxRetries c)) as (body & resp & code & msg & Hrt & Hdec & Herr & Hcode);
    [lia|].
  destruct (rpc_error_outside_band_retryable body resp code msg Hdec Herr Hcode) as [_ Hce].
  exists code, msg. rewrite Hrt. split; [done|]. split; [done|].
  unfold Call.
  destruct (Call_loop_skip c env (Z.to_nat (maxRetries c + 1)) 0 0 None m)
    as (m1 & last1 & Hloop & _ & _ & Hlast).
  { intros i Hi. destruct (Hctx i) as [? ?]. repeat split; [done..|].
    destruct (Hrpc i) as (b & r & cd & ms & -> & Hd & He & Hc); [lia|].
    by apply (rpc_error_outside_band_retryable b r cd ms). }
  rewrite Nat.add_0_r in Hloop. rewrite Hloop. cbn [Call_loop fst snd].
  rewrite app_nil_r. split.
  - unfold exhausted. rewrite Hlast.
    destruct (Z.to_nat (maxRetries c + 1)) as [|j] eqn:Hj; [lia|]. rewrite <- Hj.
    replace (0 + Z.of_nat (Z.to_nat (maxRetries c + 1)) - 1) with (maxRetries c) by lia.
    rewrite Hrt, Hce. rewrite CallProps.wrap64_id by (unfold minInt64, maxInt64 in *; lia).
    done.
  - unfold iterations. rewrite CallProps.attempts_iterations. lia.
Qed.

End WithCodec.

Import Samples Cases.

Lemma Call_retry_then_success_witness :
  (Call sample_client node_flaky fresh_metrics).1.1 = Ok hello_world_result ∧
  attempts (Call sample_client node_flaky fresh_metrics).1.2 = 3.
Proof.
  destruct (Call_retry_then_success sample_client node_flaky fresh_metrics 2 hello_world_result)
    as (Hres & Hn & _).
  - vm_compute. discriminate.
  - intros i _. split; reflexivity.
  - intros i Hi. cbn. replace (i <? 2) with true by (symmetry; apply Z.ltb_lt; lia).
    reflexivity.
  - reflexivity.
  - split; [by rewrite Hres|exact Hn].
Defined.

Lemma Call_cancelled_witness :
  (Call sample_client node_down_caller_leaves fresh_metrics).1.1 = Fail ContextCanceled ∧
  attempts (Call sample_client node_down_caller_leaves fresh_metrics).1.2 = 1.
Proof.
  destruct (Call_cancelled sample_client node_down_caller_leaves fresh_metrics 1
              ContextCanceled) as [Hwait _].
  - vm_compute. discriminate.
  - intros i Hi. cbn. replace (i =? 1) with false by (symmetry; apply Z.eqb_neq; lia).
    split; reflexivity.
  - intros i _. reflexivity.
  - destruct Hwait as [Hres Hn]; [lia|reflexivity|].
    split; [by rewrite Hres|exact Hn].
Defined.

Lemma Call_retries_rpc_errors_outside_band_witness :
  attempts (@Call method_not_found_codec sample_client node_without_method fresh_metrics).1.2
    = 4.
Proof.
  destruct (@Call_retries_rpc_errors_outside_band method_not_found_codec
              sample_client node_without_method fresh_metrics)
    as (code & msg & _ & _ & _ & Hn).
  - vm_compute. split; [discriminate|reflexivity].
  - intros i. split; reflexivity.
  - intros i _. exists method_not_found_body,
      (mkResponse [] (Some (-32601, "Method not found"))), (-32601), "Method not found".
    split; [reflexivity|]. split; [reflexivity|]. split; [reflexivity|]. left. lia.
  - exact Hn.
Defined.

End RetryProps.

(** ** Validation (internal/domain/file.go, internal/crypto/decrypt.go) *)

Module ValidateProps.
Import Domain GoStringProps.

(** [strings.Contains] finds exactly the occurrences. *)
Lemma prefix_occurs (p s : string) :
  String.prefix p s = true ↔ ∃ post, s = p ++ post.
Proof.
  split.
  - intros Hp%CacheKeyProps.prefix_split. by eauto.
  - intros [post ->]. induction p as [|c p IH]; [by destruct post|].
    change (String c p ++ post) with (String c (p ++ post)). cbn.
    destruct (ascii_dec c c); [exact IH|done].
Qed.

Lemma Contains_occurs (s sub : string) :
  GoString.Contains s sub = true ↔ GoString.occurs_in sub s.
Proof.
  unfold GoString.occurs_in. induction s as [|c s IH]; cbn [GoString.Contains].
  - rewrite orb_false_r, prefix_occurs. split.
    + intros [post ->]. by exists "", post.
    + intros (pre & post & Heq). destruct pre; [by exists post|].
      change (String a pre ++ sub ++ post) with (String a (pre ++ sub ++ post)) in Heq.
      discriminate.
  - rewrite orb_true_iff, prefix_occurs, IH. split.
    + intros [[post ->] | (pre & post & ->)]; [by exists "", post|].
      by exists (String c pre), post.
    + intros (pre & post & Heq). destruct pre as [|a pre].
      * left. by exists post.
      * right. change (String a pre ++ sub ++ post) with (String a (pre ++ sub ++ post)) in Heq.
        injection Heq as -> ->. by exists pre, post.
Qed.

(** X5. Every rejection by [Validate] is a domain error with code
    INVALID_INPUT and status 400 whose [field] detail names the txid, the
    chain id, the filename or the viewing key. *)
Theorem Validate_rejects_with_invalid_input (r : FileRequest) (e : goerror)
    (Hrej : Validate r = Some e) :
  ∃ de, e = DomainError de ∧ Code de = "INVALID_INPUT" ∧ HTTPStatus de = 400 ∧
        ∃ field, Details de !! "field" = Some field ∧
                 field ∈ ["txid"; "chain_id"; "filename"; "evk"].
Proof.
  unfold Validate, invalid in Hrej.
  repeat match type of Hrej with
         | (if ?b then _ else _) = _ => destruct b
         end;
    try discriminate;
    injection Hrej as <-; eexists; (split; [reflexivity|]);
    (split; [reflexivity|]); (split; [reflexivity|]);
    eexists; (split; [reflexivity|]); set_solver.
Qed.

Lemma forallb_chars_not_in (P : ascii → bool) (s : string) (c : ascii) :
  P c = false → forallb P (GoString.chars s) = true → c ∉ GoString.chars s.
Proof.
  intros HP Hall Hin. apply list_elem_of_In in Hin.
  rewrite forallb_forall in Hall. specialize (Hall _ Hin). congruence.
Qed.

Lemma occurs_char (c : ascii) (s : string) :
  GoString.occurs_in (String c "") s → c ∈ GoString.chars s.
Proof.
  intros (pre & post & ->). rewrite !chars_app. apply elem_of_app. right.
  cbn. left.
Qed.

Lemma eqb_empty (s : string) : String.eqb s "" = true ↔ s = "".
Proof. apply String.eqb_eq. Qed.

Lemma Contains_false (s sub : string) :
  GoString.Contains s sub = false ↔ ¬ GoString.occurs_in sub s.
Proof. rewrite <- Contains_occurs. by destruct (GoString.Contains s sub). Qed.

Lemma txidPattern_length (s : string) : txidPattern s = true → String.length s = 64%nat.
Proof. apply CacheKeyProps.txid_length. Qed.

Lemma evkPattern_length (s : string) : evkPattern s = true → (97 <= String.length s)%nat.
Proof.
  unfold evkPattern. intros [Hp [Hl _]%andb_true_iff]%andb_true_iff.
  apply Nat.leb_le in Hl. rewrite chars_length in Hl.
  apply CacheKeyProps.prefix_split in Hp. apply (f_equal String.length) in Hp.
  rewrite app_length in Hp. cbn [String.length] in *. lia.
Qed.

Lemma filenamePattern_no_separator (s : string) :
  filenamePattern s = true →
  GoString.Contains s "/" = false ∧ GoString.Contains s "\" = false.
Proof.
  unfold filenamePattern. intros [_ Hall]%andb_true_iff.
  split; apply Contains_false; intros Hocc%occurs_char;
    revert Hocc; eapply forallb_chars_not_in; [|exact Hall| |exact Hall]; reflexivity.
Qed.

(** X6. [Validate] accepts exactly the requests whose txid is 64 hex
    digits, whose chain id is 1 to 32 characters of [A-Za-z0-9_-], whose
    filename is empty or at most 255 characters of the safe alphabet
    without [..], and whose viewing key is empty or [zxviews] followed by
    at least 90 alphanumeric characters, at most 500 in all. *)
Theorem Validate_accepts_iff (r : FileRequest) :
  Validate r = None ↔
  txidPattern (rTXID r) = true ∧
  (chainIDPattern (rChainID r) = true ∧ (String.length (rChainID r) <= 32)%nat) ∧
  (rFilename r = "" ∨
   ((String.length (rFilename r) <= 255)%nat ∧ filenamePattern (rFilename r) = true ∧
    ¬ GoString.occurs_in ".." (rFilename r))) ∧
  (rEVK r = "" ∨
   ((String.length (rEVK r) <= 500)%nat ∧ evkPattern (rEVK r) = true)).
Proof.
  unfold Validate, invalid, GoString.len. split.
  - intros H.
    destruct (String.eqb (rTXID r) ""); [discriminate|].
    destruct (negb (_ =? 64)); [discriminate|].
    destruct (txidPattern (rTXID r)); [|discriminate]. cbn [negb] in H.
    destruct (String.eqb (rChainID r) ""); [discriminate|].
    destruct (_ >? 32) eqn:Hcl; [discriminate|].
    destruct (chainIDPattern (rChainID r)); [|discriminate]. cbn [negb] in H.
    rewrite Z.gtb_ltb in Hcl. apply Z.ltb_ge in Hcl.
    split; [done|]. split; [split; [done|lia]|]. split.
    + destruct (String.eqb (rFilename r) "") eqn:Hf; [left; by apply eqb_empty|right].
      cbn [negb andb] in H.
      destruct (_ >? 255) eqn:Hfl; [discriminate|].
      rewrite Z.gtb_ltb in Hfl. apply Z.ltb_ge in Hfl.
      destruct (GoString.Contains (rFilename r) "..") eqn:Hdd; [discriminate|].
      destruct (GoString.Contains (rFilename r) "/"); [discriminate|].
      destruct (GoString.Contains (rFilename r) "\"); [discriminate|]. cbn [orb] in H.
      destruct (filenamePattern (rFilename r)); [|discriminate].
      split; [lia|]. split; [done|]. by apply Contains_false.
    + destruct (String.eqb (rEVK r) "") eqn:He; [left; by apply eqb_empty|right].
      destruct (_ && _); [discriminate|]. destruct (_ && _); [discriminate|].
      destruct (_ && _); [discriminate|]. cbn [negb andb] in H.
      destruct (_ <? 95); [discriminate|]. cbn [orb] in H.
      destruct (_ >? 500) eqn:Hel; [discriminate|].
      rewrite Z.gtb_ltb in Hel. apply Z.ltb_ge in Hel.
      destruct (evkPattern (rEVK r)); [|discriminate]. split; [lia|done].
  - intros (Ht & [Hc Hcl] & Hf & He).
    pose proof (txidPattern_length _ Ht) as Htl.
    replace (String.eqb (rTXID r) "") with false
      by (symmetry; apply String.eqb_neq; intros E; rewrite E in Htl; discriminate).
    replace (Z.of_nat (String.length (rTXID r)) =? 64) with true
      by (symmetry; apply Z.eqb_eq; lia).
    rewrite Ht. cbn [negb].
    replace (String.eqb (rChainID r) "") with false.
    2:{ symmetry. apply String.eqb_neq. intros E. rewrite E in Hc. discriminate. }
    replace (Z.of_nat (String.length (rChainID r)) >? 32) with false
      by (symmetry; rewrite Z.gtb_ltb; apply Z.ltb_ge; lia).
    rewrite Hc. cbn [negb].
    assert (Hfile : ∀ X : option goerror,
              (if negb (String.eqb (rFilename r) "") &&
                  (Z.of_nat (String.length (rFilename r)) >? 255)
               then invalid "filename" "filename too long (max 255 characters)"
               else if negb (String.eqb (rFilename r) "") &&
                       (GoString.Contains (rFilename r) ".."
                        || GoString.Contains (rFilename r) "/"
                        || GoString.Contains (rFilename r) "\")
               then invalid "filename" "filename contains invalid path characters"
               else if negb (String.eqb (rFilename r) "") &&
                       negb (filenamePattern (rFilename r))
               then invalid "filename" "filename contains invalid characters"
               else X) = X).
    { intros X. destruct Hf as [-> | (Hfl & Hfp & Hdd)]; [done|].
      destruct (filenamePattern_no_separator _ Hfp) as [-> ->].
      apply Contains_false in Hdd. rewrite Hdd, Hfp.
      replace (Z.of_nat (String.length (rFilename r)) >? 255) with false
        by (symmetry; rewrite Z.gtb_ltb; apply Z.ltb_ge; lia).
      by rewrite !andb_false_r. }
    unfold invalid in Hfile. rewrite Hfile.
    destruct He as [-> | (Hel & Hep)]; [done|].
    pose proof (evkPattern_length _ Hep) as Hlow. rewrite Hep.
    replace (Z.of_nat (String.length (rEVK r)) <? 95) with false
      by (symmetry; apply Z.ltb_ge; lia).
    replace (Z.of_nat (String.length (rEVK r)) >? 500) with false
      by (symmetry; rewrite Z.gtb_ltb; apply Z.ltb_ge; lia).
    by rewrite !andb_false_r.
Qed.

(** Alphanumeric and not upper case is digit or lower case. *)
Lemma alnum_not_upper (l : list ascii) :
  forallb GoString.is_alnum l = true →
  (forallb (λ c, GoString.is_digit c || GoString.is_lower c) l = true ↔
   forallb (λ c, negb (GoString.is_upper c)) l = true).
Proof.
  induction l as [|c l IH]; [done|]. cbn [forallb].
  intros [Hc Hl]%andb_true_iff. rewrite !andb_true_iff, (IH Hl).
  assert (Hcls : GoString.is_digit c || GoString.is_lower c = negb (GoString.is_upper c)).
  { revert Hc. destruct c as [[] [] [] [] [] [] [] []]; vm_compute; intros; congruence. }
  by rewrite Hcls.
Qed.

(** X7. The two checks of the viewing key disagree on upper case.
    For a request that [Validate] accepts with a viewing key, the
    decryptor's [ValidateEVK] accepts the key exactly when it holds no
    upper-case letter; a valid request with an upper-case letter in its
    key is turned down later, by the decryptor. *)
Theorem ValidateEVK_after_Validate (r : FileRequest)
    (Hvalid : Validate r = None) (Hevk : rEVK r ≠ "") :
  Crypto.ValidateEVK (rEVK r) = None ↔
  forallb (λ c, negb (GoString.is_upper c)) (GoString.chars (rEVK r)) = true.
Proof.
  apply CacheKeyProps.Validate_ok_inv in Hvalid as (_ & _ & _ & He).
  destruct (He Hevk) as [_ Hp].
  unfold Crypto.ValidateEVK, Crypto.reEVK. unfold evkPattern in Hp.
  apply andb_true_iff in Hp as [Hpre [Hlen Hal]%andb_true_iff].
  rewrite Hpre. cbn [andb].
  set (rest := GoString.chars (String.substring 7 (String.length (rEVK r) - 7) (rEVK r))) in *.
  assert (Hchars : GoString.chars (rEVK r) = (GoString.chars "zxviews" ++ rest)%list).
  { unfold rest. rewrite <- chars_app. f_equal.
    by apply CacheKeyProps.prefix_split in Hpre. }
  rewrite Hchars, forallb_app. change (forallb _ (GoString.chars "zxviews")) with true.
  cbn [andb]. rewrite <- (alnum_not_upper rest Hal).
  apply Nat.leb_le in Hlen.
  replace (1 <=? length rest)%nat with true by (symmetry; apply Nat.leb_le; lia).
  cbn [andb].
  destruct (forallb (λ c, GoString.is_digit c || GoString.is_lower c) rest);
    cbn [negb]; split; intros Heq; congruence.
Qed.

(** X8. Over valid requests the cache key also determines whether the
    request carries a viewing key: a public and an encrypted retrieval of
    the same transaction never share a cache entry. *)
Theorem CacheKey_separates_public (r1 r2 : FileRequest)
    (V1 : Validate r1 = None) (V2 : Validate r2 = None)
    (Hkey : CacheKey r1 = CacheKey r2) :
  rEVK r1 = "" ↔ rEVK r2 = "".
Proof.
  apply CacheKeyProps.Validate_ok_inv in V1 as (T1 & C1 & _ & _).
  apply CacheKeyProps.Validate_ok_inv in V2 as (T2 & C2 & _ & _).
  apply (f_equal GoString.chars) in Hkey. rewrite !CacheKeyProps.CacheKey_chars in Hkey.
  apply CacheKeyProps.split_at_colon in Hkey as [_ Ht];
    [|by apply CacheKeyProps.chainID_no_colon..].
  apply app_inj_1 in Ht as [_ Hs].
  2:{ rewrite !chars_length. apply txidPattern_length in T1, T2. congruence. }
  unfold suffix_of in Hs.
  destruct (String.eqb (rEVK r1) "") eqn:E1, (String.eqb (rEVK r2) "") eqn:E2;
    cbn in Hs; try discriminate.
  - apply eqb_empty in E1, E2. by rewrite E1, E2.
  - apply String.eqb_neq in E1, E2. split; intros; done.
Qed.

Import Samples Cases.

Lemma Validate_rejects_with_invalid_input_witness :
  ∃ de, Validate req_no_txid = Some (DomainError de) ∧
        Code de = "INVALID_INPUT" ∧ HTTPStatus de = 400 ∧
        Details de !! "field" = Some "txid".
Proof.
  destruct (Validate_rejects_with_invalid_input req_no_txid
              (DomainError (NewInvalidInputError "txid" "txid is required")))
    as (de & Heq & Hcode & Hstatus & _).
  - reflexivity.
  - exists de. injection Heq as <-. repeat split; reflexivity.
Defined.

Lemma ValidateEVK_after_Validate_witness :
  Validate req_upper = None ∧ Crypto.ValidateEVK (rEVK req_upper) ≠ None ∧
  Crypto.ValidateEVK (rEVK req_a) = None.
Proof.
  split; [reflexivity|]. split.
  - intros Hok. apply (ValidateEVK_after_Validate req_upper) in Hok.
    + vm_compute in Hok. discriminate.
    + reflexivity.
    + discriminate.
  - apply (ValidateEVK_after_Validate req_a); [reflexivity|discriminate|reflexivity].
Defined.

Lemma CacheKey_separates_public_witness :
  CacheKey req_a = CacheKey req_b ∧ (rEVK req_a = "" ↔ rEVK req_b = "").
Proof.
  split; [reflexivity|].
  apply (CacheKey_separates_public req_a req_b); reflexivity.
Defined.

End ValidateProps.

(** ** The decryptor (internal/crypto/decrypt.go) *)

Module DecryptorProps.
Import Domain.

Section WithClient.
Context {C : Type} `{Crypto.RPCClient C}.

(** X9. [Decryptor.DecryptData] either rejects its arguments with
    INVALID_INPUT (400) without calling the client, or calls the client
    exactly once, with a 64-digit hex txid and a key of the form
    [zxviews[0-9a-z]+], and then returns the hex-decoded answer or fails
    with DECRYPTION_FAILED (500). *)
Theorem DecryptData_outcomes (client : C) (txid evk : string) :
  ((Crypto.DecryptData client txid evk).2 = [] ∧
   Crypto.reTXID txid && Crypto.reEVK evk = false ∧
   ∃ de, (Crypto.DecryptData client txid evk).1 = Fail (DomainError de) ∧
         Code de = "INVALID_INPUT" ∧ HTTPStatus de = 400)
  ∨
  ((Crypto.DecryptData client txid evk).2 = [(txid, evk)] ∧
   Crypto.reTXID txid = true ∧ Crypto.reEVK evk = true ∧
   match (Crypto.DecryptData client txid evk).1 with
   | Ok data => ∃ hexData, Crypto.client_DecryptData client txid evk = Ok hexData ∧
                           Crypto.hex_DecodeString hexData = Ok data
   | Fail e => ∃ de, e = DomainError de ∧ Code de = "DECRYPTION_FAILED" ∧
                     HTTPStatus de = 500
   end).
Proof.
  unfold Crypto.DecryptData, Crypto.ValidateTXID, Crypto.ValidateEVK.
  destruct (Crypto.reTXID txid); cbn [negb andb].
  - destruct (Crypto.reEVK evk); cbn [negb].
    + right. destruct (Crypto.client_DecryptData client txid evk) as [hexData|err]; cbn [fst snd].
      * destruct (Crypto.hex_DecodeString hexData) as [data|err] eqn:Hhex; cbn [fst snd].
        -- repeat split; try done. by exists hexData.
        -- repeat split; try done. by eexists.
      * repeat split; try done. by eexists.
    + left. cbn [fst snd]. repeat split; try done. by eexists.
  - left. cbn [fst snd]. repeat split; try done. by eexists.
Qed.

End WithClient.

End DecryptorProps.

(** ** Decompression and detection in general (package storage) *)

Module StorageProps.
Import Storage DecompressProps.

(** A write that is not answered with an error took all of [p] and left
    room. *)
Lemma Write_ok_inv (l l' : limitedWriter) (p : bytes) (n : Z) :
  Write l p = (l', n, None) →
  blen p < N l ∧ l' = mkLimitedWriter (W l ++ p) (N l - blen p) ∧ n = blen p.
Proof.
  unfold Write. destruct (N l <=? 0) eqn:H0; [discriminate|]. apply Z.leb_gt in H0.
  destruct (blen p >? N l) eqn:Hgt.
  - cbn [N]. unfold blen at 1 2. rewrite length_take.
    rewrite Z.gtb_ltb in Hgt. apply Z.ltb_lt in Hgt. unfold blen in Hgt.
    replace (N l - Z.of_nat (Z.to_nat (N l) `min` length p) <=? 0) with true
      by (symmetry; apply Z.leb_le; lia).
    discriminate.
  - rewrite Z.gtb_ltb in Hgt. apply Z.ltb_ge in Hgt. cbn [N].
    destruct (N l - blen p <=? 0) eqn:H1; [discriminate|]. apply Z.leb_gt in H1.
    intros [= <- <-]. split; [lia|done].
Qed.

Lemma blen_zero (b : bytes) : blen b = 0 → b = [].
Proof. destruct b; [done|]. unfold blen. cbn. lia. Qed.

(** [io.Copy] into a limited writer ends without error exactly when the
    stream ends cleanly and its bytes, if there are any, number fewer than
    the allowance; the buffer then holds the whole stream. *)
Lemma io_Copy_ok_iff (chunks : list bytes) :
  ∀ (out : bytes) (n : Z) (final : option goerror),
    (io_Copy (mkLimitedWriter out n) chunks final).2 = None ↔
    final = None ∧ (blen (concat chunks) = 0 ∨ blen (concat chunks) < n).
Proof.
  induction chunks as [|p rest IH]; intros out n final; cbn [io_Copy concat].
  - cbn [snd]. destruct final; cbn; split; try done; [intros [? _]; done|].
    intros _. split; [done|by left].
  - rewrite blen_app. pose proof (blen_nonneg p). pose proof (blen_nonneg (concat rest)).
    destruct (blen p >? 0) eqn:Hp.
    + rewrite Z.gtb_ltb in Hp. apply Z.ltb_lt in Hp.
      destruct (Write (mkLimitedWriter out n) p) as [[l' nw] ew] eqn:Hw.
      destruct ew as [e|].
      * cbn [snd]. split; [done|]. intros [_ [Hz|Hlt]]; [lia|].
        rewrite Write_below in Hw by (cbn [N]; lia). discriminate.
      * apply Write_ok_inv in Hw as (Hlt & -> & ->). cbn [W N] in *.
        rewrite Z.eqb_refl. cbn [negb]. rewrite IH. split.
        -- intros [-> [Hz|Hr]]; (split; [done|right; lia]).
        -- intros [-> [Hz|Hr]]; [lia|]. split; [done|].
           destruct (decide (blen (concat rest) = 0)); [by left|right; lia].
    + rewrite Z.gtb_ltb in Hp. apply Z.ltb_ge in Hp. rewrite IH.
      replace (blen p) with 0 by lia. rewrite Z.add_0_l. done.
Qed.

Lemma io_Copy_ok_buffer (chunks : list bytes) :
  ∀ (out : bytes) (n : Z) (final : option goerror),
    (io_Copy (mkLimitedWriter out n) chunks final).2 = None →
    W (io_Copy (mkLimitedWriter out n) chunks final).1 = (out ++ concat chunks)%list.
Proof.
  induction chunks as [|p rest IH]; intros out n final; cbn [io_Copy concat].
  - cbn. by rewrite app_nil_r.
  - destruct (blen p >? 0) eqn:Hp.
    + destruct (Write (mkLimitedWriter out n) p) as [[l' nw] ew] eqn:Hw.
      destruct ew as [e|]; [done|].
      apply Write_ok_inv in Hw as (Hlt & -> & ->). cbn [W N].
      rewrite Z.eqb_refl. cbn [negb]. intros Hok. rewrite IH by done. by rewrite app_assoc.
    + rewrite Z.gtb_ltb in Hp. apply Z.ltb_ge in Hp.
      pose proof (blen_nonneg p). rewrite (blen_zero p) by lia. apply IH.
Qed.

Section WithGzip.
Context `{GzipLib}.


(** X10. For input with the gzip magic that the gzip reader accepts,
    [Decompress] succeeds exactly when the stream ends cleanly and its
    output is empty or strictly shorter than [maxSize]; the result is then
    the whole decompressed stream, never a truncated one. *)
Theorem Decompress_gzip_success_iff (d : Decompressor) (content : bytes)
    (chunks : list bytes) (final : option goerror)
    (Hmagic : isGzipped content = true)
    (Hreader : gzip_NewReader content = Ok (chunks, final)) :
  ∀ out, Decompress d content = Ok out ↔
         final = None ∧ out = concat chunks ∧ (blen out = 0 ∨ blen out < maxSize d).
Proof.
  intros out. unfold Decompress, decompressGzip. rewrite Hmagic, Hreader. cbn [negb].
  pose proof (io_Copy_ok_iff chunks [] (maxSize d) final) as Hiff.
  pose proof (io_Copy_ok_buffer chunks [] (maxSize d) final) as Hbuf.
  destruct (io_Copy (mkLimitedWriter [] (maxSize d)) chunks final) as [lim err].
  cbn [fst snd] in *. destruct err as [e|].
  - split.
    + destruct e; discriminate.
    + intros (Hf & -> & Hlen). assert (Some e = None) by (apply Hiff; done). discriminate.
  - destruct Hiff as [Hiff _]. destruct (Hiff eq_refl) as [-> Hlen].
    rewrite (Hbuf eq_refl). cbn [app]. split.
    + intros [= <-]. done.
    + intros (_ & -> & _). done.
Qed.


(** X12. [Decompress] fails only on input that bears the gzip magic,
    and every failure is a domain error with code DECOMPRESSION_FAILED
    and status 500 that wraps [ErrDecompressionFailed]. *)
Theorem Decompress_fails_only_on_gzip (d : Decompressor) (content : bytes) (e : goerror)
    (Hfail : Decompress d content = Fail e) :
  isGzipped content = true ∧
  ∃ de, e = DomainError de ∧ Code de = "DECOMPRESSION_FAILED" ∧ HTTPStatus de = 500 ∧
        Err de = Some Domain.ErrDecompressionFailed.
Proof.
  unfold Decompress in Hfail. destruct (isGzipped content); [|discriminate].
  split; [done|]. cbn [negb] in Hfail.
  destruct (decompressGzip d content); [discriminate|].
  injection Hfail as <-. by eauto.
Qed.

End WithGzip.

Import Samples.

Lemma Decompress_gzip_success_iff_witness :
  Decompress (NewDecompressor (mkDecompressorConfig 0)) gzip_hello
    = Ok (list_byte_of_string "hello").
Proof.
  apply (Decompress_gzip_success_iff (NewDecompressor (mkDecompressorConfig 0)) gzip_hello
           [list_byte_of_string "hello"] None).
  - reflexivity.
  - reflexivity.
  - split; [reflexivity|]. split; [reflexivity|]. right. vm_compute. reflexivity.
Defined.


Lemma Decompress_fails_only_on_gzip_witness :
  isGzipped gzip_bad_header = true ∧
  ∃ de, Decompress (NewDecompressor (mkDecompressorConfig 0)) gzip_bad_header
          = Fail (DomainError de) ∧
        Code de = "DECOMPRESSION_FAILED" ∧ HTTPStatus de = 500.
Proof.
  destruct (Decompress_fails_only_on_gzip (NewDecompressor (mkDecompressorConfig 0))
              gzip_bad_header
              (DomainError (Domain.NewDecompressionError
                 "gzip decompression failed: gzip: invalid header")))
    as (Hg & de & Heq & Hc & Hs & _).
  - vm_compute. reflexivity.
  - split; [exact Hg|]. exists de. split; [by rewrite <- Heq|]. split; [exact Hc|exact Hs].
Defined.

End StorageProps.

Module DetectorProps.
Import Storage.

Lemma byte_eqb_eq (a b : byte) : Byte.eqb a b = true ↔ a = b.
Proof. split; [apply Byte.byte_dec_bl|apply Byte.byte_dec_lb]. Qed.

Lemma HasPrefix_app (content magic : bytes) :
  HasPrefix content magic = true ↔ ∃ rest, content = (magic ++ rest)%list.
Proof.
  revert content. induction magic as [|m magic IH]; intros content; cbn [HasPrefix].
  - split; [intros _; by exists content|intros _; by destruct content].
  - destruct content as [|c content]; cbn [HasPrefix];
      [split; [done|intros [rest Hr]; discriminate]|].
    rewrite andb_true_iff, byte_eqb_eq, IH. split.
    + intros [-> [rest ->]]. by exists rest.
    + intros [rest [= -> ->]]. split; [done|by exists rest].
Qed.

(** In a window as long as the pattern, [bytes.Contains] is equality. *)
Lemma Contains_same_length (window sub : bytes) :
  length window = length sub → (Contains window sub = true ↔ window = sub).
Proof.
  intros Hlen. destruct window as [|w window].
  - destruct sub; [by split|discriminate].
  - cbn [Contains]. rewrite orb_true_iff. split.
    + intros [Hp|Hc].
      * apply HasPrefix_app in Hp as [rest Hr].
        assert (rest = []) as ->.
        { apply (f_equal length) in Hr. rewrite length_app in Hr.
          destruct rest; [done|]. cbn in *. lia. }
        by rewrite app_nil_r in Hr.
      * exfalso. clear -Hc Hlen.
        assert (Hshort : ∀ l : bytes, Contains l sub = true → (length sub <= length l)%nat).
        { induction l as [|x l IH]; cbn [Contains].
          - rewrite orb_false_r. intros [rest Hr]%HasPrefix_app.
            destruct sub; [cbn; lia|discriminate].
          - intros [[rest ->]%HasPrefix_app | Hl%IH]%orb_true_iff.
            + rewrite length_app. lia.
            + cbn. lia. }
        apply Hshort in Hc. cbn in Hlen. lia.
    + intros ->. left. apply HasPrefix_app. exists []. by rewrite app_nil_r.
Qed.

(** X13. RIFF disambiguation. For content of at least 16 bytes that
    starts with [RIFF], the signature path reports audio/wav, image/webp or
    video/x-msvideo when bytes 8 to 12 are [WAVE], [WEBP] or [AVI ], and
    image/webp for every other RIFF file. *)
Theorem detectBySignature_riff (content : bytes)
    (Hlen : 16 <= blen content)
    (Hriff : HasPrefix content (B "RIFF") = true) :
  detectBySignature content =
    if decide (slice content 8 12 = B "WAVE") then "audio/wav"
    else if decide (slice content 8 12 = B "WEBP") then "image/webp"
    else if decide (slice content 8 12 = B "AVI ") then "video/x-msvideo"
    else "image/webp".
Proof.
  unfold detectBySignature.
  replace (blen content <? 16) with false by (symmetry; apply Z.ltb_ge; lia).
  assert (Hw : length (slice content 8 12) = 4%nat).
  { unfold slice, blen in *. rewrite length_take, length_drop. lia. }
  pose proof (Contains_same_length (slice content 8 12) (B "WAVE") Hw) as H1.
  pose proof (Contains_same_length (slice content 8 12) (B "WEBP") Hw) as H2.
  pose proof (Contains_same_length (slice content 8 12) (B "AVI ") Hw) as H3.
  apply HasPrefix_app in Hriff as [rest ->].
  cbn -[slice Contains blen decide] in *.
  replace (blen (_ :: _ :: _ :: _ :: rest) >? 12) with true
    by (symmetry; rewrite Z.gtb_ltb; apply Z.ltb_lt; lia).
  assert (Hnil : HasPrefix rest [] = true) by by destruct rest.
  rewrite !Hnil. cbn [andb].
  repeat case_decide;
    destruct (Contains _ [x57; x41; x56; x45]), (Contains _ [x57; x45; x42; x50]),
             (Contains _ [x41; x56; x49; x20]);
    try done; exfalso; intuition congruence.
Qed.

Section WithSniffer.
Context `{Sniffer}.

Lemma scan_signatures_range (content : bytes) (sigs : list (bytes * string)) :
  scan_signatures content sigs = "" ∨
  scan_signatures content sigs ∈
    (["audio/wav"; "image/webp"; "video/x-msvideo"] ++ map snd sigs)%list.
Proof.
  induction sigs as [|[magic mime] sigs IH]; cbn [scan_signatures]; [by left|].
  destruct (HasPrefix content magic).
  - right. rewrite elem_of_app, !elem_of_cons. cbn [map snd].
    destruct (_ && _); [|rewrite elem_of_cons; by eauto].
    repeat (destruct (Contains _ _); [by eauto 6|]). rewrite elem_of_cons. by eauto.
  - destruct IH as [->|Hin]; [by left|right].
    apply elem_of_app in Hin as [Hin|Hin]; apply elem_of_app; [by left|right].
    cbn [map snd]. by right.
Qed.

(** X14. [DetectMIME] departs from the standard sniffer in two cases
    only: empty content is application/octet-stream, and content of 16
    bytes or more that the sniffer calls application/octet-stream or
    generic text/plain gets a type of the signature table. A specific
    answer of the sniffer is never overridden. *)
Theorem DetectMIME_departs_from_sniffer (content : bytes)
    (Hdiff : DetectMIME content ≠ http_DetectContentType content) :
  (content = [] ∧ DetectMIME content = "application/octet-stream") ∨
  (16 <= blen content ∧
   (http_DetectContentType content = "application/octet-stream" ∨
    http_DetectContentType content = "text/plain; charset=utf-8") ∧
   DetectMIME content = detectBySignature content ∧
   DetectMIME content ∈ signature_types).
Proof.
  unfold DetectMIME in *. destruct (blen content =? 0) eqn:H0.
  - left. apply Z.eqb_eq in H0. split; [by apply StorageProps.blen_zero|done].
  - right. destruct (_ || _) eqn:Hgen; [|done].
    destruct (String.eqb (detectBySignature content) "") eqn:Hd; [done|].
    cbn [negb] in *. apply String.eqb_neq in Hd.
    assert (Hlen : 16 <= blen content).
    { unfold detectBySignature in Hd. destruct (blen content <? 16) eqn:Hl; [done|].
      by apply Z.ltb_ge in Hl. }
    split; [done|]. split.
    { apply orb_true_iff in Hgen as [Hg|Hg]; apply String.eqb_eq in Hg; by eauto. }
    split; [done|].
    unfold detectBySignature in *. destruct (blen content <? 16); [done|].
    destruct (scan_signatures_range content signatures) as [Hs|Hin]; [done|].
    unfold signature_types. rewrite elem_of_app, !elem_of_cons in Hin.
    rewrite elem_of_cons.
    destruct Hin as [[Hw|[Hw|[Hw|Hw]]]|Hin]; [right|right|by left|by inversion Hw|by right];
      rewrite Hw; apply list_elem_of_In; cbn; tauto.
Qed.

(** X15. The metadata of [DetectType]: the size is the length of the
    content, the filename is the hint, [Compressed] tells the gzip magic,
    the type is that of [DetectMIME], and the extension is never empty: it
    is the hint's extension when the hint has one, and otherwise the
    extension mapped from the type, with [bin] as fallback. *)
Theorem DetectType_metadata (content : bytes) (filename : string) :
  ∃ md, DetectType content filename = Ok md ∧
        Domain.Size md = blen content ∧
        Domain.Filename md = filename ∧
        Domain.ContentType md = DetectMIME content ∧
        Domain.Compressed md = isGzipCompressed content ∧
        Domain.Extension md ≠ "" ∧
        (trim_dot (filepath_Ext filename) ≠ "" →
           Domain.Extension md = trim_dot (filepath_Ext filename)) ∧
        (trim_dot (filepath_Ext filename) = "" →
           Domain.Extension md = DetectExtension content).
Proof.
  unfold DetectType. eexists. split; [done|]. cbn.
  repeat (split; [done|]).
  assert (Hext : DetectExtension content ≠ "").
  { unfold DetectExtension. destruct (assoc (DetectMIME content) extMap) as [ext|] eqn:Ha;
      [|done].
    unfold extMap in Ha. cbn in Ha.
    repeat match type of Ha with
           | (if ?b then _ else _) = _ => destruct b; [by injection Ha as <-|]
           end. discriminate. }
  assert (Hnohint : filepath_Ext "" = "") by done.
  destruct (String.eqb filename "") eqn:Hf; cbn [negb].
  - apply String.eqb_eq in Hf. subst filename. cbn. split; [done|]. split; done.
  - destruct (String.eqb (filepath_Ext filename) "") eqn:He; cbn [negb].
    + apply String.eqb_eq in He. rewrite He. cbn. split; [done|]. split; done.
    + destruct (String.eqb (trim_dot (filepath_Ext filename)) "") eqn:Ht.
      * apply String.eqb_eq in Ht. rewrite Ht. split; [done|]. split; done.
      * apply String.eqb_neq in Ht. split; [done|]. split; done.
Qed.

End WithSniffer.

Import Samples Cases.

Lemma detectBySignature_riff_witness :
  detectBySignature (B "RIFF" ++ [x24; x00; x00; x00] ++ B "WAVEfmt ")%list = "audio/wav" ∧
  detectBySignature (B "RIFF" ++ [x24; x00; x00; x00] ++ B "ACONanih")%list = "image/webp".
Proof.
  split.
  - rewrite detectBySignature_riff; [reflexivity| |reflexivity]. vm_compute. discriminate.
  - rewrite detectBySignature_riff; [reflexivity| |reflexivity]. vm_compute. discriminate.
Defined.

Lemma DetectMIME_departs_from_sniffer_witness :
  @DetectMIME sniffer_7z sevenzip_sample = "application/x-7z-compressed" ∧
  @http_DetectContentType sniffer_7z sevenzip_sample = "application/octet-stream".
Proof.
  destruct (@DetectMIME_departs_from_sniffer sniffer_7z sevenzip_sample)
    as [[Hempty _] | (_ & _ & Hsig & _)].
  - vm_compute. discriminate.
  - discriminate.
  - split; [rewrite Hsig|]; reflexivity.
Defined.

End DetectorProps.

(** ** The cache under all of its operations (package cache) *)

Module CacheOpsProps.
Import Domain Cache CacheOps CacheProps.

(** *** Counting files *)

Lemma file_count_nonneg (m : gmap string binFile) : 0 <= file_count m.
Proof. unfold file_count. lia. Qed.

Lemma file_count_empty : file_count ∅ = 0.
Proof. unfold file_count. by rewrite map_to_list_empty. Qed.

Lemma file_count_delete (m : gmap string binFile) (k : string) (f : binFile) :
  m !! k = Some f → file_count (delete k m) = file_count m - 1.
Proof.
  intros Hk. unfold file_count.
  rewrite <- (Permutation_length (map_to_list_delete m k f Hk)). cbn. lia.
Qed.

Lemma file_count_insert_fresh (m : gmap string binFile) (k : string) (f : binFile) :
  m !! k = None → file_count (<[k := f]> m) = file_count m + 1.
Proof.
  intros Hk. unfold file_count.
  rewrite (Permutation_length (map_to_list_insert m k f Hk)). cbn [length]. lia.
Qed.

Lemma file_count_insert_le (m : gmap string binFile) (k : string) (f : binFile) :
  file_count (<[k := f]> m) <= file_count m + 1.
Proof.
  destruct (m !! k) as [old|] eqn:Hk.
  - rewrite <- insert_delete_eq.
    rewrite (file_count_insert_fresh _ k f (lookup_delete_eq m k)).
    rewrite (file_count_delete m k old Hk). lia.
  - rewrite (file_count_insert_fresh m k f Hk). lia.
Qed.

Lemma calculateSize_items (st : State) : items (calculateSize st) = file_count (bins st).
Proof.
  unfold calculateSize, file_count. cbn [items].
  by rewrite (Permutation_length (walk_perm (bins st))).
Qed.

Lemma walk_elem_of (m : gmap string binFile) (k : string) (f : binFile) :
  (k, f) ∈ walk m ↔ m !! k = Some f.
Proof. rewrite (walk_perm m). apply elem_of_map_to_list. Qed.

Lemma walk_NoDup (m : gmap string binFile) : NoDup (walk m).*1.
Proof. rewrite (walk_perm m). apply NoDup_fst_map_to_list. Qed.

(** *** What eviction does to the counters *)

Lemma evict_loop_counts (needed : Z) (files : list (string * binFile)) :
  ∀ (freed : Z) (st : State),
    files ≡ₚ map_to_list (bins st) →
    ∃ d j, 0 <= d ∧ 0 <= j ∧
      stored (bins (evict_loop needed files freed st)) = stored (bins st) - d ∧
      size (evict_loop needed files freed st) = size st - d ∧
      file_count (bins (evict_loop needed files freed st)) = file_count (bins st) - j ∧
      items (evict_loop needed files freed st) = items st - j ∧
      hits (evict_loop needed files freed st) = hits st ∧
      misses (evict_loop needed files freed st) = misses st.
Proof.
  induction files as [|[k f] rest IH]; intros freed st Hperm; cbn [evict_loop].
  - exists 0, 0. repeat split; lia.
  - destruct (freed >=? needed).
    + exists 0, 0. repeat split; lia.
    + assert (Hk : bins st !! k = Some f).
      { apply elem_of_map_to_list. rewrite <- Hperm. left. }
      set (st1 := add_size (- fsize f) (-1) (remove_files k st)).
      destruct (IH (freed + fsize f) st1) as (d & j & Hd & Hj & Hs & Hc & Hn & Hi & Hh & Hm).
      { cbn. apply (Permutation_cons_inv (a := (k, f))).
        rewrite Hperm. symmetry. by apply map_to_list_delete. }
      cbn [fst snd]. fold st1. exists (fsize f + d), (1 + j).
      cbn [st1 add_size remove_files bins size items hits misses] in Hs, Hc, Hn, Hi, Hh, Hm.
      rewrite (stored_delete _ _ _ Hk) in Hs. rewrite (file_count_delete _ _ _ Hk) in Hn.
      assert (0 <= fsize f) by (unfold fsize; lia).
      repeat split; lia.
Qed.

(** *** The sweep *)

Lemma sweep_fold (c : FilesystemCache) (now : Z) (l : list (string * binFile)) :
  ∀ acc : State,
    NoDup l.*1 →
    (∀ k f, (k, f) ∈ l → bins acc !! k = Some f) →
    let gone := List.filter (λ kv, expired c now kv.2) l in
    let r := foldl (λ acc kv,
                      if time_Sub now (modTime kv.2) >? ttl c then
                        add_size (- fsize kv.2) (-1) (remove_files kv.1 acc)
                      else acc) acc l in
    (∀ k, bins r !! k = if bool_decide (k ∈ gone.*1) then None else bins acc !! k) ∧
    (∀ k, metas r !! k = if bool_decide (k ∈ gone.*1) then None else metas acc !! k) ∧
    size r = size acc - total gone ∧
    items r = items acc - Z.of_nat (length gone) ∧
    stored (bins r) = stored (bins acc) - total gone ∧
    file_count (bins r) = file_count (bins acc) - Z.of_nat (length gone) ∧
    hits r = hits acc ∧ misses r = misses acc.
Proof.
  induction l as [|[k0 f0] rest IH]; intros acc Hnd Hin.
  - cbn. repeat split; lia.
  - cbn [fmap list_fmap] in Hnd. apply NoDup_cons in Hnd as [Hk0 Hnd].
    assert (Hf0 : bins acc !! k0 = Some f0) by (apply Hin; left).
    cbn [foldl List.filter fst snd].
    change (time_Sub now (modTime f0) >? ttl c) with (expired c now f0).
    destruct (expired c now f0) eqn:Hexp.
    + set (acc1 := add_size (- fsize f0) (-1) (remove_files k0 acc)).
      destruct (IH acc1 Hnd) as (Hb & Hm & Hs & Hi & Hst & Hfc & Hh & Hmi).
      { intros k f Hkf. cbn. rewrite lookup_delete_ne.
        - apply Hin. by right.
        - intros ->. apply Hk0. apply list_elem_of_fmap. by exists (k, f). }
      cbn [acc1 add_size remove_files bins metas size items hits misses] in *.
      rewrite (stored_delete _ _ _ Hf0) in Hst. rewrite (file_count_delete _ _ _ Hf0) in Hfc.
      cbn [fmap list_fmap fst total foldr length snd].
      split; [|split; [|repeat split; try lia]].
      * intros k. rewrite Hb. destruct (decide (k = k0)) as [->|Hne].
        -- rewrite lookup_delete_eq. rewrite (bool_decide_eq_true_2 (k0 ∈ k0 :: _)) by left.
           by destruct (bool_decide _).
        -- rewrite lookup_delete_ne by done.
           apply (f_equal (λ b : bool, if b then None else bins acc !! k)).
           apply bool_decide_ext. rewrite elem_of_cons. split; [by right|by intros [?|?]].
      * intros k. rewrite Hm. destruct (decide (k = k0)) as [->|Hne].
        -- rewrite lookup_delete_eq. rewrite (bool_decide_eq_true_2 (k0 ∈ k0 :: _)) by left.
           by destruct (bool_decide _).
        -- rewrite lookup_delete_ne by done.
           apply (f_equal (λ b : bool, if b then None else metas acc !! k)).
           apply bool_decide_ext. rewrite elem_of_cons. split; [by right|by intros [?|?]].
      * fold (total (List.filter (λ kv, expired c now kv.2) rest)). lia.
      * fold (total (List.filter (λ kv, expired c now kv.2) rest)). lia.
    + apply (IH acc Hnd). intros k f Hkf. apply Hin. by right.
Qed.

Lemma gone_elem_of (c : FilesystemCache) (now : Z) (m : gmap string binFile) (k : string) :
  k ∈ (List.filter (λ kv, expired c now kv.2) (walk m)).*1 ↔
  ∃ f, m !! k = Some f ∧ expired c now f = true.
Proof.
  rewrite list_elem_of_fmap. split.
  - intros ([k' f] & -> & Hin). apply list_elem_of_In, filter_In in Hin as [Hin Hexp].
    exists f. split; [|done]. by apply walk_elem_of, list_elem_of_In.
  - intros (f & Hk & Hexp). exists (k, f). split; [done|].
    apply list_elem_of_In, filter_In. split; [|done]. by apply list_elem_of_In, walk_elem_of.
Qed.

Lemma cleanup_spec (c : FilesystemCache) (now : Z) (st : State) :
  let gone := List.filter (λ kv, expired c now kv.2) (walk (bins st)) in
  (∀ k, bins (cleanup c now st) !! k =
        if bool_decide (k ∈ gone.*1) then None else bins st !! k) ∧
  (∀ k, metas (cleanup c now st) !! k =
        if bool_decide (k ∈ gone.*1) then None else metas st !! k) ∧
  size (cleanup c now st) = size st - total gone ∧
  items (cleanup c now st) = items st - Z.of_nat (length gone) ∧
  stored (bins (cleanup c now st)) = stored (bins st) - total gone ∧
  file_count (bins (cleanup c now st)) = file_count (bins st) - Z.of_nat (length gone) ∧
  hits (cleanup c now st) = hits st ∧ misses (cleanup c now st) = misses st.
Proof.
  apply (sweep_fold c now (walk (bins st)) st (walk_NoDup _)).
  intros k f. apply walk_elem_of.
Qed.

Lemma cleanup_cover (c : FilesystemCache) (now : Z) (st : State) :
  counters_cover st → counters_cover (cleanup c now st).
Proof.
  intros [Hs Hi]. destruct (cleanup_spec c now st) as (_ & _ & ? & ? & ? & ? & _).
  unfold counters_cover. lia.
Qed.

(** *** The sort in [evictOldest] *)

Lemma bubble_pass_spec (k : nat) :
  ∀ (a : string * binFile) (l : list (string * binFile)),
    (k ≤ length l)%nat →
    ∃ pre m,
      bubble_pass k (a :: l) = (pre ++ m :: drop k l)%list ∧
      length pre = k ∧
      (pre ++ [m])%list ≡ₚ a :: take k l ∧
      (∀ x, x ∈ pre → mtime_le x m).
Proof.
  induction k as [|k IH]; intros a l Hlen.
  - exists [], a. cbn. rewrite drop_0, take_0. repeat split; [by destruct l|].
    intros x Hx. by apply elem_of_nil in Hx.
  - destruct l as [|b rest]; [cbn in Hlen; lia|]. cbn in Hlen.
    cbn [bubble_pass take drop].
    destruct (modTime a.2 >? modTime b.2) eqn:Hcmp.
    + destruct (IH a rest) as (pre & m & Heq & Hl & Hp & Hle); [lia|].
      exists (b :: pre), m. rewrite Heq. cbn [app length]. repeat split; [by rewrite Hl| |].
      * rewrite Hp. apply perm_swap.
      * intros x [->|Hx]%elem_of_cons; [|by apply Hle].
        assert (Ha : a ∈ (pre ++ [m])%list) by (rewrite Hp; left).
        apply elem_of_app in Ha as [Ha|Ha].
        -- specialize (Hle a Ha). unfold mtime_le in *. lia.
        -- apply list_elem_of_singleton in Ha as <-. unfold mtime_le. lia.
    + destruct (IH b rest) as (pre & m & Heq & Hl & Hp & Hle); [lia|].
      exists (a :: pre), m. rewrite Heq. cbn [app length]. repeat split; [by rewrite Hl| |].
      * by rewrite Hp.
      * intros x [->|Hx]%elem_of_cons; [|by apply Hle].
        assert (Hb : b ∈ (pre ++ [m])%list) by (rewrite Hp; left).
        apply elem_of_app in Hb as [Hb|Hb].
        -- specialize (Hle b Hb). unfold mtime_le in *. lia.
        -- apply list_elem_of_singleton in Hb as <-. unfold mtime_le. lia.
Qed.

Lemma bubble_passes_sorted (p : nat) :
  ∀ (front back : list (string * binFile)),
    length front = S p →
    StronglySorted mtime_le back →
    (∀ x y, x ∈ front → y ∈ back → mtime_le x y) →
    StronglySorted mtime_le (bubble_passes p (front ++ back)%list).
Proof.
  induction p as [|p IH]; intros front back Hlen Hsorted Hle.
  - destruct front as [|a [|? ?]]; try discriminate. cbn.
    apply SSorted_cons; [done|]. apply Forall_forall. intros y Hy. apply Hle; [left|done].
  - destruct front as [|a front]; [discriminate|]. cbn in Hlen.
    cbn [bubble_passes]. change ((a :: front) ++ back)%list with (a :: (front ++ back)%list).
    destruct (bubble_pass_spec (S p) a (front ++ back)%list) as (pre & m & Heq & Hl & Hp & Hm).
    { rewrite length_app. lia. }
    rewrite Heq. rewrite drop_app_length' by lia. rewrite take_app_length' in Hp by lia.
    apply (IH pre (m :: back) Hl).
    + apply SSorted_cons; [done|]. apply Forall_forall. intros y Hy.
      apply Hle; [|done]. rewrite <- Hp. apply elem_of_app. right. left.
    + intros x y Hx [->|Hy]%elem_of_cons; [by apply Hm|].
      apply Hle; [|done]. rewrite <- Hp. apply elem_of_app. by left.
Qed.

Lemma bubble_sort_sorted (files : list (string * binFile)) :
  StronglySorted mtime_le (bubble_sort files).
Proof.
  unfold bubble_sort. destruct files as [|a rest]; [apply SSorted_nil|].
  cbn [length]. replace (S (length rest) - 1)%nat with (length rest) by lia.
  rewrite <- (app_nil_r (a :: rest)). apply bubble_passes_sorted.
  - done.
  - apply SSorted_nil.
  - intros x y _ Hy. by apply elem_of_nil in Hy.
Qed.

(** *** What eviction removes *)

Lemma evict_loop_prefix (needed : Z) (files : list (string * binFile)) :
  ∀ (freed : Z) (st : State),
    ∃ j : nat,
      (∀ k, bins (evict_loop needed files freed st) !! k =
            if bool_decide (k ∈ (take j files).*1) then None else bins st !! k) ∧
      (∀ k, metas (evict_loop needed files freed st) !! k =
            if bool_decide (k ∈ (take j files).*1) then None else metas st !! k).
Proof.
  induction files as [|[k0 f0] rest IH]; intros freed st; cbn [evict_loop].
  - exists 0%nat. by split; intros k; rewrite bool_decide_eq_false_2 by apply not_elem_of_nil.
  - destruct (freed >=? needed).
    + exists 0%nat. by split; intros k; rewrite bool_decide_eq_false_2 by apply not_elem_of_nil.
    + cbn [fst snd].
      destruct (IH (freed + fsize f0) (add_size (- fsize f0) (-1) (remove_files k0 st)))
        as (j & Hb & Hm).
      exists (S j). cbn [take fmap list_fmap fst].
      split; intros k; [rewrite Hb|rewrite Hm]; cbn [add_size remove_files bins metas].
      * destruct (decide (k = k0)) as [->|Hne].
        -- rewrite lookup_delete_eq, (bool_decide_eq_true_2 (k0 ∈ k0 :: _)) by left.
           by destruct (bool_decide _).
        -- rewrite lookup_delete_ne by done.
           apply (f_equal (λ b : bool, if b then None else bins st !! k)).
           apply bool_decide_ext. rewrite elem_of_cons. split; [by right|by intros [?|?]].
      * destruct (decide (k = k0)) as [->|Hne].
        -- rewrite lookup_delete_eq, (bool_decide_eq_true_2 (k0 ∈ k0 :: _)) by left.
           by destruct (bool_decide _).
        -- rewrite lookup_delete_ne by done.
           apply (f_equal (λ b : bool, if b then None else metas st !! k)).
           apply bool_decide_ext. rewrite elem_of_cons. split; [by right|by intros [?|?]].
Qed.

Lemma evictOldest_keeps_absent (needed : Z) (st : State) (k : string) :
  bins st !! k = None → bins (evictOldest needed st) !! k = None.
Proof.
  intros Hk. unfold evictOldest.
  destruct (evict_loop_prefix needed (bubble_sort (walk (bins st))) 0 st) as (j & Hb & _).
  rewrite Hb, Hk. by destruct (bool_decide _).
Qed.

Lemma evictOldest_counts (needed : Z) (st : State) :
  size (evictOldest needed st) - stored (bins (evictOldest needed st)) =
    size st - stored (bins st) ∧
  items (evictOldest needed st) - file_count (bins (evictOldest needed st)) =
    items st - file_count (bins st) ∧
  hits (evictOldest needed st) = hits st ∧
  misses (evictOldest needed st) = misses st.
Proof.
  unfold evictOldest.
  destruct (evict_loop_counts needed (bubble_sort (walk (bins st))) 0 st)
    as (d & j & _ & _ & ? & ? & ? & ? & ? & ?).
  { rewrite bubble_sort_perm. apply walk_perm. }
  repeat split; lia.
Qed.

Section WithLibs.
Context `{Hasher} `{MetaCodec}.

(** *** Each operation keeps the counters above the directory *)

Lemma Get_cover (c : FilesystemCache) (ctx : option goerror) (now : Z) (key : string)
    (st : State) :
  counters_cover st → counters_cover (Get c ctx now key st).2.
Proof.
  intros [Hs Hi]. unfold Get. destruct ctx; [done|].
  destruct (bins st !! sha256_hex key) as [info|] eqn:Hk; [|done].
  destruct (_ >? _); [|done]. unfold counters_cover. cbn.
  rewrite (stored_delete _ _ _ Hk), (file_count_delete _ _ _ Hk).
  assert (0 <= fsize info) by (unfold fsize; lia). lia.
Qed.

Lemma Set_cover (c : FilesystemCache) (ctx : option goerror) (now : Z) (key : string)
    (file : File) (ttl_ : Z) (st : State) :
  counters_cover st → counters_cover (Set_ c ctx now key file ttl_ st).2.
Proof.
  intros [Hs Hi]. unfold Set_. destruct ctx; [done|].
  set (L := Z.of_nat (length (Content file))).
  set (st1 := if size st + L >? maxSize c then evictOldest L st else st).
  assert (Hst1 : counters_cover st1).
  { unfold st1. destruct (_ >? _); [|done]. unfold evictOldest.
    destruct (evict_loop_counts L (bubble_sort (walk (bins st))) 0 st)
      as (d & j & _ & _ & Hs' & Hc' & Hn' & Hi' & _).
    { rewrite bubble_sort_perm. apply walk_perm. }
    unfold counters_cover. lia. }
  destruct Hst1 as [Hs1 Hi1]. unfold counters_cover. cbn [snd bins size items].
  pose proof (stored_insert_le (bins st1) (sha256_hex key) (mkBinFile (Content file) now)).
  pose proof (file_count_insert_le (bins st1) (sha256_hex key) (mkBinFile (Content file) now)).
  change (fsize (mkBinFile (Content file) now)) with L in *. lia.
Qed.

Lemma Delete_cover (ctx : option goerror) (key : string) (st : State) :
  counters_cover st → counters_cover (Delete ctx key st).2.
Proof.
  intros [Hs Hi]. unfold Delete. destruct ctx; [done|].
  destruct (bins st !! sha256_hex key) as [info|] eqn:Hk; unfold counters_cover; cbn.
  - rewrite (stored_delete _ _ _ Hk), (file_count_delete _ _ _ Hk). lia.
  - rewrite delete_id by done. done.
Qed.

Lemma Clear_cover (ctx : option goerror) (st : State) :
  counters_cover st → counters_cover (Clear ctx st).2.
Proof.
  intros Hc. unfold Clear. destruct ctx; [done|]. unfold counters_cover. cbn.
  rewrite stored_empty, file_count_empty. lia.
Qed.

Lemma run_ops_cover (c : FilesystemCache) (ops : list op) :
  ∀ st, counters_cover st → counters_cover (run_ops c st ops).
Proof.
  induction ops as [|o ops IH]; intros st Hst; [done|].
  apply IH. destruct o; cbn [run_op].
  - by apply Get_cover.
  - by apply Set_cover.
  - by apply Delete_cover.
  - by apply Clear_cover.
  - by apply cleanup_cover.
Qed.

Lemma NewFilesystemCache_exact (cfg : FilesystemCacheConfig)
    (dirBins : gmap string binFile) (dirMetas : gmap string bytes) :
  counters_exact (NewFilesystemCache cfg dirBins dirMetas).2.
Proof.
  unfold NewFilesystemCache, counters_exact. cbn [snd].
  set (s := mkState dirBins dirMetas 0 0 0 0).
  change (bins (calculateSize s)) with (bins s). split.
  - apply calculateSize_size.
  - apply calculateSize_items.
Qed.

(** X16. A cache opened on any directory starts with a size and an item
    counter that are exactly what the directory holds and with no hits
    or misses; after any sequence of [Get], [Set], [Delete], [Clear] and
    sweeps, neither counter is below what the directory holds. *)
Theorem counters_never_undercount (cfg : FilesystemCacheConfig)
    (dirBins : gmap string binFile) (dirMetas : gmap string bytes) (ops : list op) :
  let c := (NewFilesystemCache cfg dirBins dirMetas).1 in
  let st0 := (NewFilesystemCache cfg dirBins dirMetas).2 in
  (size st0 = stored dirBins ∧ items st0 = file_count dirBins ∧
   hits st0 = 0 ∧ misses st0 = 0) ∧
  stored (bins (run_ops c st0 ops)) <= size (run_ops c st0 ops) ∧
  file_count (bins (run_ops c st0 ops)) <= items (run_ops c st0 ops).
Proof.
  intros c st0. destruct (NewFilesystemCache_exact cfg dirBins dirMetas) as [Hs Hi].
  split; [by repeat split|].
  apply (run_ops_cover c ops st0). split.
  - fold st0 in Hs. lia.
  - fold st0 in Hi. lia.
Qed.

(** X17. A [Get] that finds an expired entry removes its files without
    lowering the size and item counters: counters that were exact are
    afterwards too high by the size of that file and by one, and a later
    sweep does not repair them. *)
Theorem Get_expired_leaves_counters (c : FilesystemCache) (now : Z) (key : string)
    (st : State) (info : binFile)
    (Hexact : counters_exact st)
    (Hstored : bins st !! sha256_hex key = Some info)
    (Hexp : expired c now info = true) :
  let st' := (Get c None now key st).2 in
  size st' = stored (bins st') + fsize info ∧
  items st' = file_count (bins st') + 1 ∧
  ∀ later,
    size (cleanup c later st') = stored (bins (cleanup c later st')) + fsize info ∧
    items (cleanup c later st') = file_count (bins (cleanup c later st')) + 1.
Proof.
  destruct Hexact as [Hs Hi]. unfold Get. rewrite Hstored.
  change (time_Sub now (modTime info) >? ttl c) with (expired c now info). rewrite Hexp.
  cbn [snd]. set (st' := remove_files (sha256_hex key) (add_miss st)).
  assert (Hs' : size st' = stored (bins st') + fsize info).
  { cbn. rewrite (stored_delete _ _ _ Hstored). lia. }
  assert (Hi' : items st' = file_count (bins st') + 1).
  { cbn. rewrite (file_count_delete _ _ _ Hstored). lia. }
  cbv zeta. split; [done|]. split; [done|]. intros later.
  destruct (cleanup_spec c later st') as (_ & _ & ? & ? & ? & ? & _). lia.
Qed.

Lemma Set_fresh_key_exact (c : FilesystemCache) (now : Z) (key : string)
    (file : File) (ttl_ : Z) (st : State) :
  counters_exact st →
  bins st !! sha256_hex key = None →
  counters_exact (Set_ c None now key file ttl_ st).2.
Proof.
  intros [Hs Hi] Hfresh. unfold Set_. cbn [snd].
  set (L := Z.of_nat (length (Content file))).
  set (st1 := if size st + L >? maxSize c then evictOldest L st else st).
  assert (H1 : size st1 = stored (bins st1) ∧ items st1 = file_count (bins st1) ∧
               bins st1 !! sha256_hex key = None).
  { unfold st1. destruct (_ >? _); [|done].
    destruct (evictOldest_counts L st) as (? & ? & _).
    split; [lia|]. split; [lia|]. by apply evictOldest_keeps_absent. }
  destruct H1 as (Hs1 & Hi1 & Hk1). unfold counters_exact. cbn [bins size items].
  rewrite (stored_insert_fresh _ _ _ Hk1), (file_count_insert_fresh _ _ _ Hk1).
  change (fsize (mkBinFile (Content file) now)) with L. lia.
Qed.

Lemma Set_overwrite_counts_again (c : FilesystemCache) (now : Z) (key : string)
    (file : File) (ttl_ : Z) (st : State) (old : binFile) :
  counters_exact st →
  bins st !! sha256_hex key = Some old →
  size st + Z.of_nat (length (Content file)) <= maxSize c →
  let st' := (Set_ c None now key file ttl_ st).2 in
  size st' = stored (bins st') + fsize old ∧
  items st' = file_count (bins st') + 1.
Proof.
  intros [Hs Hi] Hold Hfits. unfold Set_. cbn [snd].
  set (L := Z.of_nat (length (Content file))) in *.
  assert (Hno : (size st + L >? maxSize c) = false) by (rewrite Z.gtb_ltb; apply Z.ltb_ge; lia).
  rewrite Hno. cbn [bins size items].
  rewrite stored_insert, Hold.
  change (fsize (mkBinFile (Content file) now)) with L.
  split; [lia|].
  rewrite <- insert_delete_eq.
  rewrite (file_count_insert_fresh _ _ _ (lookup_delete_eq (bins st) (sha256_hex key))).
  rewrite (file_count_delete _ _ _ Hold). lia.
Qed.

(** X18. After [Set] the file of the key holds the bytes given and the
    time of the call. On exact counters, [Set] under a key that has no
    file leaves them exact, whether or not it evicts; [Set] under a key
    that already has a file, when no eviction is needed, adds the new
    size and one item without taking the old file off, so the counters
    are afterwards too high by the size of the old file and by one. *)
Theorem Set_counters (c : FilesystemCache) (now : Z) (key : string)
    (file : File) (ttl_ : Z) (st : State)
    (Hexact : counters_exact st) :
  let st' := (Set_ c None now key file ttl_ st).2 in
  bins st' !! sha256_hex key = Some (mkBinFile (Content file) now) ∧
  match bins st !! sha256_hex key with
  | None => size st' = stored (bins st') ∧ items st' = file_count (bins st')
  | Some old =>
      size st + Z.of_nat (length (Content file)) <= maxSize c →
      size st' = stored (bins st') + fsize old ∧
      items st' = file_count (bins st') + 1
  end.
Proof.
  cbv zeta. split; [unfold Set_; cbn [snd bins]; apply lookup_insert_eq|].
  destruct (bins st !! sha256_hex key) as [old|] eqn:Hk.
  - intros Hfits. by apply Set_overwrite_counts_again.
  - by apply Set_fresh_key_exact.
Qed.

(** X19. [Delete] removes both files of the key and nothing else, a
    following [Get] of the key is a miss at any time, the distance
    between each counter and the directory is as before, and the hit and
    miss counters are not touched; deleting a key that has no file
    succeeds as well. *)
Theorem Delete_then_Get (key : string) (st : State) :
  let r := Delete None key st in
  r.1 = None ∧
  bins r.2 !! sha256_hex key = None ∧ metas r.2 !! sha256_hex key = None ∧
  (∀ c now, (Get c None now key r.2).1 = Fail ErrCacheMiss) ∧
  (∀ k, k ≠ sha256_hex key →
        bins r.2 !! k = bins st !! k ∧ metas r.2 !! k = metas st !! k) ∧
  size r.2 - stored (bins r.2) = size st - stored (bins st) ∧
  items r.2 - file_count (bins r.2) = items st - file_count (bins st) ∧
  hits r.2 = hits st ∧ misses r.2 = misses st.
Proof.
  unfold Delete. cbn [fst snd].
  set (st1 := match bins st !! sha256_hex key with
              | Some info => add_size (- fsize info) (-1) st
              | None => st
              end).
  assert (Hb : bins st1 = bins st) by (unfold st1; by destruct (bins st !! _)).
  assert (Hm : metas st1 = metas st) by (unfold st1; by destruct (bins st !! _)).
  cbn [remove_files bins metas size items hits misses]. rewrite Hb, Hm.
  split; [done|]. split; [apply lookup_delete_eq|]. split; [apply lookup_delete_eq|].
  split.
  { intros c now. unfold Get. cbn [remove_files bins]. by rewrite lookup_delete_eq. }
  split.
  { intros k Hne. by rewrite !lookup_delete_ne. }
  unfold st1. destruct (bins st !! sha256_hex key) as [info|] eqn:Hk; cbn.
  - rewrite (stored_delete _ _ _ Hk), (file_count_delete _ _ _ Hk). repeat split; lia.
  - rewrite delete_id by done. repeat split; lia.
Qed.

(** X20. A sweep removes the [.bin] and [.meta] file of exactly the
    entries whose [.bin] file is expired at the time of the sweep, and
    lowers each counter by what it removed; a [.meta] file without a
    [.bin] file is left in place. *)
Theorem cleanup_removes_expired (c : FilesystemCache) (now : Z) (st : State) :
  let st' := cleanup c now st in
  (∀ k, bins st' !! k =
        match bins st !! k with
        | Some f => if expired c now f then None else Some f
        | None => None
        end) ∧
  (∀ k, metas st' !! k =
        match bins st !! k with
        | Some f => if expired c now f then None else metas st !! k
        | None => metas st !! k
        end) ∧
  size st' - stored (bins st') = size st - stored (bins st) ∧
  items st' - file_count (bins st') = items st - file_count (bins st) ∧
  hits st' = hits st ∧ misses st' = misses st.
Proof.
  destruct (cleanup_spec c now st) as (Hb & Hm & Hs & Hi & Hst & Hfc & Hh & Hmi).
  cbv zeta.
  assert (Hgone : ∀ k,
    bool_decide (k ∈ (List.filter (λ kv, expired c now kv.2) (walk (bins st))).*1) =
    match bins st !! k with Some f => expired c now f | None => false end).
  { intros k. destruct (bins st !! k) as [f|] eqn:Hk.
    - destruct (expired c now f) eqn:Hexp.
      + apply bool_decide_eq_true_2, gone_elem_of. by exists f.
      + apply bool_decide_eq_false_2. intros (f' & Hf' & Hexp')%gone_elem_of. congruence.
    - apply bool_decide_eq_false_2. intros (f' & Hf' & _)%gone_elem_of. congruence. }
  split; [|split; [|repeat split; try done; lia]].
  - intros k. rewrite Hb, Hgone. destruct (bins st !! k) as [f|]; [|done].
    by destruct (expired c now f).
  - intros k. rewrite Hm, Hgone. destruct (bins st !! k) as [f|]; [|done].
    by destruct (expired c now f).
Qed.

(** X21. [evictOldest] removes oldest first: no file that it removes was
    modified later than a file that it keeps. *)
Theorem evictOldest_oldest_first (needed : Z) (st : State)
    (k1 k2 : string) (f1 f2 : binFile)
    (Hwas : bins st !! k1 = Some f1)
    (Hgone : bins (evictOldest needed st) !! k1 = None)
    (Hkept : bins (evictOldest needed st) !! k2 = Some f2) :
  modTime f1 <= modTime f2.
Proof.
  unfold evictOldest in *.
  set (files := bubble_sort (walk (bins st))) in *.
  assert (Hperm : files ≡ₚ map_to_list (bins st)).
  { unfold files. rewrite bubble_sort_perm. apply walk_perm. }
  assert (Hsorted : StronglySorted mtime_le files) by apply bubble_sort_sorted.
  destruct (evict_loop_prefix needed files 0 st) as (j & Hb & _).
  rewrite Hb in Hgone, Hkept.
  destruct (bool_decide (k1 ∈ (take j files).*1)) eqn:H1; [|congruence].
  destruct (bool_decide (k2 ∈ (take j files).*1)) eqn:H2; [discriminate|].
  apply bool_decide_eq_true_1 in H1. apply bool_decide_eq_false_1 in H2.
  apply list_elem_of_fmap in H1 as ([k1' f1'] & -> & Hin1). cbn [fst] in *.
  assert (Hf1 : f1' = f1).
  { assert (Hin : (k1', f1') ∈ files).
    { rewrite <- (take_drop j files). apply elem_of_app. by left. }
    rewrite Hperm in Hin. apply elem_of_map_to_list in Hin. congruence. }
  subst f1'.
  assert (Hin2 : (k2, f2) ∈ drop j files).
  { assert (Hin : (k2, f2) ∈ files) by (rewrite Hperm; by apply elem_of_map_to_list).
    rewrite <- (take_drop j files) in Hin. apply elem_of_app in Hin as [Hin|Hin]; [|done].
    exfalso. apply H2. apply list_elem_of_fmap. by exists (k2, f2). }
  rewrite <- (take_drop j files) in Hsorted.
  exact (StronglySorted_app_1_elem_of _ _ _ _ _ Hsorted Hin1 Hin2).
Qed.

End WithLibs.

Import Samples Cases.

Lemma Get_expired_leaves_counters_witness :
  let st' := (Get small_cache None (1000 + 25 * hour) "test-key" after_store).2 in
  stored (bins after_store) = 12 ∧
  stored (bins st') = 0 ∧ size st' = 0 + 12 ∧ items st' = 0 + 1.
Proof.
  destruct (Get_expired_leaves_counters small_cache (1000 + 25 * hour) "test-key"
              after_store (mkBinFile (Content test_file) 1000)) as (Hs & Hi & _).
  - split; vm_compute; reflexivity.
  - vm_compute; reflexivity.
  - vm_compute; reflexivity.
  - split; [vm_compute; reflexivity|]. split; [vm_compute; reflexivity|].
    split; [exact Hs|exact Hi].
Defined.

Lemma Set_counters_witness :
  let st' := (Set_ small_cache None 2000 "test-key" test_file hour after_store).2 in
  (size after_store = stored (bins after_store) ∧
   items after_store = file_count (bins after_store)) ∧
  size st' = stored (bins st') + 12 ∧
  items st' = file_count (bins st') + 1.
Proof.
  cbv zeta.
  assert (Hexact : counters_exact after_store).
  { pose proof (Set_counters small_cache 1000 "test-key" test_file hour empty_dir) as Hfirst.
    cbv zeta in Hfirst. destruct Hfirst as [_ Hfirst]; [split; vm_compute; reflexivity|].
    change (bins empty_dir !! sha256_hex "test-key") with (@None binFile) in Hfirst.
    exact Hfirst. }
  split; [exact Hexact|].
  pose proof (Set_counters small_cache 2000 "test-key" test_file hour after_store Hexact)
    as Hsecond.
  cbv zeta in Hsecond. destruct Hsecond as [_ Hsecond].
  change (bins after_store !! sha256_hex "test-key")
    with (Some (mkBinFile (Content test_file) 1000)) in Hsecond.
  apply Hsecond. vm_compute. discriminate.
Defined.

Lemma evictOldest_oldest_first_witness :
  bins two_entries !! sha256_hex "key1" = Some (mkBinFile (Content small_file) 1000) ∧
  bins (evictOldest 5 two_entries) !! sha256_hex "key1" = None ∧
  bins (evictOldest 5 two_entries) !! sha256_hex "test-key" =
    Some (mkBinFile (Content test_file) 2000) ∧
  modTime (mkBinFile (Content small_file) 1000) <=
    modTime (mkBinFile (Content test_file) 2000).
Proof.
  assert (H1 : bins two_entries !! sha256_hex "key1" =
               Some (mkBinFile (Content small_file) 1000)) by (vm_compute; reflexivity).
  assert (H2 : bins (evictOldest 5 two_entries) !! sha256_hex "key1" = None)
    by (vm_compute; reflexivity).
  assert (H3 : bins (evictOldest 5 two_entries) !! sha256_hex "test-key" =
               Some (mkBinFile (Content test_file) 2000)) by (vm_compute; reflexivity).
  split; [exact H1|]. split; [exact H2|]. split; [exact H3|].
  exact (evictOldest_oldest_first 5 two_entries _ _ _ _ H1 H2 H3).
Defined.

End CacheOpsProps.

(** ** The service as its callers see it (package service) *)

Module PipelineProps.
Import Domain Service ServiceOps.

Lemma Validate_error_code (r : FileRequest) (e : goerror) :
  Validate r = Some e →
  ∃ de, e = DomainError de ∧ Code de = "INVALID_INPUT" ∧ HTTPStatus de = 400.
Proof.
  unfold Validate, invalid. intros Hrej.
  repeat match type of Hrej with
         | (if ?b then _ else _) = _ => destruct b
         end;
    try discriminate; injection Hrej as <-; by eexists.
Qed.

Lemma Validate_chain_given (r : FileRequest) : Validate r = None → rChainID r ≠ "".
Proof.
  unfold Validate, invalid. intros Hv Hc.
  destruct (String.eqb (rTXID r) ""); [discriminate|].
  destruct (negb _); [discriminate|]. destruct (negb _); [discriminate|].
  rewrite Hc in Hv. change (String.eqb "" "") with true in Hv. discriminate.
Qed.

Section WithDeps.
Context {C : Type} `{Crypto.RPCClient C}.
Context {K : Type} `{CacheImpl K}.
Context `{Storage.GzipLib} `{Storage.Sniffer}.

Lemma DecryptData_error_code (client : C) (txid evk : string) (e : goerror) :
  (Crypto.DecryptData client txid evk).1 = Fail e →
  ∃ de, e = DomainError de ∧
        ((Code de = "INVALID_INPUT" ∧ HTTPStatus de = 400) ∨
         (Code de = "DECRYPTION_FAILED" ∧ HTTPStatus de = 500)).
Proof.
  unfold Crypto.DecryptData.
  destruct (Crypto.ValidateTXID txid); [intros [= <-]; eexists; split; [done|by left]|].
  destruct (Crypto.ValidateEVK evk); [intros [= <-]; eexists; split; [done|by left]|].
  destruct (Crypto.client_DecryptData client txid evk) as [hexData|err];
    [|intros [= <-]; eexists; split; [done|by right]].
  destruct (Crypto.hex_DecodeString hexData); [discriminate|].
  intros [= <-]. eexists. split; [done|by right].
Qed.

Lemma DecryptData_calls (client : C) (txid evk : string) :
  (Crypto.DecryptData client txid evk).2 = [] ∨
  (Crypto.DecryptData client txid evk).2 = [(txid, evk)].
Proof.
  unfold Crypto.DecryptData.
  destruct (Crypto.ValidateTXID txid); [by left|].
  destruct (Crypto.ValidateEVK evk); [by left|].
  destruct (Crypto.client_DecryptData client txid evk) as [hexData|err]; [|by right].
  destruct (Crypto.hex_DecodeString hexData); by right.
Qed.

Lemma GetFile_failure_inv (s : @FileService C K) (ctx : option goerror) (now : Z)
    (req : FileRequest) (e : goerror) :
  returned (GetFile s ctx now req) = Fail e →
  ∃ de, e = DomainError de ∧
        ((Code de = "INVALID_INPUT" ∧ HTTPStatus de = 400) ∨
         (Code de = "CHAIN_ERROR" ∧ HTTPStatus de = 400) ∨
         (Code de = "DECRYPTION_FAILED" ∧ HTTPStatus de = 500)).
Proof.
  unfold GetFile.
  destruct (Validate req) as [e'|] eqn:Hv.
  { apply Validate_error_code in Hv as (de & -> & Hc & Hs). intros [= <-].
    exists de. split; [done|]. by left. }
  destruct (cache_lookup s ctx now req) as [[cached|] k']; [discriminate|].
  unfold getClient, GetChain.
  destruct (if String.eqb (rChainID req) "" then _ else _) as [client|e'] eqn:Hc.
  2:{ assert (∃ id, e' = DomainError (NewChainError id "chain not found")) as [id ->].
      { destruct (String.eqb (rChainID req) "");
          [destruct (chains s !! defaultChain s)|destruct (chains s !! rChainID req)];
          try discriminate; injection Hc as <-; by eexists. }
      intros [= <-]. eexists. split; [done|]. right. by left. }
  pose proof (DecryptData_error_code client (rTXID req) (rEVK req)) as Hd.
  destruct (Crypto.DecryptData client (rTXID req) (rEVK req)) as [[data|e'] calls].
  - unfold Storage.DetectType. discriminate.
  - intros [= <-]. destruct (Hd e' eq_refl) as (de & -> & [Hi|Hdf]).
    + exists de. split; [done|]. by left.
    + exists de. split; [done|]. right. by right.
Qed.

(** X22. Every failure of [GetFile] is a domain error, and the HTTP
    surface answers a [GetFile] with 200, with 400 INVALID_INPUT, with
    400 CHAIN_ERROR or with 500 DECRYPTION_FAILED: never with
    INTERNAL_ERROR, RPC_ERROR or NOT_FOUND. *)
Theorem GetFile_answers (s : @FileService C K) (ctx : option goerror) (now : Z)
    (req : FileRequest) :
  Wiring.response_of (returned (GetFile s ctx now req)) ∈
    [(200, ""); (400, "INVALID_INPUT"); (400, "CHAIN_ERROR"); (500, "DECRYPTION_FAILED")].
Proof.
  destruct (returned (GetFile s ctx now req)) as [file|e] eqn:Hret.
  - cbn. apply list_elem_of_lookup_2 with 0%nat. done.
  - apply GetFile_failure_inv in Hret as (de & -> & [[Hc Hs]|[[Hc Hs]|[Hc Hs]]]);
      cbn; rewrite Hc, Hs.
    + apply list_elem_of_lookup_2 with 1%nat. done.
    + apply list_elem_of_lookup_2 with 2%nat. done.
    + apply list_elem_of_lookup_2 with 3%nat. done.
Qed.

Lemma DecryptData_ok_calls (client : C) (txid evk : string) (data : bytes)
    (calls : list (string * string)) :
  Crypto.DecryptData client txid evk = (Ok data, calls) → calls = [(txid, evk)].
Proof.
  unfold Crypto.DecryptData.
  destruct (Crypto.ValidateTXID txid); [discriminate|].
  destruct (Crypto.ValidateEVK evk); [discriminate|].
  destruct (Crypto.client_DecryptData client txid evk) as [hexData|err]; [|discriminate].
  destruct (Crypto.hex_DecodeString hexData); [|discriminate]. by intros [= _ <-].
Qed.

Lemma GetFile_calls (s : @FileService C K) (ctx : option goerror) (now : Z)
    (req : FileRequest) :
  rpcCalls (GetFile s ctx now req) = [] ∨
  rpcCalls (GetFile s ctx now req) = [(rTXID req, rEVK req)].
Proof.
  unfold GetFile.
  destruct (Validate req) as [e|]; [by left|].
  destruct (cache_lookup s ctx now req) as [[cached|] k']; [by left|].
  destruct (getClient s (rChainID req)) as [client|e]; [|by left].
  pose proof (DecryptData_calls client (rTXID req) (rEVK req)) as Hcalls.
  destruct (Crypto.DecryptData client (rTXID req) (rEVK req)) as [[data|e] calls];
    cbn [snd] in Hcalls; [|done].
  unfold Storage.DetectType. done.
Qed.

Lemma GetFile_spawned_inv (s : @FileService C K) (ctx : option goerror) (now : Z)
    (req : FileRequest) (store : asyncSet) :
  spawned (GetFile s ctx now req) = Some store →
  returned (GetFile s ctx now req) = Ok (asFile store) ∧
  asKey store = CacheKey req ∧ asTTL store = 24 * Cache.hour ∧
  TXID (asFile store) = rTXID req ∧ ChainID (asFile store) = rChainID req ∧
  rpcCalls (GetFile s ctx now req) = [(rTXID req, rEVK req)] ∧
  Validate req = None ∧ rUseCache req = true ∧ is_Some (cache s).
Proof.
  unfold GetFile.
  destruct (Validate req) as [e|] eqn:Hv; [discriminate|].
  destruct (cache_lookup s ctx now req) as [[cached|] k']; [discriminate|].
  destruct (getClient s (rChainID req)) as [client|e]; [|discriminate].
  destruct (Crypto.DecryptData client (rTXID req) (rEVK req)) as [[data|e] calls] eqn:Hd;
    [|discriminate].
  apply DecryptData_ok_calls in Hd as ->.
  unfold Storage.DetectType. cbn [returned rpcCalls spawned].
  destruct (cache s) as [k|]; [|discriminate]. destruct (rUseCache req); [|discriminate].
  intros [= <-]. cbn. by repeat split.
Qed.

(** X23. One [GetFile] calls the node at most once, with the txid and
    the viewing key of the request. It hands a file to the cache only
    when it returns that very file from a fresh retrieval, for a request
    that uses the cache, under the request's cache key and for 24 hours;
    a rejected request, a cache hit and a failure store nothing. *)
Theorem GetFile_effects (s : @FileService C K) (ctx : option goerror) (now : Z)
    (req : FileRequest) :
  let o := GetFile s ctx now req in
  (rpcCalls o = [] ∨ rpcCalls o = [(rTXID req, rEVK req)]) ∧
  match spawned o with
  | Some store =>
      returned o = Ok (asFile store) ∧
      asKey store = CacheKey req ∧ asTTL store = 24 * Cache.hour ∧
      TXID (asFile store) = rTXID req ∧ ChainID (asFile store) = rChainID req ∧
      rpcCalls o = [(rTXID req, rEVK req)] ∧
      Validate req = None ∧ rUseCache req = true ∧ is_Some (cache s)
  | None => True
  end.
Proof.
  cbv zeta. split; [apply GetFile_calls|].
  destruct (spawned (GetFile s ctx now req)) as [store|] eqn:Hs; [|done].
  by apply GetFile_spawned_inv.
Qed.

(** X24. [GetFile] never uses the default chain: a request without
    chain id is rejected by [Validate] before the chain is looked up, so
    the outcome does not depend on which chain is the default. *)
Theorem GetFile_ignores_default_chain (s : @FileService C K) (d : string)
    (ctx : option goerror) (now : Z) (req : FileRequest) :
  GetFile (with_default s d) ctx now req = GetFile s ctx now req.
Proof.
  unfold GetFile, cache_lookup, getClient, GetChain, with_default.
  cbn [chains defaultChain cache decompressor].
  destruct (Validate req) as [e|] eqn:Hv; [done|].
  apply Validate_chain_given, String.eqb_neq in Hv. by rewrite Hv.
Qed.

End WithDeps.

(** *** The service over the filesystem cache *)

Section WithFilesystemCache.
Import Cache Wiring.
Context `{hasher : Hasher} `{codec : MetaCodec}.
Context {C : Type} `{rpc : Crypto.RPCClient C}.
Context `{gz : Storage.GzipLib} `{sn : Storage.Sniffer}.

Lemma GetFile_hit_after_store
    (s : @FileService C (FilesystemCache * State)) (ctx : option goerror)
    (now tSet now2 : Z) (req : FileRequest) (store : asyncSet)
    (c : FilesystemCache) (st1 : State) :
  spawned (GetFile s ctx now req) = Some store →
  time_Sub now2 tSet <= ttl c →
  let st2 := (Set_ c None tSet (asKey store) (asFile store) (asTTL store) st1).2 in
  GetFile (with_cache s (c, st2)) None now2 req =
    mkOutcome (Ok (mkFile "" "" (Content (asFile store))
                     (Some (read_meta (sha256_hex (CacheKey req)) st2)) now2))
              (Some (c, add_hit st2)) [] None.
Proof.
  intros Hstore Hfresh st2.
  apply GetFile_spawned_inv in Hstore as (Hret & Hkey & _ & _ & _ & _ & Hv & Huse & _).
  assert (Hget : Get c None now2 (CacheKey req) st2 =
                 (Ok (mkFile "" "" (Content (asFile store))
                        (Some (read_meta (sha256_hex (CacheKey req)) st2)) now2),
                  add_hit st2)).
  { apply (CacheProps.Get_fresh c now2 (CacheKey req) st2
             (mkBinFile (Content (asFile store)) tSet)); [|done].
    unfold st2, Set_. cbn [snd bins]. rewrite Hkey. apply lookup_insert_eq. }
  unfold GetFile, cache_lookup, with_cache. cbn [cache]. rewrite Hv, Huse.
  cbn [cache_Get fs_cache fst snd]. by rewrite Hget.
Qed.

(** Over the filesystem cache every file that [GetFile] returns has
    metadata. *)
Lemma GetFile_ok_metadata
    (s : @FileService C (FilesystemCache * State)) (ctx : option goerror) (now : Z)
    (req : FileRequest) (file : File) :
  returned (GetFile s ctx now req) = Ok file → is_Some (Metadata file).
Proof.
  unfold GetFile. destruct (Validate req); [discriminate|].
  destruct (cache_lookup s ctx now req) as [[cached|] k'] eqn:Hl.
  - intros [= <-]. unfold cache_lookup in Hl.
    destruct (cache s) as [[c st]|]; [|discriminate].
    destruct (rUseCache req); [|discriminate].
    cbn [cache_Get fs_cache fst snd] in Hl. unfold Get in Hl.
    destruct ctx; [discriminate|].
    destruct (bins st !! _); [|discriminate].
    destruct (_ >? _); [discriminate|]. injection Hl as <- _. by eexists.
  - destruct (getClient s (rChainID req)); [|discriminate].
    destruct (Crypto.DecryptData _ _ _) as [[data|e] calls]; [|discriminate].
    unfold Storage.DetectType. intros [= <-]. by eexists.
Qed.

(** X25. Once the store that a [GetFile] spawned has run, on whatever
    state the cache is in by then, the same request is served from the
    cache while the entry is fresh: no call to the node, no new store,
    one more hit, the same content and the stored metadata, but with
    empty transaction and chain ids in the file. *)
Theorem GetFile_served_from_cache
    (s : @FileService C (FilesystemCache * State)) (ctx : option goerror)
    (now tSet now2 : Z) (req : FileRequest) (store : asyncSet)
    (c : FilesystemCache) (st1 : State)
    (Hstore : spawned (GetFile s ctx now req) = Some store)
    (Hfresh : time_Sub now2 tSet <= ttl c) :
  let st2 := (Set_ c None tSet (asKey store) (asFile store) (asTTL store) st1).2 in
  let second := GetFile (with_cache s (c, st2)) None now2 req in
  returned (GetFile s ctx now req) = Ok (asFile store) ∧
  rpcCalls second = [] ∧ spawned second = None ∧
  cacheAfter second = Some (c, add_hit st2) ∧
  ∃ md, returned second = Ok (mkFile "" "" (Content (asFile store)) (Some md) now2) ∧
        ∀ m b, Metadata (asFile store) = Some m → json_Marshal_FileMetadata m = Ok b →
               md = json_Unmarshal_FileMetadata b.
Proof.
  cbv zeta.
  rewrite (GetFile_hit_after_store s ctx now tSet now2 req store c st1 Hstore Hfresh).
  apply GetFile_spawned_inv in Hstore as (Hret & Hkey & _).
  cbn [returned rpcCalls spawned cacheAfter]. repeat split; [done|].
  eexists. split; [done|].
  intros m b Hm Hb. unfold read_meta, Set_. cbn [snd metas].
  rewrite Hm, Hb, Hkey. by rewrite lookup_insert_eq.
Qed.

End WithFilesystemCache.

Import Samples Cases Wiring.

Lemma GetFile_served_from_cache_witness :
  let st2 := (Cache.Set_ (H := hasher_requests) (H0 := meta_codec_hello) small_cache None 1000
                (asKey hello_store) (asFile hello_store) (asTTL hello_store) empty_dir).2 in
  @spawned fs_handle (@GetFile _ _ _ fs_cache_hello _ _ service_hello_cached None 7 req_a)
    = Some hello_store ∧
  @rpcCalls fs_handle
    (@GetFile _ _ _ fs_cache_hello _ _
       (with_cache service_hello_cached (small_cache, st2)) None 5000 req_a) = [] ∧
  @returned fs_handle
    (@GetFile _ _ _ fs_cache_hello _ _
       (with_cache service_hello_cached (small_cache, st2)) None 5000 req_a)
    = Ok (mkFile "" "" (list_byte_of_string "Hello, World!") (Some hello_metadata) 5000).
Proof.
  cbv zeta.
  assert (Hstore : @spawned fs_handle
                     (@GetFile _ _ _ fs_cache_hello _ _ service_hello_cached None 7 req_a)
                   = Some hello_store) by (vm_compute; reflexivity).
  destruct (GetFile_served_from_cache (hasher := hasher_requests) (codec := meta_codec_hello)
              service_hello_cached None 7 1000 5000 req_a hello_store small_cache empty_dir
              Hstore)
    as (_ & Hcalls & _ & _ & md & Hret & Hmd).
  - vm_compute. discriminate.
  - split; [exact Hstore|]. split; [exact Hcalls|].
    rewrite (Hmd hello_metadata hello_metadata_json eq_refl eq_refl) in Hret. exact Hret.
Defined.

End PipelineProps.

(** ** The file handler (package handler) *)

Module HandlerProps.
Import Domain Service ServiceOps Handler.

Lemma isHexString_is_hex (c : ascii) :
  negb ((Ascii.ltb c "0" || Ascii.ltb "9" c) &&
        (Ascii.ltb c "a" || Ascii.ltb "f" c) &&
        (Ascii.ltb c "A" || Ascii.ltb "F" c)) = GoString.is_hex c.
Proof. destruct c as [[] [] [] [] [] [] [] []]; vm_compute; reflexivity. Qed.

(** The handler's test of the path parameter is the txid pattern of
    [Validate]. *)
Lemma path_test_txidPattern (p : string) :
  (GoString.len p =? 64) && isHexString p = txidPattern p.
Proof.
  unfold txidPattern, isHexString, GoString.len. f_equal.
  - destruct (Nat.eqb_spec (String.length p) 64) as [->|Hne]; [done|].
    apply Z.eqb_neq. lia.
  - induction (GoString.chars p) as [|c l IH]; [done|].
    cbn [forallb]. by rewrite isHexString_is_hex, IH.
Qed.

Lemma Validate_bad_txid (req : FileRequest) :
  txidPattern (rTXID req) = false →
  ∃ reason, Validate req = Some (DomainError (NewInvalidInputError "txid" reason)).
Proof.
  intros Hp. unfold Validate, invalid. rewrite Hp. cbn [negb].
  destruct (String.eqb (rTXID req) ""); [by eexists|].
  destruct (negb _); by eexists.
Qed.

Lemma details_present (field reason : string) :
  (0 <? Z.of_nat (length (map_to_list (Details (NewInvalidInputError field reason))))) = true.
Proof.
  unfold NewInvalidInputError, WithDetail, NewError. cbn [Details].
  destruct (decide (field = field)) as [_|]; [|done].
  apply Z.ltb_lt.
  destruct (map_to_list (<["reason" := reason]> (<["field" := field]> (∅ : gmap string string))))
    as [|kv l] eqn:Hl; [|cbn; lia].
  apply map_to_list_empty_iff in Hl.
  apply (f_equal (λ m : gmap string string, m !! "reason")) in Hl.
  rewrite lookup_insert_eq, lookup_empty in Hl. discriminate.
Qed.

Section WithDeps.
Context {C : Type} `{Crypto.RPCClient C}.
Context {K : Type} `{CacheImpl K}.
Context `{Storage.GzipLib} `{Storage.Sniffer}.

(** X26. When neither the path parameter nor the [txid] query value
    is 64 hex digits, the handler answers 400 INVALID_INPUT as JSON with
    the request id and the field [txid] in the details, and the service
    has neither looked into the cache nor called the node nor stored
    anything. *)
Theorem GetFile_without_txid (s : @FileService C K) (ctx : option goerror) (now : Z)
    (r : request)
    (Hpath : txidPattern (txidParam r) = false)
    (Hquery : txidPattern (txidQuery r) = false) :
  ∃ reason,
    Handler.GetFile s ctx now r =
      (Wrote (mkResponse 400 {[ "Content-Type" := "application/json" ]}
                (ErrorBody "INVALID_INPUT" ("invalid input: " ++ reason) (requestID r)
                   (Some (<["reason" := reason]> (<["field" := "txid"]> ∅))))),
       mkOutcome (Fail (DomainError (NewInvalidInputError "txid" reason))) (cache s) [] None).
Proof.
  unfold Handler.GetFile, fileRequest. rewrite path_test_txidPattern, Hpath.
  set (req := mkFileRequest (txidQuery r) (evkQuery r) (chainParam r) (txidParam r) true).
  destruct (Validate_bad_txid req Hquery) as (reason & Hv).
  exists reason. unfold Service.GetFile. rewrite Hv. cbn [returned].
  unfold writeError. by rewrite details_present.
Qed.

End WithDeps.

Section WithFilesystemCache.
Import Cache Wiring.
Context `{hasher : Hasher} `{codec : MetaCodec}.
Context {C : Type} `{rpc : Crypto.RPCClient C}.
Context `{gz : Storage.GzipLib} `{sn : Storage.Sniffer}.

Lemma setFileHeaders_lookup (txid : string) (md : FileMetadata) :
  is_Some (setFileHeaders txid md !! "Content-Type") ∧
  setFileHeaders txid md !! "Content-Type" ≠ Some "" ∧
  setFileHeaders txid md !! "Cache-Control" = Some "public, max-age=31536000, immutable" ∧
  setFileHeaders txid md !! "ETag" = Some (quote ++ txid ++ quote).
Proof.
  unfold setFileHeaders.
  destruct (String.eqb_spec (ContentType md) "") as [Heq|Hne],
           (negb (String.eqb (Filename md) "")), (Size md >? 0); cbn [negb];
    repeat split;
    repeat first [ rewrite lookup_insert_eq
                 | rewrite lookup_insert_ne by done
                 | rewrite lookup_singleton_eq ];
    try done; try (by eexists); congruence.
Qed.

(** X27. Over the filesystem cache the handler always writes a response
    (it never dereferences absent metadata). A file that the service
    returns is answered with 200, its content as body, a Content-Type
    that is not empty, the Cache-Control header, and as ETag the
    transaction id of the returned file between double quotes; a failure
    is answered with JSON, with 400 INVALID_INPUT, 400 CHAIN_ERROR or 500
    DECRYPTION_FAILED, and the request id. *)
Theorem GetFile_writes_response
    (s : @FileService C (FilesystemCache * State)) (ctx : option goerror) (now : Z)
    (r : request) :
  ∃ resp, (Handler.GetFile s ctx now r).1 = Wrote resp ∧
    (Handler.GetFile s ctx now r).2 = Service.GetFile s ctx now (fileRequest r) ∧
    match returned (Service.GetFile s ctx now (fileRequest r)) with
    | Ok file =>
        status resp = 200 ∧ payload resp = FileBody (Content file) ∧
        is_Some (header resp !! "Content-Type") ∧
        header resp !! "Content-Type" ≠ Some "" ∧
        header resp !! "Cache-Control" = Some "public, max-age=31536000, immutable" ∧
        header resp !! "ETag" = Some (quote ++ TXID file ++ quote)
    | Fail _ =>
        header resp = {[ "Content-Type" := "application/json" ]} ∧
        ∃ code message details,
          payload resp = ErrorBody code message (requestID r) details ∧
          (status resp, code) ∈
            [(400, "INVALID_INPUT"); (400, "CHAIN_ERROR"); (500, "DECRYPTION_FAILED")]
    end.
Proof.
  unfold Handler.GetFile.
  destruct (returned (Service.GetFile s ctx now (fileRequest r))) as [file|e] eqn:Hret.
  - destruct (PipelineProps.GetFile_ok_metadata s ctx now _ file Hret) as [md Hmd].
    rewrite Hmd. eexists. split; [done|]. split; [done|]. cbn [status payload header].
    split; [done|]. split; [done|]. apply setFileHeaders_lookup.
  - apply PipelineProps.GetFile_failure_inv in Hret
      as (de & -> & [[Hc Hs]|[[Hc Hs]|[Hc Hs]]]);
      (eexists; split; [done|]; split; [done|]; cbn [writeError header payload status];
       split; [done|]; do 3 eexists; split; [done|]; rewrite Hc, Hs).
    + apply list_elem_of_lookup_2 with 0%nat. done.
    + apply list_elem_of_lookup_2 with 1%nat. done.
    + apply list_elem_of_lookup_2 with 2%nat. done.
Qed.

(** X28. The ETag depends on where the file came from. The first answer
    to a request carries the transaction id as ETag; once the spawned
    store has run, the same request is answered from the filesystem
    cache with the same body and status 200 but with an empty ETag (two
    double quotes), because the cache does not keep the transaction id. *)
Theorem GetFile_cached_etag
    (s : @FileService C (FilesystemCache * State)) (ctx : option goerror)
    (now tSet now2 : Z) (r : request) (store : asyncSet)
    (c : FilesystemCache) (st1 : State)
    (Hstore : spawned (Service.GetFile s ctx now (fileRequest r)) = Some store)
    (Hfresh : time_Sub now2 tSet <= ttl c) :
  let st2 := (Set_ c None tSet (asKey store) (asFile store) (asTTL store) st1).2 in
  ∃ first second,
    (Handler.GetFile s ctx now r).1 = Wrote first ∧
    (Handler.GetFile (with_cache s (c, st2)) None now2 r).1 = Wrote second ∧
    status first = 200 ∧ status second = 200 ∧
    payload first = FileBody (Content (asFile store)) ∧
    payload second = FileBody (Content (asFile store)) ∧
    header first !! "ETag" = Some (quote ++ rTXID (fileRequest r) ++ quote) ∧
    header second !! "ETag" = Some (quote ++ quote) ∧
    rTXID (fileRequest r) ≠ "".
Proof.
  cbv zeta. unfold Handler.GetFile.
  rewrite (PipelineProps.GetFile_hit_after_store s ctx now tSet now2 (fileRequest r) store
             c st1 Hstore Hfresh).
  pose proof (PipelineProps.GetFile_spawned_inv s ctx now _ store Hstore)
    as (Hret & _ & _ & Htx & _ & _ & Hv & _).
  destruct (PipelineProps.GetFile_ok_metadata s ctx now _ _ Hret) as [md Hmd].
  rewrite Hret, Hmd. cbn [returned Metadata TXID Content].
  do 2 eexists. split; [done|]. split; [done|]. cbn [status payload header].
  repeat split.
  - rewrite Htx. apply setFileHeaders_lookup.
  - apply setFileHeaders_lookup.
  - intros Hempty. apply CacheKeyProps.Validate_ok_inv in Hv as (Ht & _).
    rewrite Hempty in Ht. discriminate.
Qed.

End WithFilesystemCache.

Import Samples Cases Wiring.

Lemma GetFile_without_txid_witness :
  ∃ reason,
    Handler.GetFile service_hello None 7 http_no_txid =
      (Wrote (mkResponse 400 {[ "Content-Type" := "application/json" ]}
                (ErrorBody "INVALID_INPUT" ("invalid input: " ++ reason) "req-1"
                   (Some (<["reason" := reason]> (<["field" := "txid"]> ∅))))),
       mkOutcome (Fail (DomainError (NewInvalidInputError "txid" reason))) None [] None).
Proof.
  apply (GetFile_without_txid service_hello None 7 http_no_txid); reflexivity.
Defined.

Lemma GetFile_cached_etag_witness :
  let st2 := (Cache.Set_ (H := hasher_requests) (H0 := meta_codec_hello) small_cache None 1000
                (asKey hello_store) (asFile hello_store) (asTTL hello_store) empty_dir).2 in
  ∃ first second,
    (@Handler.GetFile _ _ _ fs_cache_hello _ _ service_hello_cached None 7 http_req_a).1
      = Wrote first ∧
    (@Handler.GetFile _ _ _ fs_cache_hello _ _
       (with_cache service_hello_cached (small_cache, st2)) None 5000 http_req_a).1
      = Wrote second ∧
    payload first = payload second ∧
    header first !! "ETag" = Some (quote ++ txid_a ++ quote) ∧
    header second !! "ETag" = Some (quote ++ quote).
Proof.
  cbv zeta.
  destruct (GetFile_cached_etag (hasher := hasher_requests) (codec := meta_codec_hello)
              service_hello_cached None 7 1000 5000 http_req_a hello_store
              small_cache empty_dir)
    as (first & second & H1 & H2 & _ & _ & Hp1 & Hp2 & He1 & He2 & _).
  - vm_compute. reflexivity.
  - vm_compute. discriminate.
  - exists first, second. split; [exact H1|]. split; [exact H2|].
    split; [by rewrite Hp1, Hp2|]. split; [exact He1|exact He2].
Defined.

End HandlerProps.

(** ** The chain manager (package chain) *)

Module ManagerProps.
Import Domain Chain.

Lemma enabled_chains_lookup (cfg : ChainsConfig) (id : string) :
  enabled_chains cfg !! id =
    match Chains cfg !! id with
    | Some cc => new_chain id cc
    | None => None
    end.
Proof. unfold enabled_chains. rewrite map_lookup_imap. by destruct (Chains cfg !! id). Qed.

Lemma NewManager_chains (cfg : ChainsConfig) (order : list string) (m : Manager) :
  NewManager cfg order = Ok m → chains m = enabled_chains cfg.
Proof.
  unfold NewManager. destruct (_ =? 0); [discriminate|].
  destruct (negb _).
  - destruct (enabled_chains cfg !! Default cfg); [|discriminate]. by intros [= <-].
  - destruct order; by intros [= <-].
Qed.

(** X29. [NewManager] fails exactly when no chain is enabled or the
    default named in the configuration is not an enabled chain. When it
    succeeds the default chain resolves (also when the manager chose it
    itself), a default named in the configuration is kept, and
    [GetChain] finds a client exactly for the enabled chains of the
    configuration, built by [NewClient] from that chain's settings. *)
Theorem NewManager_outcome (cfg : ChainsConfig) (order : list string)
    (Horder : order ≡ₚ (map_to_list (enabled_chains cfg)).*1) :
  match NewManager cfg order with
  | Ok m =>
      (∃ client, GetDefaultChain m = Ok client) ∧
      (Default cfg ≠ "" → defaultChain m = Default cfg) ∧
      ∀ id, GetChain m id =
            match Chains cfg !! id with
            | Some cc =>
                if ccEnabled cc then
                  Ok (Verusrpc.NewClient
                        (Verusrpc.mkConfig (ccRPCURL cc) (ccRPCUser cc) (ccRPCPassword cc)
                           (ccRPCTimeout cc) (ccMaxRetries cc) (ccRetryDelay cc)))
                else Fail (DomainError (NewChainError id "chain not found"))
            | None => Fail (DomainError (NewChainError id "chain not found"))
            end
  | Fail e =>
      (e = ErrorsNew "no chains configured" ∧
       ∀ id cc, Chains cfg !! id = Some cc → ccEnabled cc = false) ∨
      (e = ErrorsNew ("default chain " ++ Default cfg ++ " not found") ∧
       Default cfg ≠ "" ∧
       ∀ cc, Chains cfg !! Default cfg = Some cc → ccEnabled cc = false)
  end.
Proof.
  assert (Hget : ∀ m id, chains m = enabled_chains cfg →
    GetChain m id =
      match Chains cfg !! id with
      | Some cc =>
          if ccEnabled cc then
            Ok (Verusrpc.NewClient
                  (Verusrpc.mkConfig (ccRPCURL cc) (ccRPCUser cc) (ccRPCPassword cc)
                     (ccRPCTimeout cc) (ccMaxRetries cc) (ccRetryDelay cc)))
          else Fail (DomainError (NewChainError id "chain not found"))
      | None => Fail (DomainError (NewChainError id "chain not found"))
      end).
  { intros m id Hm. unfold GetChain. rewrite Hm, enabled_chains_lookup.
    destruct (Chains cfg !! id) as [cc|]; [|done]. unfold new_chain.
    by destruct (ccEnabled cc). }
  unfold NewManager.
  destruct (Z.of_nat (size (enabled_chains cfg)) =? 0) eqn:Hsize.
  { left. split; [done|]. intros id cc Hcc.
    apply Z.eqb_eq in Hsize. assert (Hempty : enabled_chains cfg = ∅).
    { apply map_size_empty_inv. lia. }
    apply (f_equal (λ m : gmap string Chain, m !! id)) in Hempty.
    rewrite enabled_chains_lookup, Hcc, lookup_empty in Hempty. unfold new_chain in Hempty.
    by destruct (ccEnabled cc). }
  destruct (String.eqb_spec (Default cfg) "") as [Hd|Hd]; cbn [negb].
  - destruct order as [|id rest].
    + exfalso. symmetry in Horder. apply Permutation_nil_r in Horder.
      apply fmap_nil_inv, map_to_list_empty_iff in Horder.
      rewrite Horder, map_size_empty in Hsize. discriminate.
    + split; [|split; [done|by intros id'; apply Hget]].
      assert (Hin : id ∈ (map_to_list (enabled_chains cfg)).*1) by (rewrite <- Horder; left).
      apply list_elem_of_fmap in Hin as ([id' chain] & -> & Hin).
      apply elem_of_map_to_list in Hin. unfold GetDefaultChain, GetChain. cbn.
      rewrite Hin. by eexists.
  - destruct (enabled_chains cfg !! Default cfg) as [chain|] eqn:Hl.
    + split; [|split; [done|by intros id'; apply Hget]].
      unfold GetDefaultChain, GetChain. cbn. rewrite Hl. by eexists.
    + right. split; [done|]. split; [done|]. intros cc Hcc.
      rewrite enabled_chains_lookup, Hcc in Hl. unfold new_chain in Hl.
      by destruct (ccEnabled cc).
Qed.

(** X30. The client of a chain whose configuration passes
    [ChainConfig.Validate] has a URL, a user and a password, a timeout of
    at least one second and between 1 and 10 retries: a configured
    [max_retries] of 0 is valid and becomes 3. *)
Theorem validated_chain_client (cfg : ChainsConfig) (order : list string) (m : Manager)
    (id : string) (cc : ChainConfig) (client : Verusrpc.Client)
    (Hnew : NewManager cfg order = Ok m)
    (Hcc : Chains cfg !! id = Some cc)
    (Hvalid : ChainConfig_Validate cc id = None)
    (Hget : GetChain m id = Ok client) :
  1 <= Verusrpc.maxRetries client <= 10 ∧
  (ccMaxRetries cc = 0 → Verusrpc.maxRetries client = 3) ∧
  Verusrpc.second <= Verusrpc.timeout client ∧
  Verusrpc.url client ≠ "" ∧ Verusrpc.user client ≠ "" ∧ Verusrpc.password client ≠ "".
Proof.
  apply NewManager_chains in Hnew. unfold GetChain in Hget.
  rewrite Hnew, enabled_chains_lookup, Hcc in Hget. unfold new_chain in Hget.
  unfold ChainConfig_Validate in Hvalid.
  destruct (ccEnabled cc); [|discriminate]. cbn [negb] in *.
  destruct (String.eqb_spec (ccRPCURL cc) "") as [|Hurl]; [discriminate|].
  destruct (String.eqb_spec (ccRPCUser cc) "") as [|Huser]; [discriminate|].
  destruct (String.eqb_spec (ccRPCPassword cc) "") as [|Hpw]; [discriminate|].
  destruct (ccRPCTimeout cc <? Verusrpc.second) eqn:Ht; [discriminate|].
  destruct (ccMaxRetries cc <? 0) eqn:Hlo; [discriminate|].
  destruct (ccMaxRetries cc >? 10) eqn:Hhi; [discriminate|].
  apply Z.ltb_ge in Ht, Hlo. rewrite Z.gtb_ltb in Hhi. apply Z.ltb_ge in Hhi.
  injection Hget as <-. unfold Verusrpc.NewClient.
  cbn [Verusrpc.cfgURL Verusrpc.cfgUser Verusrpc.cfgPassword Verusrpc.cfgTimeout
       Verusrpc.cfgMaxRetries Verusrpc.cfgRetryDelay Verusrpc.maxRetries Verusrpc.timeout
       Verusrpc.url Verusrpc.user Verusrpc.password].
  assert (Hsec : Verusrpc.second = 1000000000) by done.
  destruct (ccMaxRetries cc =? 0) eqn:Hz;
    [apply Z.eqb_eq in Hz|apply Z.eqb_neq in Hz];
    (destruct (ccRPCTimeout cc =? 0) eqn:Htz;
     [apply Z.eqb_eq in Htz|apply Z.eqb_neq in Htz]);
    repeat split; try done; lia.
Qed.

Import Samples Cases.

Lemma NewManager_outcome_witness :
  ∃ m, NewManager chains_cfg ["vrsctest"] = Ok m ∧
       defaultChain m = "vrsctest" ∧
       (∃ client, GetDefaultChain m = Ok client) ∧
       GetChain m "vrsc" = Fail (DomainError (NewChainError "vrsc" "chain not found")).
Proof.
  pose proof (NewManager_outcome chains_cfg ["vrsctest"]) as Hout.
  destruct (NewManager chains_cfg ["vrsctest"]) as [m|e] eqn:Hnew.
  - destruct Hout as (Hdef & _ & Hget); [vm_compute; reflexivity|].
    exists m. split; [done|]. split; [by vm_compute in Hnew; injection Hnew as <-|].
    split; [exact Hdef|]. rewrite Hget. reflexivity.
  - vm_compute in Hnew. discriminate.
Defined.

Lemma validated_chain_client_witness :
  ∃ m client, NewManager chains_cfg ["vrsctest"] = Ok m ∧
              GetChain m "vrsctest" = Ok client ∧
              ccMaxRetries testnet_cfg = 0 ∧ Verusrpc.maxRetries client = 3.
Proof.
  destruct (NewManager chains_cfg ["vrsctest"]) as [m|e] eqn:Hnew;
    [|vm_compute in Hnew; discriminate].
  destruct (GetChain m "vrsctest") as [client|e] eqn:Hget.
  - exists m, client. split; [done|]. split; [done|]. split; [done|].
    destruct (validated_chain_client chains_cfg ["vrsctest"] m "vrsctest" testnet_cfg client
                Hnew eq_refl eq_refl Hget) as (_ & Hzero & _).
    by apply Hzero.
  - exfalso. vm_compute in Hnew. injection Hnew as <-. vm_compute in Hget. discriminate.
Defined.

End ManagerProps.
